(** * Scoreboard pipeline: projection, grouping, aggregation and ranking

    A shallow embedding of [api/process_scoreboard.py], [api/rankings.py]
    and [DataManager.get_player_list] of [main.py], with the properties the
    specification states about them.

    Python values are embedded as follows.
    - [int] is [Z]; [//] and [%] by a positive constant are [Z.div] and
      [Z.modulo] (both round towards minus infinity, as Python does).
    - [float] is a binary64 value, [spec_float] with precision 53 and
      maximal exponent 1024; [int / int] and [float * float] are the
      correctly rounded operations of [SpecFloat].
    - [str] is [string] (the UTF-8 bytes of the text).
    - a [dict] is an association list in insertion order; a well-formed
      dict has no repeated key.
    - an exception is the [Raise] outcome of the [py] monad. *)

From Stdlib Require Import ZArith NArith List String Ascii Bool Lia.
From Stdlib Require Import Permutation Sorted.
From Stdlib Require Import Floats.SpecFloat.
From Stdlib Require Import DecimalString DecimalZ DecimalN DecimalFacts.
Import ListNotations.

Set Warnings "-register-all".

Open Scope string_scope.
Open Scope list_scope.
Open Scope Z_scope.

(** ** Outcomes of a Python call *)

(** An exception, with the text [str(e)] gives for it. *)
Inductive exn : Type :=
| AttributeError (msg : string)
| TypeError (msg : string)
| ZeroDivisionError (msg : string)
| OverflowError (msg : string)
| ValueError (msg : string).

Definition exn_str (e : exn) : string :=
  match e with
  | AttributeError msg | TypeError msg
  | ZeroDivisionError msg | OverflowError msg | ValueError msg => msg
  end.

(** [Ok] is a normal return and [Raise] an exception.  [Unmodelled] marks an
    input that leaves the data model of the scoreboard format in a way this
    embedding does not follow: a [Name] that is a number, a boolean or null,
    or a recognised objective whose [Score] is not an integer. *)
Inductive py (A : Type) : Type :=
| Ok (a : A)
| Raise (e : exn)
| Unmodelled.

Arguments Ok {A} a.
Arguments Raise {A} e.
Arguments Unmodelled {A}.

Definition bind {A B : Type} (m : py A) (k : A -> py B) : py B :=
  match m with
  | Ok a => k a
  | Raise e => Raise e
  | Unmodelled => Unmodelled
  end.

Notation "x <- m ;; k" := (bind m (fun x => k))
  (at level 61, m at next level, right associativity).

(** [for x in xs: acc = body(acc, x)], stopping at the first exception. *)
Fixpoint for_each {A S : Type} (body : S -> A -> py S) (xs : list A) (acc : S)
  : py S :=
  match xs with
  | [] => Ok acc
  | x :: rest => acc' <- body acc x ;; for_each body rest acc'
  end.

(** ** Dicts in insertion order *)

Definition dict (V : Type) : Type := list (string * V).

Section Dict.
Context {V : Type}.

(** [d.get(k)] *)
Fixpoint dict_get (k : string) (d : dict V) : option V :=
  match d with
  | [] => None
  | (k', v) :: rest => if String.eqb k k' then Some v else dict_get k rest
  end.

(** [d.pop(k, None)], for its effect on [d] *)
Definition dict_pop (k : string) (d : dict V) : dict V :=
  filter (fun kv => negb (String.eqb k (fst kv))) d.

(** [d[k] = v]: an existing key keeps its position, a new key goes last. *)
Fixpoint dict_set (k : string) (v : V) (d : dict V) : dict V :=
  match d with
  | [] => [(k, v)]
  | (k', v') :: rest =>
      if String.eqb k k' then (k', v) :: rest
      else (k', v') :: dict_set k v rest
  end.

Definition dict_keys (d : dict V) : list string := map fst d.
Definition dict_values (d : dict V) : list V := map snd d.

Definition dict_wf (d : dict V) : Prop := NoDup (dict_keys d).
End Dict.

(** ** JSON values, as [json.load] returns them *)

Inductive json : Type :=
| JNull
| JBool (b : bool)
| JInt (z : Z)
| JFloat (f : spec_float)
| JStr (s : string)
| JList (items : list json)
| JObj (members : list (string * json)).

(** [type(v).__name__] *)
Definition type_name (v : json) : string :=
  match v with
  | JNull => "NoneType"
  | JBool _ => "bool"
  | JInt _ => "int"
  | JFloat _ => "float"
  | JStr _ => "str"
  | JList _ => "list"
  | JObj _ => "dict"
  end.

(** A score entry of [PlayerScores], cleaned or not. *)
Definition record : Type := dict json.

(** * api/rankings.py *)

Record PlayerStats : Type := mkStats {
  play_time_seconds : Z;
  games_played : Z;
  wins : Z;
  kills : Z;
  deaths : Z
}.

Definition stats_zero : PlayerStats := mkStats 0 0 0 0 0.

(** [entry.get("Objective", "")] *)
Definition objective_of (entry : record) : json :=
  match dict_get "Objective" entry with
  | Some v => v
  | None => JStr ""
  end.

(** [entry.get("Score", 0)] *)
Definition score_of (entry : record) : json :=
  match dict_get "Score" entry with
  | Some v => v
  | None => JInt 0
  end.

(** The integer held by a score that is used arithmetically. *)
Definition as_int (v : json) : py Z :=
  match v with
  | JInt z => Ok z
  | _ => Unmodelled
  end.

(** [objective == name]: only a string equals a string literal. *)
Definition obj_is (objective : json) (name : string) : bool :=
  match objective with
  | JStr s => String.eqb s name
  | _ => false
  end.

(** The body of the loop of [calculate_player_stats]. *)
Definition stats_step (stats : PlayerStats) (entry : record) : py PlayerStats :=
  let objective := objective_of entry in
  let score := score_of entry in
  if obj_is objective "PlayTime.Hour" then
    z <- as_int score ;;
    Ok (mkStats (play_time_seconds stats + z * 3600) (games_played stats)
                (wins stats) (kills stats) (deaths stats))
  else if obj_is objective "PlayTime.Min" then
    z <- as_int score ;;
    Ok (mkStats (play_time_seconds stats + z * 60) (games_played stats)
                (wins stats) (kills stats) (deaths stats))
  else if obj_is objective "PlayTime.Sec" then
    z <- as_int score ;;
    Ok (mkStats (play_time_seconds stats + z) (games_played stats)
                (wins stats) (kills stats) (deaths stats))
  else if obj_is objective "CompletedCount" then
    z <- as_int score ;;
    Ok (mkStats (play_time_seconds stats) z
                (wins stats) (kills stats) (deaths stats))
  else if obj_is objective "WinCount" then
    z <- as_int score ;;
    Ok (mkStats (play_time_seconds stats) (games_played stats)
                z (kills stats) (deaths stats))
  else if obj_is objective "KilledCount" then
    z <- as_int score ;;
    Ok (mkStats (play_time_seconds stats) (games_played stats)
                (wins stats) z (deaths stats))
  else if obj_is objective "DeathCount" then
    z <- as_int score ;;
    Ok (mkStats (play_time_seconds stats) (games_played stats)
                (wins stats) (kills stats) z)
  else Ok stats.

Definition calculate_player_stats (player_data : list record) : py PlayerStats :=
  for_each stats_step player_data stats_zero.

(** * api/process_scoreboard.py *)

(** ** The objects [nbt_to_json] receives

    [tag.obj] lists the classes of [nbtlib.tag] that [nbt_to_json] tests
    for, [End] for a tag of any other class, and [Plain] for a Python object
    that is no tag at all (a [dict], [list], [int], [float], [str], ...). *)
Module tag.
Inductive obj : Type :=
| Compound (members : list (string * obj))
| List (items : list obj)
| ByteArray (xs : list Z)
| IntArray (xs : list Z)
| LongArray (xs : list Z)
| Byte (z : Z)
| Short (z : Z)
| Int (z : Z)
| Long (z : Z)
| Float (f : spec_float)
| Double (f : spec_float)
| String (s : string)
| End
| Plain (v : json).
End tag.

Section Projector.
(** Python's builtin [str], applied in the last branch to whatever object
    reached it.  It is supplied by the runtime (and, for tags, by nbtlib). *)
Variable py_str : tag.obj -> string.

Fixpoint nbt_to_json (nbt_data : tag.obj) : json :=
  match nbt_data with
  | tag.Compound members =>
      JObj (map (fun kv => (fst kv, nbt_to_json (snd kv))) members)
  | tag.List items => JList (map nbt_to_json items)
  | tag.ByteArray xs | tag.IntArray xs | tag.LongArray xs =>
      JList (map JInt xs)
  | tag.Byte z | tag.Short z | tag.Int z | tag.Long z => JInt z
  | tag.Float f | tag.Double f => JFloat f
  | tag.String s => JStr s
  | other => JStr (py_str other)
  end.
End Projector.

(** [str(int)] *)
Definition str_int (z : Z) : string := NilZero.string_of_int (Z.to_int z).

(** An instance of [str] for evaluating examples: Python's rendering of a
    string, an integer, a boolean and [None]; the rendering of the other
    objects (containers, floats, tags) is not reproduced and left empty. *)
Definition str_scalar (o : tag.obj) : string :=
  match o with
  | tag.Plain (JStr s) => s
  | tag.Plain (JInt z) => str_int z
  | tag.Plain (JBool true) => "True"
  | tag.Plain (JBool false) => "False"
  | tag.Plain JNull => "None"
  | _ => ""
  end.

(** The values the projector produces from tags: dicts, lists, integers,
    floats and strings. *)
Inductive json_shape : json -> Prop :=
| shape_int z : json_shape (JInt z)
| shape_float f : json_shape (JFloat f)
| shape_str s : json_shape (JStr s)
| shape_list items : Forall json_shape items -> json_shape (JList items)
| shape_obj members :
    Forall (fun kv => json_shape (snd kv)) members -> json_shape (JObj members).

(** ** Grouping *)

Definition clean_score_entry (score_entry : record) : record :=
  let cleaned := score_entry in
  let cleaned := dict_pop "Locked" cleaned in
  let cleaned := dict_pop "Name" cleaned in
  cleaned.

(** [grouped[k].append(v)] on a [defaultdict(list)] *)
Fixpoint defaultdict_append {V : Type} (k : string) (v : V) (d : dict (list V))
  : dict (list V) :=
  match d with
  | [] => [(k, [v])]
  | (k', vs) :: rest =>
      if String.eqb k k' then (k', vs ++ [v]) :: rest
      else (k', vs) :: defaultdict_append k v rest
  end.

Definition unknown_player : string := "未知玩家".

(** [score_entry.get("Name", "未知玩家")] *)
Definition name_of (score_entry : record) : json :=
  match dict_get "Name" score_entry with
  | Some v => v
  | None => JStr unknown_player
  end.

(** Using a value as a dict key: a list or a dict is unhashable. *)
Definition as_key (v : json) : py string :=
  match v with
  | JStr s => Ok s
  | JList _ | JObj _ =>
      Raise (TypeError ("unhashable type: '" ++ type_name v ++ "'")%string)
  | _ => Unmodelled
  end.

(** The body of the loop of [group_scores_by_player]. *)
Definition group_step (grouped : dict (list record)) (score_entry : record)
  : py (dict (list record)) :=
  let player_name := name_of score_entry in
  let cleaned_entry := clean_score_entry score_entry in
  k <- as_key player_name ;;
  Ok (defaultdict_append k cleaned_entry grouped).

(** The loop on its own, over entries known to be dicts. *)
Definition group_records (player_scores : list record) : py (dict (list record)) :=
  for_each group_step player_scores [].

(** [not v] *)
Definition falsy (v : json) : bool :=
  match v with
  | JNull => true
  | JBool b => negb b
  | JInt z => Z.eqb z 0
  | JFloat (S754_zero _) => true
  | JFloat _ => false
  | JStr s => String.eqb s ""
  | JList items => match items with [] => true | _ => false end
  | JObj members => match members with [] => true | _ => false end
  end.

(** [score_entry.get] exists on a dict only. *)
Definition as_entry (v : json) : py record :=
  match v with
  | JObj members => Ok members
  | _ => Raise (AttributeError
                  ("'" ++ type_name v ++ "' object has no attribute 'get'")%string)
  end.

(** The elements [for score_entry in player_scores] goes through: a dict
    yields its keys and a string its characters; a number or a boolean is
    not iterable. *)
Definition iterate (v : json) : py (list json) :=
  match v with
  | JList items => Ok items
  | JObj members => Ok (map (fun kv => JStr (fst kv)) members)
  | JStr s => Ok (map (fun c => JStr (String c EmptyString)) (list_ascii_of_string s))
  | _ => Raise (TypeError ("'" ++ type_name v ++ "' object is not iterable")%string)
  end.

Definition group_scores_by_player (scoreboard_data : dict json)
  : py (dict (list record)) :=
  data <- match dict_get "data" scoreboard_data with
          | Some v => as_entry v
          | None => Ok []
          end ;;
  let player_scores :=
    match dict_get "PlayerScores" data with
    | Some v => v
    | None => JList []
    end in
  if falsy player_scores then Ok []
  else
    entries <- iterate player_scores ;;
    for_each (fun grouped v => e <- as_entry v ;; group_step grouped e)
             entries [].

(** * Numbers and text of the ranking pass *)

(** ** binary64 *)

Definition prec : Z := 53.
Definition emax : Z := 1024.

(** An integer as an exact, unrounded operand. *)
Definition exact_int (z : Z) : spec_float :=
  match z with
  | Z0 => S754_zero false
  | Zpos p => S754_finite false p 0
  | Zneg p => S754_finite true p 0
  end.

(** [float(z)], rounded to nearest even. *)
Definition float_of_int (z : Z) : spec_float :=
  binary_normalize prec emax z 0 false.

(** [a / b] on two [int]s: the quotient rounded once to nearest even. *)
Definition int_truediv (a b : Z) : py spec_float :=
  if Z.eqb b 0 then Raise (ZeroDivisionError "division by zero")
  else
    match SFdiv prec emax (exact_int a) (exact_int b) with
    | S754_infinity _ =>
        Raise (OverflowError "integer division result too large for a float")
    | q => Ok q
    end.

(** [x * 100] on a [float] *)
Definition float_mul_100 (x : spec_float) : spec_float :=
  SFmul prec emax x (float_of_int 100).

(** [x < y] on two [float]s *)
Definition float_lt (x y : spec_float) : bool := SFltb x y.

(** ** Format specifications *)

(** ["0" * k] *)
Definition zeros (k : nat) : string := string_of_list_ascii (repeat "0"%char k).

(** [s.rjust(width, "0")] *)
Definition zfill (width : nat) (s : string) : string :=
  (zeros (width - String.length s) ++ s)%string.

(** [str(n)] for [n >= 0] *)
Definition str_nat (n : N) : string := NilZero.string_of_uint (N.to_uint n).

(** The text [format(z, "02d")] gives: zero fill to a width of 2, the sign
    included. *)
Definition pad_02d (z : Z) : string :=
  if Z.ltb z 0 then ("-" ++ zfill 1 (str_nat (Z.abs_N z)))%string
  else zfill 2 (str_nat (Z.abs_N z)).

(** [sys.get_int_max_str_digits()] as CPython sets it: an [int] of more
    decimal digits is not converted to text. *)
Definition int_max_str_digits : Z := 4300.

(** The least number that has too many digits. *)
Definition str_digits_limit : Z := 10 ^ int_max_str_digits.

Arguments str_digits_limit : simpl never.

Definition msg_max_str_digits : string :=
  "Exceeds the limit (4300 digits) for integer string conversion; use sys.set_int_max_str_digits() to increase the limit".

(** [format(z, "02d")] *)
Definition format_02d (z : Z) : py string :=
  if Z.leb str_digits_limit (Z.abs z) then Raise (ValueError msg_max_str_digits)
  else Ok (pad_02d z).

(** The integer nearest to [num / den], ties to even ([den > 0]). *)
Definition round_half_even (num den : Z) : Z :=
  let q := num / den in
  let r := num mod den in
  match Z.compare (2 * r) den with
  | Lt => q
  | Gt => q + 1
  | Eq => if Z.even q then q else q + 1
  end.

(** [format(x, ".{d}f")]: [d] decimals of the exact value of [x]. *)
Definition format_fixed (d : nat) (x : spec_float) : string :=
  let scale := 10 ^ Z.of_nat d in
  let body (q : Z) : string :=
    let whole := str_nat (Z.to_N (q / scale)) in
    match d with
    | O => whole
    | S _ => (whole ++ "." ++ zfill d (str_nat (Z.to_N (q mod scale))))%string
    end in
  let sign (s : bool) : string := if s then "-" else "" in
  match x with
  | S754_nan => "nan"
  | S754_infinity s => (sign s ++ "inf")%string
  | S754_zero s => (sign s ++ body 0)%string
  | S754_finite s m e =>
      let q := if Z.leb 0 e then Zpos m * 2 ^ e * scale
               else round_half_even (Zpos m * scale) (2 ^ (- e)) in
      (sign s ++ body q)%string
  end.

(** ** Sorting

    [list.sort(key=...)] compares keys with [<] only and is stable; with
    [reverse=True] it sorts in descending order and stays stable.  For keys
    that [<] orders as a strict weak order the result of a stable sort does
    not depend on the algorithm; insertion is used here. *)
Section Sort.
Context {A K : Type}.
Variable lt : K -> K -> bool.
Variable key : A -> K.

Fixpoint insert_asc (x : A) (l : list A) : list A :=
  match l with
  | [] => [x]
  | y :: rest =>
      if lt (key y) (key x) then y :: insert_asc x rest else x :: y :: rest
  end.

Fixpoint insert_desc (x : A) (l : list A) : list A :=
  match l with
  | [] => [x]
  | y :: rest =>
      if lt (key x) (key y) then y :: insert_desc x rest else x :: y :: rest
  end.

(** [l.sort(key=key)] *)
Definition list_sort (l : list A) : list A := fold_right insert_asc [] l.

(** [l.sort(key=key, reverse=True)] *)
Definition list_sort_reverse (l : list A) : list A := fold_right insert_desc [] l.

(** [b] may follow [a] in ascending, respectively descending, order: the
    key of the later element is not less than, respectively not greater
    than, the key of the earlier one. *)
Definition ascending (a b : A) : Prop := lt (key b) (key a) = false.
Definition descending (a b : A) : Prop := lt (key a) (key b) = false.

(** Two keys neither of which is less than the other. *)
Definition tied (k k' : K) : bool := negb (lt k k') && negb (lt k' k).

(** The keys of a list all satisfy [good]. *)
Definition good_keys (good : K -> Prop) (l : list A) : Prop :=
  Forall (fun a => good (key a)) l.
End Sort.


(** * api/rankings.py: [generate_rankings] *)

(** An entry of a ranking list: [{"player": ..., "value": ..., ...}].
    [extra] holds the fields a category adds. *)
Record entry (V X : Type) : Type := mkEntry {
  player : string;
  value : V;
  extra : X
}.

Arguments mkEntry {V X} player value extra.
Arguments player {V X} e.
Arguments value {V X} e.
Arguments extra {V X} e.

(** The fields the play-time category adds. *)
Record clock : Type := mkClock {
  formatted : string;
  hours : Z;
  minutes : Z;
  seconds : Z
}.

Module rankings.
Record t : Type := mk {
  play_time : list (entry Z clock);
  games_played : list (entry Z unit);
  wins : list (entry Z unit);
  kills : list (entry Z unit);
  deaths : list (entry Z unit);
  kd_ratio : list (entry spec_float string);
  win_rate : list (entry spec_float string)
}.

Definition empty : t := mk [] [] [] [] [] [] [].
End rankings.

(** [name and not name.startswith('$') and not name.startswith('#') and
    not name.startswith('%') and not name.startswith('[')] *)
Definition eligible (player_name : string) : bool :=
  negb (String.eqb player_name "")
  && negb (String.prefix "$" player_name)
  && negb (String.prefix "#" player_name)
  && negb (String.prefix "%" player_name)
  && negb (String.prefix "[" player_name).

(** The first loop: the statistics of the players that are kept. *)
Definition roster_step (player_stats : dict PlayerStats)
    (item : string * list record) : py (dict PlayerStats) :=
  let (player_name, player_data) := item in
  if eligible player_name then
    stats <- calculate_player_stats player_data ;;
    Ok (dict_set player_name stats player_stats)
  else Ok player_stats.

Definition build_roster (all_player_data : dict (list record))
  : py (dict PlayerStats) :=
  for_each roster_step all_player_data [].

(** The play-time fields of one player.  The three components are
    formatted from left to right. *)
Definition clock_of (stats : PlayerStats) : py clock :=
  let play_time_seconds := play_time_seconds stats in
  let hours := play_time_seconds / 3600 in
  let minutes := (play_time_seconds mod 3600) / 60 in
  let seconds := play_time_seconds mod 60 in
  h <- format_02d hours ;;
  m <- format_02d minutes ;;
  s <- format_02d seconds ;;
  let play_time_formatted := (h ++ ":" ++ m ++ ":" ++ s)%string in
  Ok (mkClock play_time_formatted hours minutes seconds).

(** [stats["kills"] / (stats["deaths"] if stats["deaths"] > 0 else 1)] *)
Definition kd_ratio_of (stats : PlayerStats) : py spec_float :=
  let deaths := if Z.ltb 0 (deaths stats) then deaths stats else 1 in
  int_truediv (kills stats) deaths.

(** [(stats["wins"] / games) * 100] with the same guard on [games_played] *)
Definition win_rate_of (stats : PlayerStats) : py spec_float :=
  let games := if Z.ltb 0 (games_played stats) then games_played stats else 1 in
  q <- int_truediv (wins stats) games ;;
  Ok (float_mul_100 q).

(** The second loop: one entry per player appended to each list. *)
Definition rank_step (r : rankings.t) (item : string * PlayerStats)
  : py rankings.t :=
  let (player_name, stats) := item in
  c <- clock_of stats ;;
  kd_ratio <- kd_ratio_of stats ;;
  win_rate <- win_rate_of stats ;;
  Ok (rankings.mk
        (rankings.play_time r
           ++ [mkEntry player_name (play_time_seconds stats) c])
        (rankings.games_played r
           ++ [mkEntry player_name (games_played stats) tt])
        (rankings.wins r ++ [mkEntry player_name (wins stats) tt])
        (rankings.kills r ++ [mkEntry player_name (kills stats) tt])
        (rankings.deaths r ++ [mkEntry player_name (deaths stats) tt])
        (rankings.kd_ratio r
           ++ [mkEntry player_name kd_ratio (format_fixed 2 kd_ratio)])
        (rankings.win_rate r
           ++ [mkEntry player_name win_rate
                 (format_fixed 1 win_rate ++ "%")%string])).

Definition collect (player_stats : dict PlayerStats) : py rankings.t :=
  for_each rank_step player_stats rankings.empty.

(** The third loop: every list descending, [deaths] ascending. *)
Definition sort_all (r : rankings.t) : rankings.t :=
  rankings.mk
    (list_sort_reverse Z.ltb value (rankings.play_time r))
    (list_sort_reverse Z.ltb value (rankings.games_played r))
    (list_sort_reverse Z.ltb value (rankings.wins r))
    (list_sort_reverse Z.ltb value (rankings.kills r))
    (list_sort Z.ltb value (rankings.deaths r))
    (list_sort_reverse float_lt value (rankings.kd_ratio r))
    (list_sort_reverse float_lt value (rankings.win_rate r)).

Definition msg_no_file : string := "玩家数据文件不存在，请先运行数据更新".
Definition msg_no_players : string := "未找到有效的玩家数据".
Definition msg_failed : string := "生成排行榜时出错: ".

(** What [generate_rankings] returns: [(rankings, None)] or [(None, error)]. *)
Definition outcome : Type := option rankings.t * option string.

(** The body of the [try] block, after the file was read. *)
Definition generate_rankings_body (all_player_data : dict (list record))
  : py outcome :=
  player_stats <- build_roster all_player_data ;;
  match player_stats with
  | [] => Ok (None, Some msg_no_players)
  | _ =>
      r <- collect player_stats ;;
      Ok (Some (sort_all r), None)
  end.

(** [generate_rankings]; [file] is the content of the grouped scores file,
    [None] when the file does not exist. *)
Definition generate_rankings (file : option (dict (list record))) : py outcome :=
  match file with
  | None => Ok (None, Some msg_no_file)
  | Some all_player_data =>
      match generate_rankings_body all_player_data with
      | Raise e => Ok (None, Some (msg_failed ++ exn_str e)%string)
      | other => other
      end
  end.

(** * main.py: [DataManager.get_player_list]

    The function from the point where the grouped scores file is opened.
    [player_data] is what reading the file gives: its content, or [None]
    when [open] or [json.load] raises an exception, which the function
    catches.  The path taken before that when the file is absent, through
    [update_data_files], is [DataManager_get_player_list] further down. *)
Definition get_player_list {V : Type} (player_data : option (dict V))
  : list string :=
  match player_data with
  | None => []
  | Some d =>
      let players := filter eligible (dict_keys d) in
      list_sort String.ltb (fun name => name) players
  end.

(** * What the specification says, in its own words *)

(** ** Aggregation (section 4.4) *)

(** The [Objective] of a record as a name, when it is one. *)
Definition has_objective (name : string) (r : record) : bool :=
  obj_is (objective_of r) name.

(** The [Score] a record contributes: 0 when it has none. *)
Definition contribution (r : record) : Z :=
  match score_of r with
  | JInt z => z
  | _ => 0
  end.

(** Seconds per unit of the three play-time objectives, 0 for the others. *)
Definition time_weight (r : record) : Z :=
  if has_objective "PlayTime.Hour" r then 3600
  else if has_objective "PlayTime.Min" r then 60
  else if has_objective "PlayTime.Sec" r then 1
  else 0.

Definition Zsum (l : list Z) : Z := fold_right Z.add 0 l.

(** The score of the latest record of objective [name], 0 when none occurs. *)
Definition latest (name : string) (rs : list record) : Z :=
  last (map contribution (filter (has_objective name) rs)) 0.

Definition aggregate_spec (rs : list record) : PlayerStats :=
  mkStats (Zsum (map (fun r => contribution r * time_weight r) rs))
          (latest "CompletedCount" rs)
          (latest "WinCount" rs)
          (latest "KilledCount" rs)
          (latest "DeathCount" rs).

(** The objectives of the table of section 4.4. *)
Definition objective_table : list string :=
  ["PlayTime.Hour"; "PlayTime.Min"; "PlayTime.Sec"; "CompletedCount";
   "WinCount"; "KilledCount"; "DeathCount"].

Definition recognised (r : record) : bool :=
  existsb (fun name => has_objective name r) objective_table.

(** [Score], when present, is an integer. *)
Definition score_typed (r : record) : bool :=
  match score_of r with
  | JInt _ => true
  | _ => false
  end.

(** A record of the data model, as far as aggregation reads it: the score
    of a recognised objective is an integer or absent. *)
Definition score_ok (r : record) : bool :=
  negb (recognised r) || score_typed r.

(** The score of a recognised objective is a non-negative integer or absent. *)
Definition score_nonneg (r : record) : bool :=
  negb (recognised r)
  || match score_of r with
     | JInt z => Z.leb 0 z
     | _ => false
     end.

Definition stats_nonneg (st : PlayerStats) : Prop :=
  0 <= play_time_seconds st /\ 0 <= games_played st /\ 0 <= wins st
  /\ 0 <= kills st /\ 0 <= deaths st.

(** Inputs for the examples. *)
Definition two_and_a_half_hours : list record :=
  [ [("Objective", JStr "PlayTime.Hour"); ("Score", JInt 2)];
    [("Objective", JStr "PlayTime.Min"); ("Score", JInt 30)] ].

Definition mixed_records : list record :=
  [ [("Objective", JStr "KilledCount"); ("Score", JInt 3)];
    [("Objective", JStr "PlayTime.Sec"); ("Score", JInt 5)];
    [("Objective", JStr "Unheard"); ("Score", JStr "n/a")];
    [("Objective", JStr "PlayTime.Min")];
    [("Objective", JStr "KilledCount"); ("Score", JInt 7)];
    [("Score", JInt 11)];
    [("Objective", JStr "PlayTime.Hour"); ("Score", JInt 1)] ].


(** ** Grouping (section 4.3) *)

(** [Name], when present, is a string. *)
Definition name_typed (r : record) : bool :=
  match dict_get "Name" r with
  | None | Some (JStr _) => true
  | _ => false
  end.

(** The entity a record belongs to: its [Name], the placeholder without one. *)
Definition owner (r : record) : string :=
  match dict_get "Name" r with
  | Some (JStr s) => s
  | _ => unknown_player
  end.

(** The record without its [Locked] and [Name] members. *)
Definition stripped (r : record) : record :=
  filter (fun kv => negb (String.eqb (fst kv) "Locked")
                    && negb (String.eqb (fst kv) "Name")) r.

(** The names of a list in the order of their first appearance. *)
Fixpoint first_seen (names : list string) : list string :=
  match names with
  | [] => []
  | n :: rest => n :: filter (fun m => negb (String.eqb m n)) (first_seen rest)
  end.

(** The records of one entity, in input order. *)
Definition records_of (n : string) (rs : list record) : list record :=
  map stripped (filter (fun r => String.eqb (owner r) n) rs).

Definition reference_partition (rs : list record) : dict (list record) :=
  map (fun n => (n, records_of n rs)) (first_seen (map owner rs)).

(** The number of records held by all the groups. *)
Definition total_records {V : Type} (g : dict (list V)) : nat :=
  list_sum (map (fun kv => List.length (snd kv)) g).

Definition three_entries : list record :=
  [ [("Name", JStr "alice"); ("Objective", JStr "WinCount"); ("Score", JInt 2);
     ("Locked", JInt 0)];
    [("Objective", JStr "KilledCount"); ("Score", JInt 1)];
    [("Score", JInt 9); ("Name", JStr "alice"); ("DisplayName", JStr "A")] ].

(** ** Floats as ordered values *)

Definition not_nan (x : spec_float) : Prop := x <> S754_nan.

(** Neither an infinity nor a NaN. *)
Definition is_finite (x : spec_float) : bool :=
  match x with
  | S754_zero _ | S754_finite _ _ _ => true
  | _ => false
  end.

(** A position in the order [SFcompare] decides: the class of the float,
    then its exponent and mantissa, both negated below zero. *)
Definition float_ord (x : spec_float) : Z * Z * Z :=
  match x with
  | S754_nan => (0, 0, 0)
  | S754_zero _ => (0, 0, 0)
  | S754_infinity true => (-2, 0, 0)
  | S754_infinity false => (2, 0, 0)
  | S754_finite true m e => (-1, - e, - Zpos m)
  | S754_finite false m e => (1, e, Zpos m)
  end.

Definition lex_lt (a b : Z * Z * Z) : Prop :=
  let '(a1, a2, a3) := a in
  let '(b1, b2, b3) := b in
  a1 < b1 \/ (a1 = b1 /\ (a2 < b2 \/ (a2 = b2 /\ a3 < b3))).

(** ** Ranking (section 4.5) *)

(** A reserved name: empty, or starting with one of the sentinel characters. *)
Definition reserved (name : string) : Prop :=
  name = ""
  \/ exists c rest, name = String c rest
                    /\ In c ["$"%char; "#"%char; "%"%char; "["%char].

(** The play-time fields of a total: hours, minutes and seconds by floor
    division, and the three texts joined by colons. *)
Definition clock_fields (stats : PlayerStats) : clock :=
  let t := play_time_seconds stats in
  mkClock (pad_02d (t / 3600) ++ ":" ++ pad_02d ((t mod 3600) / 60) ++ ":"
             ++ pad_02d (t mod 60))%string
          (t / 3600) ((t mod 3600) / 60) (t mod 60).

(** The entries of the integer categories in the order of the stats mapping. *)
Definition int_entries (field : PlayerStats -> Z) (player_stats : dict PlayerStats)
  : list (entry Z unit) :=
  map (fun p => mkEntry (fst p) (field (snd p)) tt) player_stats.

Definition time_entries (player_stats : dict PlayerStats) : list (entry Z clock) :=
  map (fun p => mkEntry (fst p) (play_time_seconds (snd p)) (clock_fields (snd p)))
      player_stats.

(** [e] is the kill/death entry, respectively the win-rate entry, of the
    item [p] of the stats mapping. *)
Definition kd_entry_of (p : string * PlayerStats) (e : entry spec_float string)
  : Prop :=
  player e = fst p
  /\ kd_ratio_of (snd p) = Ok (value e)
  /\ extra e = format_fixed 2 (value e).

Definition win_entry_of (p : string * PlayerStats) (e : entry spec_float string)
  : Prop :=
  player e = fst p
  /\ win_rate_of (snd p) = Ok (value e)
  /\ extra e = (format_fixed 1 (value e) ++ "%")%string.

(** The lists before sorting hold one entry per item of the stats mapping,
    in its order. *)
Definition in_mapping_order (player_stats : dict PlayerStats) (u : rankings.t)
  : Prop :=
  rankings.play_time u = time_entries player_stats
  /\ rankings.games_played u = int_entries games_played player_stats
  /\ rankings.wins u = int_entries wins player_stats
  /\ rankings.kills u = int_entries kills player_stats
  /\ rankings.deaths u = int_entries deaths player_stats
  /\ Forall2 kd_entry_of player_stats (rankings.kd_ratio u)
  /\ Forall2 win_entry_of player_stats (rankings.win_rate u).

(** The entries of [sorted] that share a value are those of [unsorted], in
    the same order. *)
Definition keeps_ties {X : Type} (sorted unsorted : list (entry Z X)) : Prop :=
  forall v : Z,
    filter (fun e => Z.eqb (value e) v) sorted
    = filter (fun e => Z.eqb (value e) v) unsorted.

(** The same for floats: the entries that compare equal to [v]. *)
Definition keeps_float_ties {X : Type} (sorted unsorted : list (entry spec_float X))
  : Prop :=
  forall v : spec_float, not_nan v ->
    filter (fun e => tied float_lt v (value e)) sorted
    = filter (fun e => tied float_lt v (value e)) unsorted.

Definition non_increasing {X : Type} (l : list (entry Z X)) : Prop :=
  StronglySorted (fun a b => value b <= value a) l.

Definition non_decreasing {X : Type} (l : list (entry Z X)) : Prop :=
  StronglySorted (fun a b => value a <= value b) l.

(** No entry is followed by one of a greater value, and no value is a NaN. *)
Definition float_non_increasing {X : Type} (l : list (entry spec_float X)) : Prop :=
  StronglySorted (fun a b => float_lt (value a) (value b) = false) l
  /\ Forall (fun e => not_nan (value e)) l.

(** The players of a list. *)
Definition players {V X : Type} (l : list (entry V X)) : list string :=
  map player l.

Definition kills_of (n : Z) : list record :=
  [ [("Objective", JStr "KilledCount"); ("Score", JInt n)] ].

Definition deaths_of (n : Z) : list record :=
  [ [("Objective", JStr "DeathCount"); ("Score", JInt n)] ].

Definition three_killers : dict (list record) :=
  [ ("A", kills_of 5); ("B", kills_of 10); ("C", kills_of 5) ].

Definition three_mortals : dict (list record) :=
  [ ("A", deaths_of 3); ("B", deaths_of 0); ("C", deaths_of 1) ].

Definition with_sentinels : dict (list record) :=
  [ ("$CONST-x", kills_of 99); ("Steve", kills_of 4); ("#team", kills_of 7);
    ("", kills_of 1); ("[bot]", kills_of 2); ("%tmp", kills_of 3) ].

Definition only_sentinels : dict (list record) :=
  [ ("$CONST-x", kills_of 99); ("#team", kills_of 7) ].

(** Every list of [r] satisfies [P] of its players. *)
Definition every_list (P : list string -> Prop) (r : rankings.t) : Prop :=
  P (players (rankings.play_time r))
  /\ P (players (rankings.games_played r))
  /\ P (players (rankings.wins r))
  /\ P (players (rankings.kills r))
  /\ P (players (rankings.deaths r))
  /\ P (players (rankings.kd_ratio r))
  /\ P (players (rankings.win_rate r)).

(** The rankings of an input on which [generate_rankings] succeeds. *)
Definition ranked (data : dict (list record)) : rankings.t :=
  match generate_rankings (Some data) with
  | Ok (Some r, _) => r
  | _ => rankings.empty
  end.

(** binary64 4.0 *)
Definition four : spec_float := S754_finite false 4503599627370496 (-50).

(** ** Zero padding (section 4.5) *)

Definition is_digit (c : ascii) : bool :=
  (48 <=? nat_of_ascii c)%nat && (nat_of_ascii c <=? 57)%nat.

Definition all_digits (s : string) : bool :=
  forallb is_digit (list_ascii_of_string s).

(** The number a text of decimal digits denotes. *)
Definition decimal_value (s : string) : option N :=
  option_map N.of_uint (NilZero.uint_of_string s).

(** [s] is the decimal writing of [n >= 0] padded with zeros on the left to
    at least [width] digits, and no further. *)
Definition zero_padded (width : nat) (n : Z) (s : string) : Prop :=
  0 <= n
  /\ all_digits s = true
  /\ decimal_value s = Some (Z.to_N n)
  /\ String.length s = Nat.max width (String.length (str_nat (Z.to_N n))).

(** Inputs for the examples of the play-time text. *)
Definition minus_one_second : list record :=
  [ [("Objective", JStr "PlayTime.Sec"); ("Score", JInt (-1))] ].

(** Two scores of 4300 digits each, whose sum has 4301. *)
Definition long_hours : dict (list record) :=
  [ ("Steve",
     [ [("Objective", JStr "PlayTime.Hour"); ("Score", JInt (9 * 10 ^ 4299))];
       [("Objective", JStr "PlayTime.Hour"); ("Score", JInt (9 * 10 ^ 4299))] ]) ].

(** ** The derived metrics (section 4.5) *)

(** [kills / max(deaths, 1)] *)
Definition kd_spec (st : PlayerStats) : py spec_float :=
  int_truediv (kills st) (Z.max (deaths st) 1).

(** binary64 100.0, that is [100 * 2^46 * 2^-46] *)
Definition hundred : spec_float := S754_finite false 7036874417766400 (-46).

(** [wins / max(games_played, 1) * 100] *)
Definition win_rate_spec (st : PlayerStats) : py spec_float :=
  q <- int_truediv (wins st) (Z.max (games_played st) 1) ;;
  Ok (SFmul prec emax q hundred).

(** binary64 50.0 and 300.0 *)
Definition fifty : spec_float := S754_finite false 7036874417766400 (-47).
Definition three_hundred : spec_float := S754_finite false 5277655813324800 (-44).

(** A player with 4 kills, no death, 1 win in 2 games. *)
Definition guard_example : dict (list record) :=
  [ ("Steve",
     [ [("Objective", JStr "KilledCount"); ("Score", JInt 4)];
       [("Objective", JStr "DeathCount"); ("Score", JInt 0)];
       [("Objective", JStr "WinCount"); ("Score", JInt 1)];
       [("Objective", JStr "CompletedCount"); ("Score", JInt 2)] ]) ].

(** * The rest of api/rankings.py *)

(** ** [save_rankings_to_json]

    The value the function dumps: the time of the call and, for every
    category, [rank_list[:10]].  Creating the directory and writing the
    file are left to the caller of this model. *)
Record rankings_file : Type := mkFile {
  generated_at : string;
  saved : rankings.t
}.

(** [rank_list[:10]] *)
Definition top_ten {T : Type} (rank_list : list T) : list T := firstn 10 rank_list.

Definition data_to_save (now : string) (r : rankings.t) : rankings_file :=
  mkFile now
    (rankings.mk (top_ten (rankings.play_time r))
                 (top_ten (rankings.games_played r))
                 (top_ten (rankings.wins r))
                 (top_ten (rankings.kills r))
                 (top_ten (rankings.deaths r))
                 (top_ten (rankings.kd_ratio r))
                 (top_ten (rankings.win_rate r))).

(** [saved] is the beginning of [whole], ten entries long or all of
    [whole] when it has fewer, and each of its entries is related by [R] to
    every entry that comes after it in [whole]. *)
Definition best_prefix {T : Type} (R : T -> T -> Prop) (whole saved : list T)
  : Prop :=
  exists rest,
    whole = saved ++ rest
    /\ List.length saved = Nat.min 10 (List.length whole)
    /\ forall a b, In a saved -> In b rest -> R a b.

(** Twelve players with 0 to 11 kills. *)
Definition twelve_killers : dict (list record) :=
  [ ("a", kills_of 0); ("b", kills_of 1); ("c", kills_of 2); ("d", kills_of 3);
    ("e", kills_of 4); ("f", kills_of 5); ("g", kills_of 6); ("h", kills_of 7);
    ("i", kills_of 8); ("j", kills_of 9); ("k", kills_of 10); ("l", kills_of 11) ].

(** ** [create_rank_message_nodes]

    A [Plain] element is its text; a [Node] is its three fields. *)
Record Node : Type := mkNode {
  uin : Z;
  name : string;
  content : list string
}.

Definition newline : string := String (ascii_of_nat 10) EmptyString.

Definition medal_1 : string := "🥇".
Definition medal_2 : string := "🥈".
Definition medal_3 : string := "🥉".

(** The rank symbol of the loop: a medal for the first three ranks, then
    [f"{rank_num}."]. *)
Definition rank_symbol (rank_num : nat) : string :=
  match rank_num with
  | 1%nat => medal_1
  | 2%nat => medal_2
  | 3%nat => medal_3
  | _ => (str_nat (N.of_nat rank_num) ++ ".")%string
  end.

(** [f"{rank_symbol} {player}: {display_value}\n"] *)
Definition rank_line {V X : Type} (display : entry V X -> string)
    (rank_num : nat) (item : entry V X) : string :=
  (rank_symbol rank_num ++ " " ++ player item ++ ": " ++ display item
     ++ newline)%string.

(** [for i, item in enumerate(rank_list): rank_text += ...], from index [i]. *)
Fixpoint rank_lines {V X : Type} (display : entry V X -> string) (i : nat)
    (rank_list : list (entry V X)) (rank_text : string) : string :=
  match rank_list with
  | [] => rank_text
  | item :: rest =>
      let rank_num := S i in
      rank_lines display (S i) rest
                 (rank_text ++ rank_line display rank_num item)%string
  end.

(** The text of one category, [None] when the category is skipped. *)
Definition rank_block {V X : Type} (title : string) (display : entry V X -> string)
    (whole_list : list (entry V X)) : option string :=
  match whole_list with
  | [] => None
  | _ =>
      let rank_list := top_ten whole_list in
      let rank_text := (title ++ newline)%string in
      let rank_text := rank_lines display 0 rank_list rank_text in
      Some (rank_text ++ newline)%string
  end.

(** [plain_elements.append(Plain(rank_text))], when there is a text *)
Definition append_block (plain_elements : list string) (block : option string)
  : list string :=
  match block with
  | Some rank_text => plain_elements ++ [rank_text]
  | None => plain_elements
  end.

Definition heading : string := ("=== 幸运之柱玩家排行榜 ===" ++ newline ++ newline)%string.

Definition title_play_time : string := "🏆 游玩时长排行榜".
Definition title_games_played : string := "🎮 游玩局数排行榜".
Definition title_wins : string := "🏅 胜利局数排行榜".
Definition title_kills : string := "⚔️ 击杀数排行榜".
Definition title_deaths : string := "💀 死亡数排行榜".
Definition title_kd_ratio : string := "📊 KD比率排行榜".
Definition title_win_rate : string := "📈 胜率排行榜".

(** [str(value)] of an integer entry *)
Definition display_int {X : Type} (item : entry Z X) : string := str_int (value item).

(** The seven blocks in the order of [rank_categories]. *)
Definition rank_blocks (r : rankings.t) : list (option string) :=
  [ rank_block title_play_time (fun item => formatted (extra item))
               (rankings.play_time r);
    rank_block title_games_played display_int (rankings.games_played r);
    rank_block title_wins display_int (rankings.wins r);
    rank_block title_kills display_int (rankings.kills r);
    rank_block title_deaths display_int (rankings.deaths r);
    rank_block title_kd_ratio (fun item => extra item) (rankings.kd_ratio r);
    rank_block title_win_rate (fun item => extra item) (rankings.win_rate r) ].

Definition create_rank_message_nodes (r : rankings.t) (bot_uin : Z) : list Node :=
  let plain_elements := [heading] in
  let plain_elements := fold_left append_block (rank_blocks r) plain_elements in
  let main_node := mkNode bot_uin "幸运之柱排行榜" plain_elements in
  [main_node].

(** The lines of a category in closed form: rank [i + 1] onwards. *)
Definition numbered_lines {V X : Type} (display : entry V X -> string) (i : nat)
    (rank_list : list (entry V X)) : list string :=
  map (fun p => rank_line display (fst p) (snd p))
      (combine (seq (S i) (List.length rank_list)) rank_list).

(** The texts of a list joined without a separator. *)
Definition join (texts : list string) : string := fold_right append "" texts.

(** The text of a category in closed form: the title line, one line for
    each of the first ten entries, an empty line. *)
Definition block_text {V X : Type} (title : string) (display : entry V X -> string)
    (whole_list : list (entry V X)) : string :=
  (title ++ newline ++ join (numbered_lines display 0 (top_ten whole_list))
     ++ newline)%string.

(** 1 for a list with an entry, 0 for an empty one. *)
Definition has_entries {T : Type} (l : list T) : nat :=
  match l with
  | [] => 0%nat
  | _ => 1%nat
  end.

(** How many of the seven categories have an entry. *)
Definition shown_categories (r : rankings.t) : nat :=
  (has_entries (rankings.play_time r) + has_entries (rankings.games_played r)
   + has_entries (rankings.wins r) + has_entries (rankings.kills r)
   + has_entries (rankings.deaths r) + has_entries (rankings.kd_ratio r)
   + has_entries (rankings.win_rate r))%nat.

(** ** Inputs of [generate_rankings] within the data model *)

(** The records of every player that is kept have usable scores. *)
Definition scores_usable (all_player_data : dict (list record)) : bool :=
  forallb (fun item => negb (eligible (fst item)) || forallb score_ok (snd item))
          all_player_data.

(** The three shapes of what [generate_rankings] returns. *)
Definition rankings_or_message (o : outcome) : Prop :=
  (exists r, o = (Some r, None))
  \/ (exists msg, o = (None, Some msg) /\ msg <> "").

Definition overflow_text : string := "integer division result too large for a float".

Definition huge_kills : dict (list record) := [ ("Steve", kills_of (10 ^ 400)) ].

(** * main.py: [DataManager.get_player_data]

    [file] is the content of the grouped scores file, [None] when the file
    does not exist or cannot be read (the function then returns [None]). *)
Definition get_player_data {V : Type} (file : option (dict V))
    (player_name : string) : option V :=
  match file with
  | None => None
  | Some player_data => dict_get player_name player_data
  end.

(** The raw records of one entity, in input order. *)
Definition raw_records_of (n : string) (rs : list record) : list record :=
  filter (fun r => String.eqb (owner r) n) rs.

(** [v] is no dict. *)
Definition not_a_dict (v : json) : bool :=
  match v with
  | JObj _ => false
  | _ => true
  end.

(** [v] cannot be a dict key. *)
Definition unhashable (v : json) : bool :=
  match v with
  | JList _ | JObj _ => true
  | _ => false
  end.

(** A scoreboard whose [data.PlayerScores] is [player_scores]. *)
Definition scoreboard_with (player_scores : json) : dict json :=
  [("data", JObj [("PlayerScores", player_scores)])].

Definition mixed_names : list record :=
  [ [("Name", JStr "alice"); ("Objective", JStr "WinCount"); ("Score", JInt 2)];
    [("Name", JStr "$sys"); ("Objective", JStr "WinCount"); ("Score", JInt 9)];
    [("Name", JStr "bob"); ("Objective", JStr "KilledCount"); ("Score", JInt 1);
     ("Locked", JInt 0)];
    [("Name", JStr "alice"); ("Objective", JStr "PlayTime.Min"); ("Score", JInt 3)] ].

(** Two records with the same [Objective] and the same [Score], as
    [calculate_player_stats] reads them. *)
Definition same_reading (r r' : record) : Prop :=
  objective_of r = objective_of r' /\ score_of r = score_of r'.

(** * The rest of api/process_scoreboard.py *)

(** ** How a call ends

    [sys.exit(code)] raises [SystemExit], which is no [Exception]: it passes
    through every [except Exception] on its way out. *)
Inductive run (A : Type) : Type :=
| Finished (a : A)
| SystemExit (code : Z)
| Uncaught (e : exn)
| OutsideModel.

Arguments Finished {A} a.
Arguments SystemExit {A} code.
Arguments Uncaught {A} e.
Arguments OutsideModel {A}.

Definition of_py {A : Type} (m : py A) : run A :=
  match m with
  | Ok a => Finished a
  | Raise e => Uncaught e
  | Unmodelled => OutsideModel
  end.

(** ** main.py: [DataManager.get_player_list], from its first line

    The grouped scores file is present or absent when the method is called.
    When it is absent the method calls [self.update_data_files()] first:
    [update] is what that call did, returning a boolean or leaving through
    [sys.exit].  [read] is what reading the file gives afterwards: its
    content, or [None] when [open] or [json.load] raises an exception, as
    when the file is still not there. *)
Inductive grouped_scores_path (V : Type) : Type :=
| Present (read : option (dict V))
| Absent (update : run bool) (read : option (dict V)).

Arguments Present {V} read.
Arguments Absent {V} update read.

Definition DataManager_get_player_list {V : Type} (f : grouped_scores_path V)
  : run (list string) :=
  match f with
  | Present read => Finished (get_player_list read)
  | Absent update read =>
      match update with
      | Finished true => Finished (get_player_list read)
      | Finished false => Finished []
      | SystemExit code => SystemExit code
      | Uncaught e => Finished []
      | OutsideModel => OutsideModel
      end
  end.

(** What opening a JSON file and parsing it gives. *)
Inductive json_file : Type :=
| Content (data : json)
| FileNotFoundError
| JSONDecodeError.

(** [load_scoreboard_data] *)
Definition load_scoreboard_data (f : json_file) : run json :=
  match f with
  | Content data => Finished data
  | FileNotFoundError => SystemExit 1
  | JSONDecodeError => SystemExit 1
  end.

(** [process_json_to_grouped].  A finished run carries the mapping handed to
    [export_to_json], which becomes the grouped scores file. *)
Definition process_json_to_grouped (f : json_file) : run (dict (list record)) :=
  match load_scoreboard_data f with
  | Finished scoreboard_data =>
      match of_py (d <- as_entry scoreboard_data ;; group_scores_by_player d) with
      | Finished grouped_scores =>
          match grouped_scores with
          | [] => SystemExit 1
          | _ => Finished grouped_scores
          end
      | other => other
      end
  | SystemExit code => SystemExit code
  | Uncaught e => Uncaught e
  | OutsideModel => OutsideModel
  end.

(** An entry of [PlayerScores] that the embedding follows: anything that is
    no dict (it raises), and a dict whose [Name] is absent, a string, a list
    or a dict.  A [Name] that is a number, a boolean or null becomes a dict
    key of that type, which is outside the model. *)
Definition name_modelled (v : json) : bool :=
  match v with
  | JObj score_entry =>
      match dict_get "Name" score_entry with
      | None | Some (JStr _) | Some (JList _) | Some (JObj _) => true
      | Some _ => false
      end
  | _ => true
  end.

(** A scoreboard file whose entries are all followed. *)
Definition scores_in_model (f : json_file) : bool :=
  match f with
  | Content (JObj scoreboard_data) =>
      match dict_get "data" scoreboard_data with
      | Some (JObj data) =>
          match dict_get "PlayerScores" data with
          | Some (JList items) => forallb name_modelled items
          | _ => true
          end
      | _ => true
      end
  | _ => true
  end.

(** What holds of a grouped scores file: no key twice, no empty group, no
    record with a [Locked] or a [Name] member. *)
Definition grouped_ok (g : dict (list record)) : Prop :=
  dict_wf g
  /\ forall n l, In (n, l) g ->
       l <> []
       /\ forall r, In r l -> dict_get "Locked" r = None /\ dict_get "Name" r = None.

(** The statistics of the roster written from the raw records. *)
Definition roster_spec (rs : list record) : dict PlayerStats :=
  map (fun n => (n, aggregate_spec (raw_records_of n rs)))
      (filter eligible (first_seen (map owner rs))).

(** * api/generate_player_stats_image.py: reading the grouped scores *)

(** [entry.get("Objective") == stat_key]: a missing [Objective] is [None]. *)
Definition objective_equals (entry : record) (stat_key : string) : bool :=
  match dict_get "Objective" entry with
  | Some v => obj_is v stat_key
  | None => false
  end.

(** The loop of [get_player_stat]: the [Score] of the first entry of that
    objective that has one, 0 when there is none. *)
Fixpoint first_score (stat_key : string) (scores : list record) : json :=
  match scores with
  | [] => JInt 0
  | entry :: rest =>
      match (if objective_equals entry stat_key then dict_get "Score" entry
             else None) with
      | Some score => score
      | None => first_score stat_key rest
      end
  end.

Definition get_player_stat (player_data : dict (list record))
    (player_name stat_key : string) : json :=
  let scores := match dict_get player_name player_data with
                | Some l => l
                | None => []
                end in
  first_score stat_key scores.

(** At most one record of each objective of the table. *)
Definition one_record_each (rs : list record) : Prop :=
  forall key, In key objective_table ->
    (List.length (filter (has_objective key) rs) <= 1)%nat.

(** The condition of the listing printed by [main] for an unknown player:
    [name and not name.startswith("$") and not name.startswith("#") and
    not name.startswith("%")]. *)
Definition listed (name : string) : bool :=
  negb (String.eqb name "")
  && negb (String.prefix "$" name)
  && negb (String.prefix "#" name)
  && negb (String.prefix "%" name).

(** The names [main] prints under "可用玩家列表:". *)
Definition available_players {V : Type} (player_data : dict V) : list string :=
  filter listed (dict_keys player_data).

(** ** [draw_text_with_stroke] *)

(** [range(lo, hi)] *)
Definition range (lo hi : Z) : list Z :=
  map (fun i => lo + Z.of_nat i) (seq 0 (Z.to_nat (hi - lo))).

(** A call [draw.text((x, y), text, font=font, fill=fill)]. *)
Record text_call (Font Color : Type) : Type := mkCall {
  call_x : Z;
  call_y : Z;
  call_text : string;
  call_font : Font;
  call_fill : Color
}.

Arguments mkCall {Font Color} call_x call_y call_text call_font call_fill.
Arguments call_x {Font Color} t.
Arguments call_y {Font Color} t.
Arguments call_fill {Font Color} t.

(** The calls of [draw.text] that [draw_text_with_stroke] makes, in order. *)
Definition draw_text_with_stroke {Font Color : Type} (position : Z * Z)
    (text : string) (font : Font) (text_color stroke_color : Color)
    (stroke_width : Z) : list (text_call Font Color) :=
  let (x, y) := position in
  flat_map (fun offset =>
    flat_map (fun offset_y =>
      if Z.eqb offset 0 && Z.eqb offset_y 0 then []
      else [mkCall (x + offset) (y + offset_y) text font stroke_color])
      (range (- stroke_width) (stroke_width + 1)))
    (range (- stroke_width) (stroke_width + 1))
  ++ [mkCall x y text font text_color].

(** An offset of the stroke: within [stroke_width] in both directions and
    not the position itself. *)
Definition stroke_offset (stroke_width dx dy : Z) : Prop :=
  - stroke_width <= dx <= stroke_width
  /\ - stroke_width <= dy <= stroke_width
  /\ (dx <> 0 \/ dy <> 0).

(** ** The formatted values of the two ratio categories *)

(** A decimal numeral with [d] decimals: an optional minus sign, at least
    one digit, a point and exactly [d] digits. *)
Definition decimal_text (d : nat) (s : string) : Prop :=
  exists sign whole frac,
    s = (sign ++ whole ++ "." ++ frac)%string
    /\ (sign = "" \/ sign = "-")
    /\ whole <> ""
    /\ all_digits whole = true
    /\ all_digits frac = true
    /\ String.length frac = d.

Definition huge_wins : dict (list record) :=
  [ ("Steve", [ [("Objective", JStr "WinCount"); ("Score", JInt (10 ^ 308))] ]) ].

(** ** [main], the command line entry of api/rankings.py

    What is printed is the list of the arguments of [print], in order; the
    value is the return code.  [save_result] is what
    [save_rankings_to_json] returned. *)

(** [if error:] on [None] or a string *)
Definition truthy_text (error : option string) : bool :=
  match error with
  | Some s => negb (String.eqb s "")
  | None => false
  end.

(** [f"{error}"] *)
Definition str_optional (s : option string) : string :=
  match s with
  | Some t => t
  | None => "None"
  end.

(** [sum(len(r) for r in rankings.values())] *)
Definition entries_count (r : rankings.t) : nat :=
  (List.length (rankings.play_time r) + List.length (rankings.games_played r)
   + List.length (rankings.wins r) + List.length (rankings.kills r)
   + List.length (rankings.deaths r) + List.length (rankings.kd_ratio r)
   + List.length (rankings.win_rate r))%nat.

(** [print(f"  {key}: {top_player} ({top_value})")] under [if rankings[key]] *)
Definition summary_line {V X : Type} (key : string) (display : entry V X -> string)
    (rank_list : list (entry V X)) : list string :=
  match rank_list with
  | [] => []
  | top :: _ =>
      [("  " ++ key ++ ": " ++ player top ++ " (" ++ display top ++ ")")%string]
  end.

Definition summary (r : rankings.t) : list string :=
  summary_line "play_time" (fun e => formatted (extra e)) (rankings.play_time r)
  ++ summary_line "games_played" display_int (rankings.games_played r)
  ++ summary_line "wins" display_int (rankings.wins r)
  ++ summary_line "kills" display_int (rankings.kills r)
  ++ summary_line "deaths" display_int (rankings.deaths r)
  ++ summary_line "kd_ratio" (fun e => extra e) (rankings.kd_ratio r)
  ++ summary_line "win_rate" (fun e => extra e) (rankings.win_rate r).

Definition summary_header : string := (newline ++ "排行榜摘要:")%string.

(** The two lines of [--verbose] that open the output. *)
Definition verbose_head (verbose : bool) (input_path output_path : string)
  : list string :=
  if verbose then [("输入文件: " ++ input_path)%string;
                   ("输出文件: " ++ output_path)%string]
  else [].

Definition rankings_main (verbose : bool) (input_path output_path : string)
    (file : option (dict (list record))) (save_result : bool * option string)
  : py (Z * list string) :=
  let out := verbose_head verbose input_path output_path in
  o <- generate_rankings file ;;
  let (rankings, error) := o in
  if truthy_text error then
    Ok (1, out ++ [("错误: " ++ str_optional error)%string])
  else
    let out :=
      match rankings with
      | Some r =>
          if verbose
          then out ++ [("成功处理 " ++ str_nat (N.of_nat (entries_count r))
                          ++ " 条排行榜数据")%string]
          else out
      | None => out
      end in
    match rankings with
    | Some r =>
        let (success, save_error) := save_result in
        let out :=
          if negb success then out ++ [("警告: " ++ str_optional save_error)%string]
          else if verbose then out ++ [("排行榜数据已保存到: " ++ output_path)%string]
          else out in
        Ok (0, out ++ [summary_header] ++ summary r)
    | None => Ok (0, out ++ ["错误: 未能生成排行榜数据"])
    end.

(** The first entry of a list is related by [R] to every other one. *)
Definition leads {T : Type} (R : T -> T -> Prop) (l : list T) : Prop :=
  match l with
  | [] => False
  | top :: rest => Forall (R top) rest
  end.

(** Every category has a first entry, and none of its entries ranks
    before it. *)
Definition leaders (r : rankings.t) : Prop :=
  leads (fun a b => value b <= value a) (rankings.play_time r)
  /\ leads (fun a b => value b <= value a) (rankings.games_played r)
  /\ leads (fun a b => value b <= value a) (rankings.wins r)
  /\ leads (fun a b => value b <= value a) (rankings.kills r)
  /\ leads (fun a b => value a <= value b) (rankings.deaths r)
  /\ leads (fun a b => float_lt (value a) (value b) = false) (rankings.kd_ratio r)
  /\ leads (fun a b => float_lt (value a) (value b) = false) (rankings.win_rate r).

(** * Proofs *)

#[local] Arguments String.eqb : simpl never.

(** ** The [py] monad and its loops *)

Lemma for_each_app {A S : Type} (body : S -> A -> py S) (xs ys : list A) (acc : S) :
  for_each body (xs ++ ys) acc
  = (acc' <- for_each body xs acc ;; for_each body ys acc').
Proof.
  revert acc. induction xs as [|x xs IH]; intros acc; simpl.
  - reflexivity.
  - destruct (body acc x); simpl; auto.
Qed.

Lemma for_each_snoc {A S : Type} (body : S -> A -> py S) (xs : list A) (x : A) (acc : S) :
  for_each body (xs ++ [x]) acc
  = (acc' <- for_each body xs acc ;; body acc' x).
Proof.
  rewrite for_each_app. destruct (for_each body xs acc); simpl; auto.
  destruct (body a x); reflexivity.
Qed.

(** ** Aggregation *)

Lemma Zsum_snoc (l : list Z) (x : Z) : Zsum (l ++ [x]) = Zsum l + x.
Proof.
  unfold Zsum. induction l as [|y l IH]; simpl; lia.
Qed.

Lemma obj_is_unique (o : json) (a b : string) :
  obj_is o a = true -> a <> b -> obj_is o b = false.
Proof.
  destruct o; simpl; try discriminate.
  intros Ha Hab. apply String.eqb_eq in Ha. subst.
  apply String.eqb_neq. exact Hab.
Qed.

Lemma latest_snoc (name : string) (rs : list record) (r : record) :
  latest name (rs ++ [r])
  = if has_objective name r then contribution r else latest name rs.
Proof.
  unfold latest. rewrite filter_app. simpl.
  destruct (has_objective name r).
  - rewrite map_app. simpl. apply last_last.
  - rewrite List.app_nil_r. reflexivity.
Qed.

Ltac other_objectives H :=
  repeat match goal with
    | |- context [has_objective ?b _] =>
        rewrite (obj_is_unique _ _ b H) by (intro; discriminate)
    | |- context [obj_is _ ?b] =>
        rewrite (obj_is_unique _ _ b H) by (intro; discriminate)
    end.

Ltac typed_score H Hok :=
  unfold score_ok, recognised, score_typed, has_objective in Hok;
  simpl in Hok; rewrite H in Hok; other_objectives H;
  simpl in Hok; rewrite ?orb_true_r in Hok; simpl in Hok;
  destruct (score_of _) as [| | ? | | | |]; try discriminate Hok.

(** One step of the loop takes the reference aggregate of [rs] to that of
    [rs ++ [r]]. *)
Lemma stats_step_spec (rs : list record) (r : record) :
  score_ok r = true ->
  stats_step (aggregate_spec rs) r = Ok (aggregate_spec (rs ++ [r])).
Proof.
  intros Hok.
  unfold aggregate_spec. rewrite map_app. cbn [map]. rewrite Zsum_snoc.
  rewrite !latest_snoc.
  unfold stats_step, time_weight, contribution, has_objective. simpl.
  destruct (obj_is (objective_of r) "PlayTime.Hour") eqn:H1.
  { typed_score H1 Hok. simpl. first [reflexivity | f_equal; f_equal; lia]. }
  destruct (obj_is (objective_of r) "PlayTime.Min") eqn:H2.
  { typed_score H2 Hok. simpl. first [reflexivity | f_equal; f_equal; lia]. }
  destruct (obj_is (objective_of r) "PlayTime.Sec") eqn:H3.
  { typed_score H3 Hok. simpl. first [reflexivity | f_equal; f_equal; lia]. }
  destruct (obj_is (objective_of r) "CompletedCount") eqn:H4.
  { typed_score H4 Hok. simpl. first [reflexivity | f_equal; f_equal; lia]. }
  destruct (obj_is (objective_of r) "WinCount") eqn:H5.
  { typed_score H5 Hok. simpl. first [reflexivity | f_equal; f_equal; lia]. }
  destruct (obj_is (objective_of r) "KilledCount") eqn:H6.
  { typed_score H6 Hok. simpl. first [reflexivity | f_equal; f_equal; lia]. }
  destruct (obj_is (objective_of r) "DeathCount") eqn:H7.
  { typed_score H7 Hok. simpl. first [reflexivity | f_equal; f_equal; lia]. }
  simpl. f_equal. f_equal; lia.
Qed.

Lemma calculate_player_stats_spec (rs : list record) :
  forallb score_ok rs = true ->
  calculate_player_stats rs = Ok (aggregate_spec rs).
Proof.
  unfold calculate_player_stats.
  induction rs as [|r rs IH] using rev_ind; intros Hty.
  - reflexivity.
  - rewrite forallb_app in Hty. apply andb_true_iff in Hty as [Hrs Hr].
    simpl in Hr. rewrite andb_true_r in Hr.
    rewrite for_each_snoc, (IH Hrs). simpl.
    apply stats_step_spec. exact Hr.
Qed.

(** C3.  On records of the data model [calculate_player_stats] returns the
    aggregate the specification describes: play time is the sum of the
    scores of the three play-time objectives weighted by 3600, 60 and 1;
    games played, wins, kills and deaths are each the score of the latest
    record of [CompletedCount], [WinCount], [KilledCount] and [DeathCount];
    other objectives change nothing, a missing [Score] counts as 0 and a
    field never written is 0.  Two hours and thirty minutes give 9000
    seconds. *)
Theorem calculate_player_stats_aggregates (rs : list record) :
  forallb score_ok rs = true ->
  calculate_player_stats rs = Ok (aggregate_spec rs)
  /\ (forall r, dict_get "Score" r = None -> contribution r = 0)
  /\ calculate_player_stats [] = Ok (mkStats 0 0 0 0 0)
  /\ calculate_player_stats two_and_a_half_hours = Ok (mkStats 9000 0 0 0 0).
Proof.
  intros Hok. split; [|split; [|split]].
  - apply calculate_player_stats_spec, Hok.
  - intros r Hr. unfold contribution, score_of. rewrite Hr. reflexivity.
  - reflexivity.
  - reflexivity.
Qed.

Lemma calculate_player_stats_aggregates_witness :
  forallb score_ok mixed_records = true
  /\ calculate_player_stats mixed_records = Ok (mkStats 3605 0 0 7 0).
Proof.
  split; [reflexivity|].
  destruct (calculate_player_stats_aggregates mixed_records eq_refl) as [H _].
  rewrite H. reflexivity.
Defined.

(** ** The sign of the aggregate *)

Lemma last_nonneg (l : list Z) : Forall (fun z => 0 <= z) l -> 0 <= last l 0.
Proof.
  induction 1 as [|z l Hz Hl IH]; simpl; [lia|].
  destruct l; [exact Hz | exact IH].
Qed.

Lemma in_table_recognised (name : string) (r : record) :
  In name objective_table -> has_objective name r = true -> recognised r = true.
Proof.
  intros Hin Hhas. unfold recognised. apply existsb_exists.
  exists name. split; assumption.
Qed.

Lemma score_nonneg_contribution (r : record) :
  score_nonneg r = true -> recognised r = true -> 0 <= contribution r.
Proof.
  unfold score_nonneg, contribution. intros H Hr. rewrite Hr in H. simpl in H.
  destruct (score_of r); try discriminate. apply Z.leb_le. exact H.
Qed.

Lemma score_nonneg_ok (r : record) : score_nonneg r = true -> score_ok r = true.
Proof.
  unfold score_nonneg, score_ok, score_typed.
  destruct (recognised r); simpl; [|reflexivity].
  destruct (score_of r); try discriminate. reflexivity.
Qed.

Lemma latest_nonneg (name : string) (rs : list record) :
  In name objective_table ->
  forallb score_nonneg rs = true -> 0 <= latest name rs.
Proof.
  intros Hin Hrs. unfold latest. apply last_nonneg.
  rewrite forallb_forall in Hrs.
  apply Forall_forall. intros z Hz.
  apply in_map_iff in Hz as (r & <- & Hr).
  apply filter_In in Hr as [Hr Hhas].
  apply score_nonneg_contribution; [apply Hrs, Hr|].
  eapply in_table_recognised; eassumption.
Qed.

Lemma time_weight_recognised (r : record) :
  time_weight r <> 0 -> recognised r = true.
Proof.
  unfold time_weight, recognised, objective_table. simpl.
  destruct (has_objective "PlayTime.Hour" r); [reflexivity|].
  destruct (has_objective "PlayTime.Min" r); [reflexivity|].
  destruct (has_objective "PlayTime.Sec" r); [reflexivity|].
  intros H. contradiction H. reflexivity.
Qed.

Lemma time_weight_nonneg (r : record) : 0 <= time_weight r.
Proof.
  unfold time_weight.
  destruct (has_objective "PlayTime.Hour" r); [lia|].
  destruct (has_objective "PlayTime.Min" r); [lia|].
  destruct (has_objective "PlayTime.Sec" r); lia.
Qed.

Lemma play_time_nonneg (rs : list record) :
  forallb score_nonneg rs = true ->
  0 <= Zsum (map (fun r => contribution r * time_weight r) rs).
Proof.
  induction rs as [|r rs IH]; simpl; [lia|].
  intros H. apply andb_true_iff in H as [Hr Hrs].
  specialize (IH Hrs).
  pose proof (time_weight_nonneg r) as Hw.
  destruct (Z.eq_dec (time_weight r) 0) as [E|E].
  - rewrite E. lia.
  - pose proof (score_nonneg_contribution r Hr (time_weight_recognised r E)).
    nia.
Qed.

(** C8, as stated, fails: a negative score is written to its field as it is. *)
Lemma stats_negative_counterexample :
  calculate_player_stats
    [ [("Objective", JStr "KilledCount"); ("Score", JInt (-1))] ]
  = Ok (mkStats 0 0 0 (-1) 0)
  /\ ~ stats_nonneg (mkStats 0 0 0 (-1) 0).
Proof.
  split; [reflexivity|].
  unfold stats_nonneg. simpl. lia.
Qed.

(** C8, amended.  Every field of the aggregate is an integer, and when no
    recognised objective carries a negative score every field is
    non-negative. *)
Theorem calculate_player_stats_nonneg (rs : list record) :
  forallb score_nonneg rs = true ->
  exists st, calculate_player_stats rs = Ok st /\ stats_nonneg st.
Proof.
  intros H. exists (aggregate_spec rs). split.
  - apply calculate_player_stats_spec.
    apply forallb_forall. intros r Hr.
    apply score_nonneg_ok. rewrite forallb_forall in H. apply H, Hr.
  - unfold stats_nonneg, aggregate_spec. simpl.
    split; [apply play_time_nonneg, H|].
    repeat split; apply latest_nonneg; try exact H;
      unfold objective_table; simpl; tauto.
Qed.

Lemma calculate_player_stats_nonneg_witness :
  forallb score_nonneg mixed_records = true
  /\ exists st, calculate_player_stats mixed_records = Ok st /\ stats_nonneg st.
Proof.
  split; [reflexivity|].
  apply (calculate_player_stats_nonneg mixed_records). reflexivity.
Defined.

(** ** Grouping *)

Lemma first_seen_In (l : list string) (x : string) :
  In x (first_seen l) <-> In x l.
Proof.
  induction l as [|a l IH]; simpl; [tauto|].
  rewrite filter_In, IH. destruct (String.eqb_spec x a) as [->|Hne]; simpl.
  - tauto.
  - split; [tauto|]. intros [H|H]; [congruence | tauto].
Qed.

Lemma first_seen_NoDup (l : list string) : NoDup (first_seen l).
Proof.
  induction l as [|a l IH]; simpl; constructor.
  - rewrite filter_In. intros [_ H]. rewrite String.eqb_refl in H. discriminate.
  - apply NoDup_filter, IH.
Qed.

Lemma first_seen_snoc (l : list string) (x : string) :
  first_seen (l ++ [x])
  = if existsb (String.eqb x) l then first_seen l else first_seen l ++ [x].
Proof.
  induction l as [|a l IH]; simpl; [reflexivity|].
  rewrite IH. destruct (String.eqb_spec x a) as [->|Hne]; simpl.
  - destruct (existsb (String.eqb a) l); [reflexivity|].
    rewrite filter_app. simpl. rewrite String.eqb_refl. simpl.
    rewrite List.app_nil_r. reflexivity.
  - destruct (existsb (String.eqb x) l); [reflexivity|].
    rewrite filter_app. simpl.
    destruct (String.eqb_spec x a); [contradiction|]. reflexivity.
Qed.

Lemma existsb_eqb_In (l : list string) (x : string) :
  existsb (String.eqb x) l = true <-> In x l.
Proof.
  rewrite existsb_exists. split.
  - intros (y & Hy & E). apply String.eqb_eq in E. subst. exact Hy.
  - intros H. exists x. split; [exact H | apply String.eqb_refl].
Qed.

(** Appending to the group of [n] in a dict listed by key. *)
Lemma defaultdict_append_map {V : Type} (g : string -> list V) (n : string)
    (v : V) (keys : list string) :
  NoDup keys ->
  defaultdict_append n v (map (fun m => (m, g m)) keys)
  = if existsb (String.eqb n) keys
    then map (fun m => (m, g m ++ (if String.eqb n m then [v] else []))) keys
    else map (fun m => (m, g m)) keys ++ [(n, [v])].
Proof.
  induction 1 as [|a keys Ha Hnd IH]; simpl; [reflexivity|].
  destruct (String.eqb_spec n a) as [->|Hne]; simpl.
  - f_equal. apply map_ext_in. intros m Hm.
    destruct (String.eqb_spec a m) as [->|_]; [contradiction|].
    rewrite List.app_nil_r. reflexivity.
  - rewrite IH. rewrite List.app_nil_r.
    destruct (existsb (String.eqb n) keys); reflexivity.
Qed.

Lemma filter_none {A : Type} (f : A -> bool) (l : list A) :
  (forall x, In x l -> f x = false) -> filter f l = [].
Proof.
  induction l as [|a l IH]; simpl; intros H; [reflexivity|].
  rewrite (H a) by auto. apply IH. intros x Hx. apply H. auto.
Qed.

Lemma records_of_snoc (m : string) (rs : list record) (r : record) :
  records_of m (rs ++ [r])
  = records_of m rs ++ (if String.eqb (owner r) m then [stripped r] else []).
Proof.
  unfold records_of. rewrite filter_app, map_app. simpl.
  destruct (String.eqb (owner r) m); reflexivity.
Qed.

Lemma reference_partition_snoc (rs : list record) (r : record) :
  reference_partition (rs ++ [r])
  = defaultdict_append (owner r) (stripped r) (reference_partition rs).
Proof.
  unfold reference_partition.
  rewrite defaultdict_append_map by apply first_seen_NoDup.
  rewrite map_app. simpl map. rewrite first_seen_snoc.
  destruct (existsb (String.eqb (owner r)) (map owner rs)) eqn:E.
  - assert (E' : existsb (String.eqb (owner r)) (first_seen (map owner rs)) = true).
    { apply existsb_eqb_In, first_seen_In, existsb_eqb_In, E. }
    rewrite E'. apply map_ext. intros m. rewrite records_of_snoc. reflexivity.
  - assert (E' : existsb (String.eqb (owner r)) (first_seen (map owner rs)) = false).
    { apply not_true_is_false. intros H.
      apply (proj1 (existsb_eqb_In _ _)) in H.
      apply (proj1 (first_seen_In _ _)) in H.
      apply (proj2 (existsb_eqb_In _ _)) in H. congruence. }
    rewrite E', map_app. simpl. f_equal.
    + apply map_ext_in. intros m Hm. rewrite records_of_snoc.
      destruct (String.eqb_spec (owner r) m) as [<-|_].
      * apply (proj1 (first_seen_In _ _)) in Hm.
        apply (proj2 (existsb_eqb_In _ _)) in Hm. congruence.
      * rewrite List.app_nil_r. reflexivity.
    + rewrite records_of_snoc, String.eqb_refl.
      replace (records_of (owner r) rs) with (@nil record); [reflexivity|].
      unfold records_of. symmetry.
      replace (filter (fun r0 => String.eqb (owner r0) (owner r)) rs)
        with (@nil record); [reflexivity|].
      symmetry. apply filter_none. intros r0 Hr0.
      apply String.eqb_neq. intros Heq.
      assert (H : In (owner r) (map owner rs))
        by (rewrite <- Heq; apply in_map, Hr0).
      apply (proj2 (existsb_eqb_In _ _)) in H. congruence.
Qed.

Lemma filter_filter {A : Type} (f g : A -> bool) (l : list A) :
  filter g (filter f l) = filter (fun x => f x && g x) l.
Proof.
  induction l as [|a l IH]; simpl; [reflexivity|].
  destruct (f a); simpl; [|exact IH].
  destruct (g a); [f_equal|]; exact IH.
Qed.

Lemma clean_score_entry_stripped (r : record) : clean_score_entry r = stripped r.
Proof.
  unfold clean_score_entry, stripped, dict_pop. cbv zeta.
  rewrite filter_filter. apply filter_ext. intros [k v]. simpl.
  rewrite (String.eqb_sym "Locked" k), (String.eqb_sym "Name" k). reflexivity.
Qed.

Lemma group_step_typed (g : dict (list record)) (r : record) :
  name_typed r = true ->
  group_step g r = Ok (defaultdict_append (owner r) (stripped r) g).
Proof.
  unfold name_typed, group_step, name_of, owner.
  rewrite clean_score_entry_stripped.
  destruct (dict_get "Name" r) as [[| | | | s | |]|]; try discriminate;
    reflexivity.
Qed.

Lemma group_records_reference (rs : list record) :
  forallb name_typed rs = true ->
  group_records rs = Ok (reference_partition rs).
Proof.
  unfold group_records.
  induction rs as [|r rs IH] using rev_ind; intros Hty.
  - reflexivity.
  - rewrite forallb_app in Hty. apply andb_true_iff in Hty as [Hrs Hr].
    simpl in Hr. rewrite andb_true_r in Hr.
    rewrite for_each_snoc, (IH Hrs). simpl.
    rewrite reference_partition_snoc. apply group_step_typed, Hr.
Qed.

Lemma total_records_append {V : Type} (k : string) (v : V) (g : dict (list V)) :
  total_records (defaultdict_append k v g) = S (total_records g).
Proof.
  unfold total_records.
  induction g as [|[k' vs] g IH]; simpl; [reflexivity|].
  destruct (String.eqb k k'); simpl.
  - rewrite List.length_app. simpl. lia.
  - rewrite IH. lia.
Qed.

Lemma total_records_reference (rs : list record) :
  total_records (reference_partition rs) = List.length rs.
Proof.
  induction rs as [|r rs IH] using rev_ind; [reflexivity|].
  rewrite reference_partition_snoc, total_records_append, IH, List.length_app.
  simpl. lia.
Qed.

Lemma stripped_get (r : record) (k : string) :
  dict_get k (stripped r)
  = if String.eqb k "Locked" || String.eqb k "Name" then None else dict_get k r.
Proof.
  unfold stripped. induction r as [|[k' v] r IH]; simpl.
  - destruct (_ || _); reflexivity.
  - destruct (String.eqb_spec k k') as [<-|Hne].
    + destruct (String.eqb k "Locked") eqn:E1; simpl; [exact IH|].
      destruct (String.eqb k "Name") eqn:E2; simpl; [exact IH|].
      rewrite String.eqb_refl. reflexivity.
    + destruct (negb (String.eqb k' "Locked") && negb (String.eqb k' "Name"));
        simpl; [|exact IH].
      destruct (String.eqb_spec k k'); [contradiction | exact IH].
Qed.

Lemma for_each_entries (rs : list record) (g : dict (list record)) :
  for_each (fun grouped v => e <- as_entry v ;; group_step grouped e)
           (map JObj rs) g
  = for_each group_step rs g.
Proof.
  revert g. induction rs as [|r rs IH]; intros g; simpl; [reflexivity|].
  destruct (group_step g r); simpl; auto.
Qed.

Lemma group_scores_by_player_records (rs : list record) :
  group_scores_by_player [("data", JObj [("PlayerScores", JList (map JObj rs))])]
  = group_records rs.
Proof.
  unfold group_scores_by_player, group_records.
  destruct rs as [|r rs]; [reflexivity|].
  change (dict_get "data" _) with
    (Some (JObj [("PlayerScores", JList (map JObj (r :: rs)))])).
  cbn [as_entry bind].
  change (dict_get "PlayerScores" _) with (Some (JList (map JObj (r :: rs)))).
  cbn [falsy map iterate bind].
  apply (for_each_entries (r :: rs)).
Qed.

(** C2.  On score records whose [Name], when present, is a string, grouping
    returns the reference partition: one group per name in order of first
    appearance, the placeholder name standing for a missing [Name], each
    group holding that name's records in input order without their [Locked]
    and [Name] members and with every other member kept; the groups hold as
    many records as the input. *)
Theorem group_records_partition (rs : list record) :
  forallb name_typed rs = true ->
  group_records rs = Ok (reference_partition rs)
  /\ group_scores_by_player
       [("data", JObj [("PlayerScores", JList (map JObj rs))])]
     = Ok (reference_partition rs)
  /\ total_records (reference_partition rs) = List.length rs
  /\ NoDup (dict_keys (reference_partition rs))
  /\ (forall n g r, In (n, g) (reference_partition rs) -> In r g ->
        dict_get "Locked" r = None /\ dict_get "Name" r = None)
  /\ (forall r k, k <> "Locked" -> k <> "Name" ->
        dict_get k (clean_score_entry r) = dict_get k r)
  /\ (forall r, dict_get "Name" r = None -> owner r = unknown_player).
Proof.
  intros Hty. repeat split.
  - apply group_records_reference, Hty.
  - rewrite group_scores_by_player_records. apply group_records_reference, Hty.
  - apply total_records_reference.
  - unfold dict_keys, reference_partition. rewrite map_map. simpl.
    rewrite map_id. apply first_seen_NoDup.
  - unfold reference_partition in H. apply in_map_iff in H as (m & E & _).
    inversion E; subst. unfold records_of in H0.
    apply in_map_iff in H0 as (r0 & <- & _).
    rewrite stripped_get. rewrite String.eqb_refl. reflexivity.
  - unfold reference_partition in H. apply in_map_iff in H as (m & E & _).
    inversion E; subst. unfold records_of in H0.
    apply in_map_iff in H0 as (r0 & <- & _).
    rewrite stripped_get. rewrite String.eqb_refl, orb_true_r. reflexivity.
  - intros r k H1 H2. rewrite clean_score_entry_stripped, stripped_get.
    apply String.eqb_neq in H1, H2. rewrite H1, H2. reflexivity.
  - intros r Hr. unfold owner. rewrite Hr. reflexivity.
Qed.

Lemma group_records_partition_witness :
  forallb name_typed three_entries = true
  /\ group_records three_entries
     = Ok [ ("alice",
             [ [("Objective", JStr "WinCount"); ("Score", JInt 2)];
               [("Score", JInt 9); ("DisplayName", JStr "A")] ]);
            (unknown_player,
             [ [("Objective", JStr "KilledCount"); ("Score", JInt 1)] ]) ].
Proof.
  split; [reflexivity|].
  destruct (group_records_partition three_entries eq_refl) as [H _].
  rewrite H. reflexivity.
Defined.

(** ** Projection *)

Section ProjectorFacts.
Variable py_str : tag.obj -> string.

(** [str] of a string is that string. *)
Hypothesis py_str_str : forall s, py_str (tag.Plain (JStr s)) = s.

(** An object that is no tag reaches the last branch. *)
Lemma nbt_to_json_plain (v : json) :
  nbt_to_json py_str (tag.Plain v) = JStr (py_str (tag.Plain v)).
Proof. reflexivity. Qed.

Lemma nbt_to_json_str (s : string) :
  nbt_to_json py_str (tag.Plain (JStr s)) = JStr s.
Proof. simpl. rewrite py_str_str. reflexivity. Qed.

(** C1, amended.  Projecting a value that is no nbtlib tag gives the string
    [str] renders it to, so a string is returned unchanged and a dict, a
    list, an integer or a float is not: projecting the projection of [x]
    again gives the same value exactly when that projection is a string. *)
Theorem nbt_to_json_reprojection (x : tag.obj) :
  (forall v, nbt_to_json py_str (tag.Plain v) = JStr (py_str (tag.Plain v)))
  /\ (forall s, nbt_to_json py_str (tag.Plain (JStr s)) = JStr s)
  /\ (nbt_to_json py_str (tag.Plain (nbt_to_json py_str x))
        = nbt_to_json py_str x
      <-> exists s, nbt_to_json py_str x = JStr s).
Proof.
  split; [exact nbt_to_json_plain|]. split; [exact nbt_to_json_str|]. split.
  - intros H. rewrite nbt_to_json_plain in H. eauto.
  - intros [s Hs]. rewrite Hs. apply nbt_to_json_str.
Qed.
End ProjectorFacts.

Lemma nbt_to_json_reprojection_witness :
  (forall s, str_scalar (tag.Plain (JStr s)) = s)
  /\ nbt_to_json str_scalar
       (tag.Plain (nbt_to_json str_scalar (tag.String "Steve")))
     = nbt_to_json str_scalar (tag.String "Steve").
Proof.
  split; [reflexivity|].
  apply (nbt_to_json_reprojection str_scalar (fun s => eq_refl)
           (tag.String "Steve")).
  exists "Steve". reflexivity.
Defined.

(** C1, as stated, fails: the integer 5 is in the output shape, and the
    projection of the tag [Int 5] projected again is the string "5". *)
Lemma nbt_to_json_not_idempotent :
  json_shape (JInt 5)
  /\ nbt_to_json str_scalar (tag.Plain (JInt 5)) = JStr "5"
  /\ nbt_to_json str_scalar (tag.Plain (JInt 5)) <> JInt 5
  /\ nbt_to_json str_scalar (tag.Plain (nbt_to_json str_scalar (tag.Int 5)))
     <> nbt_to_json str_scalar (tag.Int 5).
Proof.
  split; [constructor|]. split; [reflexivity|].
  split; simpl; discriminate.
Qed.

(** ** Stable sorting

    [lt] is Python's [<] on the keys.  On the keys that satisfy [good] it is
    a strict weak order: irreflexive, transitive, and with a transitive
    incomparability. *)
Section SortFacts.
Context {A K : Type}.
Variable lt : K -> K -> bool.
Variable key : A -> K.
Variable good : K -> Prop.

Hypothesis lt_irrefl : forall x, good x -> lt x x = false.
Hypothesis lt_trans : forall x y z, good x -> good y -> good z ->
  lt x y = true -> lt y z = true -> lt x z = true.
Hypothesis lt_negtrans : forall x y z, good x -> good y -> good z ->
  lt x y = false -> lt y z = false -> lt x z = false.

Lemma lt_asym (x y : K) : good x -> good y -> lt x y = true -> lt y x = false.
Proof.
  intros Hx Hy H. destruct (lt y x) eqn:E; [|reflexivity].
  pose proof (lt_trans x y x Hx Hy Hx H E) as C.
  rewrite (lt_irrefl x Hx) in C. discriminate.
Qed.

Lemma insert_asc_perm (x : A) (l : list A) : Permutation (insert_asc lt key x l) (x :: l).
Proof.
  induction l as [|y l IH]; simpl; [reflexivity|].
  destruct (lt (key y) (key x)); [|reflexivity].
  rewrite IH. apply perm_swap.
Qed.

Lemma insert_desc_perm (x : A) (l : list A) : Permutation (insert_desc lt key x l) (x :: l).
Proof.
  induction l as [|y l IH]; simpl; [reflexivity|].
  destruct (lt (key x) (key y)); [|reflexivity].
  rewrite IH. apply perm_swap.
Qed.

Lemma list_sort_perm (l : list A) : Permutation (list_sort lt key l) l.
Proof.
  induction l as [|x l IH]; simpl; [reflexivity|].
  rewrite insert_asc_perm. constructor. exact IH.
Qed.

Lemma list_sort_reverse_perm (l : list A) : Permutation (list_sort_reverse lt key l) l.
Proof.
  induction l as [|x l IH]; simpl; [reflexivity|].
  rewrite insert_desc_perm. constructor. exact IH.
Qed.

Lemma good_keys_perm (l l' : list A) : Permutation l l' -> good_keys key good l -> good_keys key good l'.
Proof.
  unfold good_keys. intros P H. eapply Permutation_Forall; eassumption.
Qed.

Lemma insert_asc_sorted (x : A) (l : list A) :
  good (key x) -> good_keys key good l ->
  StronglySorted (ascending lt key) l -> StronglySorted (ascending lt key) (insert_asc lt key x l).
Proof.
  intros Hx Hl Hs. induction Hs as [|y l Hs IH Hy]; simpl.
  - repeat constructor.
  - inversion Hl as [|? ? Gy Gl]; subst.
    destruct (lt (key y) (key x)) eqn:E.
    + constructor; [apply IH, Gl|].
      eapply Permutation_Forall; [symmetry; apply insert_asc_perm|].
      constructor; [|exact Hy].
      unfold ascending. apply lt_asym; assumption.
    + constructor; [constructor; assumption|].
      constructor; [exact E|].
      rewrite Forall_forall in Hy, Gl |- *. intros z Hz.
      unfold ascending in *.
      apply (lt_negtrans _ (key y)); auto.
Qed.

Lemma insert_desc_sorted (x : A) (l : list A) :
  good (key x) -> good_keys key good l ->
  StronglySorted (descending lt key) l -> StronglySorted (descending lt key) (insert_desc lt key x l).
Proof.
  intros Hx Hl Hs. induction Hs as [|y l Hs IH Hy]; simpl.
  - repeat constructor.
  - inversion Hl as [|? ? Gy Gl]; subst.
    destruct (lt (key x) (key y)) eqn:E.
    + constructor; [apply IH, Gl|].
      eapply Permutation_Forall; [symmetry; apply insert_desc_perm|].
      constructor; [|exact Hy].
      unfold descending. apply lt_asym; assumption.
    + constructor; [constructor; assumption|].
      constructor; [exact E|].
      rewrite Forall_forall in Hy, Gl |- *. intros z Hz.
      unfold descending in *.
      apply (lt_negtrans _ (key y)); auto.
Qed.

Lemma list_sort_sorted (l : list A) :
  good_keys key good l -> StronglySorted (ascending lt key) (list_sort lt key l).
Proof.
  induction l as [|x l IH]; simpl; intros Hl; [constructor|].
  inversion Hl; subst.
  apply insert_asc_sorted; auto.
  eapply good_keys_perm; [symmetry; apply list_sort_perm | assumption].
Qed.

Lemma list_sort_reverse_sorted (l : list A) :
  good_keys key good l -> StronglySorted (descending lt key) (list_sort_reverse lt key l).
Proof.
  induction l as [|x l IH]; simpl; intros Hl; [constructor|].
  inversion Hl; subst.
  apply insert_desc_sorted; auto.
  eapply good_keys_perm; [symmetry; apply list_sort_reverse_perm | assumption].
Qed.

(** Two elements tied with the same key are not ordered by [lt]. *)
Lemma tied_not_lt (k x y : K) :
  good k -> good x -> good y ->
  tied lt k x = true -> tied lt k y = true -> lt y x = false.
Proof.
  unfold tied. intros Gk Gx Gy Hx Hy.
  apply andb_true_iff in Hx as [Hx1 Hx2], Hy as [Hy1 Hy2].
  apply negb_true_iff in Hx1, Hx2, Hy1, Hy2.
  apply (lt_negtrans _ k); assumption.
Qed.

Lemma insert_asc_stable (k : K) (x : A) (l : list A) :
  good k -> good (key x) -> good_keys key good l ->
  filter (fun a => tied lt k (key a)) (insert_asc lt key x l)
  = filter (fun a => tied lt k (key a)) (x :: l).
Proof.
  intros Gk Gx Gl. induction Gl as [|y l Gy Gl IH]; [reflexivity|].
  cbn [insert_asc]. destruct (lt (key y) (key x)) eqn:E; [|reflexivity].
  cbn [filter] in *. rewrite IH.
  destruct (tied lt k (key x)) eqn:Tx; [|reflexivity].
  destruct (tied lt k (key y)) eqn:Ty; [|reflexivity].
  rewrite (tied_not_lt k (key x) (key y)) in E by assumption. discriminate.
Qed.

Lemma insert_desc_stable (k : K) (x : A) (l : list A) :
  good k -> good (key x) -> good_keys key good l ->
  filter (fun a => tied lt k (key a)) (insert_desc lt key x l)
  = filter (fun a => tied lt k (key a)) (x :: l).
Proof.
  intros Gk Gx Gl. induction Gl as [|y l Gy Gl IH]; [reflexivity|].
  cbn [insert_desc]. destruct (lt (key x) (key y)) eqn:E; [|reflexivity].
  cbn [filter] in *. rewrite IH.
  destruct (tied lt k (key x)) eqn:Tx; [|reflexivity].
  destruct (tied lt k (key y)) eqn:Ty; [|reflexivity].
  rewrite (tied_not_lt k (key y) (key x)) in E by assumption. discriminate.
Qed.

Lemma list_sort_stable (k : K) (l : list A) :
  good k -> good_keys key good l ->
  filter (fun a => tied lt k (key a)) (list_sort lt key l)
  = filter (fun a => tied lt k (key a)) l.
Proof.
  intros Gk Gl. induction Gl as [|x l Gx Gl IH]; [reflexivity|].
  cbn [list_sort fold_right]. fold (list_sort lt key l).
  rewrite insert_asc_stable; auto.
  - cbn [filter]. rewrite IH. reflexivity.
  - eapply good_keys_perm; [symmetry; apply list_sort_perm | assumption].
Qed.

Lemma list_sort_reverse_stable (k : K) (l : list A) :
  good k -> good_keys key good l ->
  filter (fun a => tied lt k (key a)) (list_sort_reverse lt key l)
  = filter (fun a => tied lt k (key a)) l.
Proof.
  intros Gk Gl. induction Gl as [|x l Gx Gl IH]; [reflexivity|].
  cbn [list_sort_reverse fold_right]. fold (list_sort_reverse lt key l).
  rewrite insert_desc_stable; auto.
  - cbn [filter]. rewrite IH. reflexivity.
  - eapply good_keys_perm; [symmetry; apply list_sort_reverse_perm | assumption].
Qed.
End SortFacts.

(** ** The order of binary64 values *)

Ltac ord_case :=
  cbv beta iota zeta;
  first [ split; [discriminate | intros ?; exfalso; lia]
        | split; [intros _; lia | intros _; reflexivity] ].

Lemma float_lt_ord (x y : spec_float) :
  not_nan x -> not_nan y ->
  (float_lt x y = true <-> lex_lt (float_ord x) (float_ord y)).
Proof.
  unfold not_nan, float_lt, SFltb, SFcompare, lex_lt, float_ord.
  intros Hx Hy.
  destruct x as [sx|sx| |sx mx ex]; try congruence;
  destruct y as [sy|sy| |sy my ey]; try congruence;
  try (destruct sx; destruct sy; ord_case).
  change (Pos.compare_cont Eq mx my) with (Pos.compare mx my).
  destruct sx, sy; try ord_case;
    destruct (Z.compare_spec ex ey) as [E|E|E]; cbn [CompOpp]; try ord_case;
    destruct (Pos.compare_spec mx my) as [F|F|F]; cbn [CompOpp]; ord_case.
Qed.

Lemma float_lt_false_ord (x y : spec_float) :
  not_nan x -> not_nan y ->
  (float_lt x y = false <-> ~ lex_lt (float_ord x) (float_ord y)).
Proof.
  intros Hx Hy. rewrite <- (float_lt_ord x y Hx Hy).
  destruct (float_lt x y); split; congruence.
Qed.

Lemma float_lt_irrefl (x : spec_float) : not_nan x -> float_lt x x = false.
Proof.
  intros Hx. apply float_lt_false_ord; auto.
  unfold lex_lt. destruct (float_ord x) as [[a b] c]. lia.
Qed.

Lemma float_lt_trans (x y z : spec_float) :
  not_nan x -> not_nan y -> not_nan z ->
  float_lt x y = true -> float_lt y z = true -> float_lt x z = true.
Proof.
  intros Hx Hy Hz. rewrite !float_lt_ord by assumption.
  unfold lex_lt. destruct (float_ord x) as [[a b] c],
    (float_ord y) as [[a' b'] c'], (float_ord z) as [[a'' b''] c'']. lia.
Qed.

Lemma float_lt_negtrans (x y z : spec_float) :
  not_nan x -> not_nan y -> not_nan z ->
  float_lt x y = false -> float_lt y z = false -> float_lt x z = false.
Proof.
  intros Hx Hy Hz. rewrite !float_lt_false_ord by assumption.
  unfold lex_lt. destruct (float_ord x) as [[a b] c],
    (float_ord y) as [[a' b'] c'], (float_ord z) as [[a'' b''] c'']. lia.
Qed.

(** ** Rounding never produces a NaN *)

Lemma shr_1_nonneg (mrs : shr_record) :
  0 <= shr_m mrs -> 0 <= shr_m (shr_1 mrs).
Proof.
  destruct mrs as [m r s]. simpl.
  destruct m as [|p|p]; try destruct p; simpl; lia.
Qed.

Lemma iter_pos_invariant {T : Type} (P : T -> Prop) (f : T -> T) :
  (forall x, P x -> P (f x)) ->
  forall (p : positive) (x : T), P x -> P (iter_pos f p x).
Proof.
  intros Hf. induction p as [p IH|p IH|]; intros x Hx; simpl; auto.
Qed.

Lemma shr_nonneg (mrs : shr_record) (e n : Z) :
  0 <= shr_m mrs -> 0 <= shr_m (fst (shr mrs e n)).
Proof.
  intros H. unfold shr. destruct n; simpl; auto.
  apply (iter_pos_invariant (fun r => 0 <= shr_m r)); auto.
  apply shr_1_nonneg.
Qed.

Lemma shr_record_of_loc_m (m : Z) (l : location) :
  shr_m (shr_record_of_loc m l) = m.
Proof. destruct l as [|[]]; reflexivity. Qed.

Lemma shr_fexp_nonneg (m e : Z) (l : location) :
  0 <= m -> 0 <= shr_m (fst (shr_fexp prec emax m e l)).
Proof.
  intros H. unfold shr_fexp. apply shr_nonneg.
  rewrite shr_record_of_loc_m. exact H.
Qed.

Lemma round_nearest_even_nonneg (m : Z) (l : location) :
  0 <= m -> 0 <= round_nearest_even m l.
Proof.
  intros H. unfold round_nearest_even.
  destruct l as [|[]]; try destruct (Z.even m); lia.
Qed.

Lemma binary_round_aux_not_nan (sx : bool) (mx ex : Z) (lx : location) :
  0 <= mx -> not_nan (binary_round_aux prec emax sx mx ex lx).
Proof.
  intros H. unfold binary_round_aux.
  pose proof (shr_fexp_nonneg mx ex lx H) as H1.
  destruct (shr_fexp prec emax mx ex lx) as [mrs' e']. simpl in H1.
  pose proof (shr_fexp_nonneg _ e' loc_Exact
                (round_nearest_even_nonneg _ (loc_of_shr_record mrs') H1)) as H2.
  destruct (shr_fexp prec emax _ e' loc_Exact) as [mrs'' e'']. simpl in H2.
  destruct (shr_m mrs'') as [|p|p]; try lia; unfold not_nan.
  - discriminate.
  - destruct (Z.leb e'' (emax - prec)); discriminate.
Qed.

Lemma SFdiv_core_binary_nonneg (mx my : positive) (ex ey : Z) :
  0 <= fst (fst (SFdiv_core_binary prec emax (Zpos mx) ex (Zpos my) ey)).
Proof.
  unfold SFdiv_core_binary.
  set (s := _ - _ - _).
  set (m' := match s with Zpos _ => _ | Z0 => _ | Zneg _ => _ end).
  assert (Hm : 0 <= m').
  { subst m'. destruct s; try lia. apply Z.shiftl_nonneg. lia. }
  pose proof (Z_div_mod m' (Zpos my) eq_refl) as Hd.
  destruct (Z.div_eucl m' (Zpos my)) as [q r]. simpl.
  destruct Hd as [Hd Hr]. nia.
Qed.

Lemma exact_int_not_zero (b : Z) :
  b <> 0 -> exists s m, exact_int b = S754_finite s m 0.
Proof.
  destruct b; [congruence | |]; intros _; simpl; eauto.
Qed.

Lemma SFdiv_exact_not_nan (a b : Z) :
  b <> 0 -> not_nan (SFdiv prec emax (exact_int a) (exact_int b)).
Proof.
  intros Hb. destruct (exact_int_not_zero b Hb) as (sb & mb & ->).
  destruct a as [|ma|ma]; unfold exact_int, SFdiv.
  - unfold not_nan. discriminate.
  - pose proof (SFdiv_core_binary_nonneg ma mb 0 0) as Hq.
    destruct (SFdiv_core_binary prec emax (Zpos ma) 0 (Zpos mb) 0) as [[mz ez] lz].
    apply binary_round_aux_not_nan. exact Hq.
  - pose proof (SFdiv_core_binary_nonneg ma mb 0 0) as Hq.
    destruct (SFdiv_core_binary prec emax (Zpos ma) 0 (Zpos mb) 0) as [[mz ez] lz].
    apply binary_round_aux_not_nan. exact Hq.
Qed.

Lemma int_truediv_ok (a b : Z) (q : spec_float) :
  int_truediv a b = Ok q -> is_finite q = true.
Proof.
  unfold int_truediv. destruct (Z.eqb_spec b 0) as [|Hb]; [discriminate|].
  pose proof (SFdiv_exact_not_nan a b Hb) as Hn.
  destruct (SFdiv prec emax (exact_int a) (exact_int b));
    intros H; inversion H; subst; try reflexivity.
  contradiction Hn. reflexivity.
Qed.

Lemma is_finite_not_nan (x : spec_float) : is_finite x = true -> not_nan x.
Proof. destruct x; simpl; unfold not_nan; congruence. Qed.

Lemma float_mul_100_not_nan (x : spec_float) :
  not_nan x -> not_nan (float_mul_100 x).
Proof.
  unfold float_mul_100.
  change (float_of_int 100) with (S754_finite false 7036874417766400 (-46)).
  intros Hx. destruct x as [s|s| |s m e]; unfold SFmul.
  - unfold not_nan. discriminate.
  - unfold not_nan. discriminate.
  - contradiction Hx. reflexivity.
  - apply binary_round_aux_not_nan. lia.
Qed.

(** With a positive divisor the division never fails for a zero divisor. *)
Lemma int_truediv_guarded (a b : Z) :
  0 < b ->
  (exists q, int_truediv a b = Ok q)
  \/ int_truediv a b
     = Raise (OverflowError "integer division result too large for a float").
Proof.
  intros Hb. unfold int_truediv.
  destruct (Z.eqb_spec b 0); [lia|].
  destruct (SFdiv prec emax (exact_int a) (exact_int b)); eauto.
Qed.

(** ** The roster *)

Lemma dict_set_keys {V : Type} (k : string) (v : V) (d : dict V) :
  dict_keys (dict_set k v d)
  = if existsb (String.eqb k) (dict_keys d) then dict_keys d
    else dict_keys d ++ [k].
Proof.
  unfold dict_keys. induction d as [|[k' v'] d IH]; simpl; [reflexivity|].
  destruct (String.eqb k k'); simpl; [reflexivity|].
  rewrite IH. destruct (existsb (String.eqb k) (map fst d)); reflexivity.
Qed.

Lemma build_roster_snoc (data : dict (list record)) (item : string * list record) :
  build_roster (data ++ [item])
  = (ps <- build_roster data ;; roster_step ps item).
Proof. apply for_each_snoc. Qed.

(** The stats mapping lists the eligible names in order of first appearance. *)
Lemma build_roster_keys (data : dict (list record)) (ps : dict PlayerStats) :
  build_roster data = Ok ps ->
  dict_keys ps = first_seen (filter eligible (dict_keys data)).
Proof.
  revert ps. induction data as [|[n d] data IH] using rev_ind; intros ps.
  - intros H. inversion H. reflexivity.
  - rewrite build_roster_snoc.
    destruct (build_roster data) as [ps0| |]; try discriminate.
    specialize (IH ps0 eq_refl). cbn [bind roster_step].
    unfold dict_keys in *. rewrite map_app, filter_app. cbn [map filter fst].
    destruct (eligible n).
    + destruct (calculate_player_stats d) as [st| |]; try discriminate.
      cbn [bind]. intros H. inversion H; subst.
      rewrite first_seen_snoc, <- IH.
      pose proof (dict_set_keys n st ps0) as K. unfold dict_keys in K.
      rewrite K.
      assert (E : existsb (String.eqb n) (map fst ps0)
                  = existsb (String.eqb n) (filter eligible (map fst data))).
      { apply eq_true_iff_eq. rewrite !existsb_eqb_In, IH, first_seen_In.
        reflexivity. }
      rewrite E. reflexivity.
    + intros H. inversion H; subst. rewrite List.app_nil_r. exact IH.
Qed.

Lemma build_roster_no_eligible (data : dict (list record)) :
  (forall name, In name (dict_keys data) -> eligible name = false) ->
  build_roster data = Ok [].
Proof.
  induction data as [|[n d] data IH] using rev_ind; intros H; [reflexivity|].
  rewrite build_roster_snoc, IH.
  - cbn [bind roster_step]. rewrite (H n); [reflexivity|].
    unfold dict_keys. rewrite map_app. apply in_or_app. right. simpl. auto.
  - intros name Hn. apply H. unfold dict_keys in *. rewrite map_app.
    apply in_or_app. left. exact Hn.
Qed.

Lemma eligible_reserved (name : string) :
  eligible name = false <-> reserved name.
Proof.
  unfold eligible, reserved. destruct name as [|c rest].
  - split; [intros _; left; reflexivity | reflexivity].
  - change (String.eqb (String c rest) "") with false.
    cbn [negb andb].
    assert (P : forall a, String.prefix (String a "") (String c rest)
                          = Ascii.eqb a c).
    { intros a. cbn [String.prefix].
      destruct (ascii_dec a c) as [->|Hne].
      - rewrite Ascii.eqb_refl. destruct rest; reflexivity.
      - apply Ascii.eqb_neq in Hne. rewrite Hne. reflexivity. }
    rewrite !P. split.
    + intros H. right. exists c, rest. split; [reflexivity|]. simpl.
      destruct (Ascii.eqb_spec "$"%char c); [tauto|].
      destruct (Ascii.eqb_spec "#"%char c); [tauto|].
      destruct (Ascii.eqb_spec "%"%char c); [tauto|].
      destruct (Ascii.eqb_spec "["%char c); [tauto|]. discriminate.
    + intros [H|(c' & rest' & E & Hin)]; [discriminate|].
      inversion E; subst c' rest'. simpl in Hin.
      destruct Hin as [<-|[<-|[<-|[<-|[]]]]]; reflexivity.
Qed.

(** ** The unsorted lists *)

Lemma format_02d_ok (z : Z) (s : string) : format_02d z = Ok s -> s = pad_02d z.
Proof.
  unfold format_02d. destruct (Z.leb str_digits_limit (Z.abs z)); [discriminate|].
  intros H. inversion H. reflexivity.
Qed.

(** When the three components can be formatted, the fields are those of
    the total. *)
Lemma clock_of_fields (st : PlayerStats) (c : clock) :
  clock_of st = Ok c -> c = clock_fields st.
Proof.
  unfold clock_of, clock_fields. cbv zeta.
  destruct (format_02d (play_time_seconds st / 3600)) as [h| |] eqn:Eh;
    cbn [bind]; try discriminate.
  destruct (format_02d (play_time_seconds st mod 3600 / 60)) as [m| |] eqn:Em;
    cbn [bind]; try discriminate.
  destruct (format_02d (play_time_seconds st mod 60)) as [s| |] eqn:Es;
    cbn [bind]; try discriminate.
  apply format_02d_ok in Eh, Em, Es. subst. intros H. inversion H. reflexivity.
Qed.

Lemma for_each_rank_step (ps : dict PlayerStats) (r0 u : rankings.t) :
  for_each rank_step ps r0 = Ok u ->
  rankings.play_time u = rankings.play_time r0 ++ time_entries ps
  /\ rankings.games_played u
     = rankings.games_played r0 ++ int_entries games_played ps
  /\ rankings.wins u = rankings.wins r0 ++ int_entries wins ps
  /\ rankings.kills u = rankings.kills r0 ++ int_entries kills ps
  /\ rankings.deaths u = rankings.deaths r0 ++ int_entries deaths ps
  /\ (exists l, rankings.kd_ratio u = rankings.kd_ratio r0 ++ l
                /\ Forall2 kd_entry_of ps l)
  /\ (exists l, rankings.win_rate u = rankings.win_rate r0 ++ l
                /\ Forall2 win_entry_of ps l).
Proof.
  revert r0. induction ps as [|[n st] ps IH]; intros r0 H.
  - inversion H; subst. unfold time_entries, int_entries. simpl.
    rewrite !List.app_nil_r.
    repeat split; try reflexivity; exists []; rewrite List.app_nil_r;
      split; auto.
  - cbn [for_each] in H. unfold rank_step at 1 in H.
    destruct (clock_of st) as [c| |] eqn:Ec; try discriminate.
    apply clock_of_fields in Ec. subst c. cbn [bind] in H.
    destruct (kd_ratio_of st) as [kd| |] eqn:Ekd; try discriminate.
    destruct (win_rate_of st) as [wr| |] eqn:Ewr; try discriminate.
    cbn [bind] in H. apply IH in H. cbn [rankings.play_time
      rankings.games_played rankings.wins rankings.kills rankings.deaths
      rankings.kd_ratio rankings.win_rate] in H.
    destruct H as (H1 & H2 & H3 & H4 & H5 & (l6 & H6 & F6) & (l7 & H7 & F7)).
    unfold time_entries, int_entries in *. cbn [map fst snd].
    rewrite H1, H2, H3, H4, H5, H6, H7, <- !List.app_assoc.
    repeat split; try reflexivity.
    + eexists. split; [reflexivity|]. constructor; [|exact F6].
      repeat split; assumption.
    + eexists. split; [reflexivity|]. constructor; [|exact F7].
      repeat split; assumption.
Qed.

Lemma collect_in_mapping_order (ps : dict PlayerStats) (u : rankings.t) :
  collect ps = Ok u -> in_mapping_order ps u.
Proof.
  intros H. apply for_each_rank_step in H. simpl in H.
  destruct H as (H1 & H2 & H3 & H4 & H5 & (l6 & H6 & F6) & (l7 & H7 & F7)).
  unfold in_mapping_order. rewrite H1, H2, H3, H4, H5, H6, H7. tauto.
Qed.

Lemma time_entries_players (ps : dict PlayerStats) :
  players (time_entries ps) = dict_keys ps.
Proof. unfold players, time_entries, dict_keys. rewrite map_map. reflexivity. Qed.

Lemma int_entries_players (field : PlayerStats -> Z) (ps : dict PlayerStats) :
  players (int_entries field ps) = dict_keys ps.
Proof. unfold players, int_entries, dict_keys. rewrite map_map. reflexivity. Qed.

Lemma kd_entries_players (ps : dict PlayerStats) (l : list (entry spec_float string)) :
  Forall2 kd_entry_of ps l -> players l = dict_keys ps.
Proof.
  induction 1 as [|p e ps l (Hp & _) _ IH]; simpl; [reflexivity|].
  unfold players, dict_keys in *. congruence.
Qed.

Lemma win_entries_players (ps : dict PlayerStats) (l : list (entry spec_float string)) :
  Forall2 win_entry_of ps l -> players l = dict_keys ps.
Proof.
  induction 1 as [|p e ps l (Hp & _) _ IH]; simpl; [reflexivity|].
  unfold players, dict_keys in *. congruence.
Qed.

Lemma kd_ratio_of_not_nan (st : PlayerStats) (q : spec_float) :
  kd_ratio_of st = Ok q -> not_nan q.
Proof.
  unfold kd_ratio_of. intros H. apply is_finite_not_nan.
  eapply int_truediv_ok. exact H.
Qed.

Lemma win_rate_of_not_nan (st : PlayerStats) (q : spec_float) :
  win_rate_of st = Ok q -> not_nan q.
Proof.
  unfold win_rate_of.
  destruct (int_truediv _ _) as [q0| |] eqn:E; try discriminate.
  cbn [bind]. intros H. inversion H; subst.
  apply float_mul_100_not_nan, is_finite_not_nan.
  eapply int_truediv_ok. exact E.
Qed.

Lemma kd_entries_not_nan (ps : dict PlayerStats) (l : list (entry spec_float string)) :
  Forall2 kd_entry_of ps l -> Forall (fun e => not_nan (value e)) l.
Proof.
  induction 1 as [|p e ps l (_ & Hv & _) _ IH]; constructor; [|exact IH].
  eapply kd_ratio_of_not_nan. exact Hv.
Qed.

Lemma win_entries_not_nan (ps : dict PlayerStats) (l : list (entry spec_float string)) :
  Forall2 win_entry_of ps l -> Forall (fun e => not_nan (value e)) l.
Proof.
  induction 1 as [|p e ps l (_ & Hv & _) _ IH]; constructor; [|exact IH].
  eapply win_rate_of_not_nan. exact Hv.
Qed.

(** ** Sorting the entries *)

Lemma StronglySorted_weaken {T : Type} (R R' : T -> T -> Prop) (l : list T) :
  (forall a b, R a b -> R' a b) -> StronglySorted R l -> StronglySorted R' l.
Proof.
  intros HR. induction 1 as [|a l Hs IH Ha]; constructor; [exact IH|].
  eapply Forall_impl; [|exact Ha]. intros b. apply HR.
Qed.

Lemma Z_ltb_irrefl (x : Z) : True -> Z.ltb x x = false.
Proof. intros _. apply Z.ltb_irrefl. Qed.

Lemma Z_ltb_trans (x y z : Z) :
  True -> True -> True -> Z.ltb x y = true -> Z.ltb y z = true -> Z.ltb x z = true.
Proof. intros _ _ _. rewrite !Z.ltb_lt. lia. Qed.

Lemma Z_ltb_negtrans (x y z : Z) :
  True -> True -> True ->
  Z.ltb x y = false -> Z.ltb y z = false -> Z.ltb x z = false.
Proof. intros _ _ _. rewrite !Z.ltb_ge. lia. Qed.

Lemma all_good {T : Type} (key : T -> Z) (l : list T) :
  good_keys key (fun _ => True) l.
Proof. apply Forall_forall. auto. Qed.

Lemma tied_Z (v x : Z) : tied Z.ltb v x = Z.eqb x v.
Proof.
  unfold tied. destruct (Z.ltb_spec v x), (Z.ltb_spec x v), (Z.eqb_spec x v);
    simpl; try reflexivity; lia.
Qed.

Lemma sort_desc_Z {X : Type} (l : list (entry Z X)) :
  non_increasing (list_sort_reverse Z.ltb value l)
  /\ keeps_ties (list_sort_reverse Z.ltb value l) l
  /\ Permutation (list_sort_reverse Z.ltb value l) l.
Proof.
  split; [|split].
  - eapply StronglySorted_weaken;
      [| apply (list_sort_reverse_sorted Z.ltb value (fun _ => True)
                  Z_ltb_irrefl Z_ltb_trans Z_ltb_negtrans), all_good].
    unfold descending. intros a b H. apply Z.ltb_ge in H. exact H.
  - intros v.
    rewrite (filter_ext _ (fun e => tied Z.ltb v (value e)))
      by (intros e; symmetry; apply tied_Z).
    rewrite (filter_ext (fun e => Z.eqb (value e) v)
               (fun e => tied Z.ltb v (value e)))
      by (intros e; symmetry; apply tied_Z).
    apply (list_sort_reverse_stable Z.ltb value (fun _ => True)
             Z_ltb_negtrans); [exact I | apply all_good].
  - apply list_sort_reverse_perm.
Qed.

Lemma sort_asc_Z {X : Type} (l : list (entry Z X)) :
  non_decreasing (list_sort Z.ltb value l)
  /\ keeps_ties (list_sort Z.ltb value l) l
  /\ Permutation (list_sort Z.ltb value l) l.
Proof.
  split; [|split].
  - eapply StronglySorted_weaken;
      [| apply (list_sort_sorted Z.ltb value (fun _ => True)
                  Z_ltb_irrefl Z_ltb_trans Z_ltb_negtrans), all_good].
    unfold ascending. intros a b H. apply Z.ltb_ge in H. exact H.
  - intros v.
    rewrite (filter_ext _ (fun e => tied Z.ltb v (value e)))
      by (intros e; symmetry; apply tied_Z).
    rewrite (filter_ext (fun e => Z.eqb (value e) v)
               (fun e => tied Z.ltb v (value e)))
      by (intros e; symmetry; apply tied_Z).
    apply (list_sort_stable Z.ltb value (fun _ => True)
             Z_ltb_negtrans); [exact I | apply all_good].
  - apply list_sort_perm.
Qed.

Lemma sort_desc_float {X : Type} (l : list (entry spec_float X)) :
  Forall (fun e => not_nan (value e)) l ->
  float_non_increasing (list_sort_reverse float_lt value l)
  /\ keeps_float_ties (list_sort_reverse float_lt value l) l
  /\ Permutation (list_sort_reverse float_lt value l) l.
Proof.
  intros Hl. split; [split|split].
  - apply (list_sort_reverse_sorted float_lt value not_nan
             float_lt_irrefl float_lt_trans float_lt_negtrans). exact Hl.
  - eapply Permutation_Forall; [symmetry; apply list_sort_reverse_perm | exact Hl].
  - intros v Hv.
    apply (list_sort_reverse_stable float_lt value not_nan
             float_lt_negtrans); assumption.
  - apply list_sort_reverse_perm.
Qed.

(** What a successful call went through. *)
Lemma generate_rankings_success (data : dict (list record)) (r : rankings.t) :
  generate_rankings (Some data) = Ok (Some r, None) ->
  exists ps u, build_roster data = Ok ps /\ ps <> [] /\ collect ps = Ok u
               /\ r = sort_all u.
Proof.
  unfold generate_rankings, generate_rankings_body.
  destruct (build_roster data) as [ps| |]; cbn [bind]; try discriminate.
  destruct ps as [|p ps]; [discriminate|].
  destruct (collect (p :: ps)) as [u| |] eqn:Eu; cbn [bind]; try discriminate.
  intros H. inversion H; subst. exists (p :: ps), u.
  split; [reflexivity|]. split; [discriminate|]. split; [exact Eu | reflexivity].
Qed.

(** ** The rankings *)

(** C4.  In the rankings [generate_rankings] returns, the play-time,
    games-played, wins, kills, kill/death and win-rate lists are in
    descending order of value and the deaths list in ascending order; each
    is a stable sort of the entries taken in the order of the stats mapping:
    the entries sharing a value stand in that order. *)
Theorem generate_rankings_sorted (data : dict (list record)) (r : rankings.t) :
  generate_rankings (Some data) = Ok (Some r, None) ->
  exists ps u,
    build_roster data = Ok ps /\ in_mapping_order ps u
    /\ (non_increasing (rankings.play_time r)
        /\ keeps_ties (rankings.play_time r) (rankings.play_time u))
    /\ (non_increasing (rankings.games_played r)
        /\ keeps_ties (rankings.games_played r) (rankings.games_played u))
    /\ (non_increasing (rankings.wins r)
        /\ keeps_ties (rankings.wins r) (rankings.wins u))
    /\ (non_increasing (rankings.kills r)
        /\ keeps_ties (rankings.kills r) (rankings.kills u))
    /\ (non_decreasing (rankings.deaths r)
        /\ keeps_ties (rankings.deaths r) (rankings.deaths u))
    /\ (float_non_increasing (rankings.kd_ratio r)
        /\ keeps_float_ties (rankings.kd_ratio r) (rankings.kd_ratio u))
    /\ (float_non_increasing (rankings.win_rate r)
        /\ keeps_float_ties (rankings.win_rate r) (rankings.win_rate u)).
Proof.
  intros H. apply generate_rankings_success in H as (ps & u & Hps & _ & Hu & ->).
  exists ps, u. pose proof (collect_in_mapping_order ps u Hu) as Hm.
  split; [exact Hps|]. split; [exact Hm|].
  destruct Hm as (_ & _ & _ & _ & _ & Hkd & Hwr).
  apply kd_entries_not_nan in Hkd. apply win_entries_not_nan in Hwr.
  unfold sort_all. cbn [rankings.play_time rankings.games_played rankings.wins
    rankings.kills rankings.deaths rankings.kd_ratio rankings.win_rate].
  repeat split;
    first [ apply sort_desc_Z | apply sort_asc_Z
          | apply (sort_desc_float _ Hkd) | apply (sort_desc_float _ Hwr) ].
Qed.

Lemma generate_rankings_sorted_witness :
  generate_rankings (Some three_killers) = Ok (Some (ranked three_killers), None)
  /\ players (rankings.kills (ranked three_killers)) = ["B"; "A"; "C"]
  /\ map value (rankings.kills (ranked three_killers)) = [10; 5; 5]
  /\ players (rankings.deaths (ranked three_mortals)) = ["B"; "C"; "A"]
  /\ map value (rankings.deaths (ranked three_mortals)) = [0; 1; 3]
  /\ non_increasing (rankings.kills (ranked three_killers)).
Proof.
  split; [vm_compute; reflexivity|].
  split; [vm_compute; reflexivity|].
  split; [vm_compute; reflexivity|].
  split; [vm_compute; reflexivity|].
  split; [vm_compute; reflexivity|].
  destruct (generate_rankings_sorted three_killers (ranked three_killers))
    as (ps & u & _ & _ & _ & _ & _ & (H & _) & _).
  - vm_compute. reflexivity.
  - exact H.
Defined.

(** The players of every list are those of the stats mapping. *)
Lemma rankings_players (data : dict (list record)) (r : rankings.t) :
  generate_rankings (Some data) = Ok (Some r, None) ->
  exists ps,
    build_roster data = Ok ps
    /\ every_list (fun l => Permutation l (dict_keys ps)) r.
Proof.
  intros H. apply generate_rankings_success in H as (ps & u & Hps & _ & Hu & ->).
  exists ps. split; [exact Hps|].
  destruct (collect_in_mapping_order ps u Hu)
    as (H1 & H2 & H3 & H4 & H5 & H6 & H7).
  unfold every_list, sort_all. cbn [rankings.play_time
    rankings.games_played rankings.wins rankings.kills rankings.deaths
    rankings.kd_ratio rankings.win_rate]. unfold players.
  repeat split.
  - rewrite list_sort_reverse_perm, H1. apply Permutation_refl'.
    apply time_entries_players.
  - rewrite list_sort_reverse_perm, H2. apply Permutation_refl'.
    apply int_entries_players.
  - rewrite list_sort_reverse_perm, H3. apply Permutation_refl'.
    apply int_entries_players.
  - rewrite list_sort_reverse_perm, H4. apply Permutation_refl'.
    apply int_entries_players.
  - rewrite list_sort_perm, H5. apply Permutation_refl'.
    apply int_entries_players.
  - rewrite list_sort_reverse_perm. apply Permutation_refl'.
    apply kd_entries_players, H6.
  - rewrite list_sort_reverse_perm. apply Permutation_refl'.
    apply win_entries_players, H7.
Qed.

(** C10.  When [generate_rankings] returns rankings, each of the seven
    lists holds exactly one entry for each name of the stats mapping, and
    those names are the eligible names of the input, each once: the seven
    lists have the length of that roster. *)
Theorem generate_rankings_one_entry_each (data : dict (list record)) (r : rankings.t) :
  generate_rankings (Some data) = Ok (Some r, None) ->
  exists ps,
    build_roster data = Ok ps
    /\ dict_keys ps = first_seen (filter eligible (dict_keys data))
    /\ NoDup (dict_keys ps)
    /\ every_list (fun l => Permutation l (dict_keys ps)) r
    /\ every_list (fun l => List.length l = List.length ps) r.
Proof.
  intros H. destruct (rankings_players data r H) as (ps & Hps & P).
  exists ps. pose proof (build_roster_keys data ps Hps) as Hk.
  split; [exact Hps|]. split; [exact Hk|].
  split; [rewrite Hk; apply first_seen_NoDup|].
  split; [exact P|].
  assert (L : List.length ps = List.length (dict_keys ps))
    by (unfold dict_keys; rewrite List.length_map; reflexivity).
  unfold every_list in *. rewrite L.
  destruct P as (P1 & P2 & P3 & P4 & P5 & P6 & P7).
  repeat split; apply Permutation_length; assumption.
Qed.

Lemma generate_rankings_one_entry_each_witness :
  generate_rankings (Some with_sentinels)
  = Ok (Some (ranked with_sentinels), None)
  /\ exists ps,
       build_roster with_sentinels = Ok ps
       /\ dict_keys ps = ["Steve"]
       /\ every_list (fun l => List.length l = List.length ps)
            (ranked with_sentinels).
Proof.
  split; [vm_compute; reflexivity|].
  destruct (generate_rankings_one_entry_each with_sentinels
              (ranked with_sentinels)) as (ps & Hps & Hk & _ & _ & Hl).
  - vm_compute. reflexivity.
  - exists ps. split; [exact Hps|]. split; [rewrite Hk; reflexivity | exact Hl].
Defined.

(** ** Reserved names *)

Lemma get_player_list_eligible {V : Type} (data : dict V) (name : string) :
  In name (get_player_list (Some data)) -> eligible name = true.
Proof.
  unfold get_player_list. intros H.
  apply (Permutation_in _ (list_sort_perm String.ltb (fun n => n) _)) in H.
  apply filter_In in H. apply H.
Qed.

Lemma roster_eligible (data : dict (list record)) (ps : dict PlayerStats)
    (name : string) :
  build_roster data = Ok ps -> In name (dict_keys ps) -> eligible name = true.
Proof.
  intros Hps H. rewrite (build_roster_keys data ps Hps) in H.
  apply first_seen_In, filter_In in H. apply H.
Qed.

(** C6.  A reserved name, one that is empty or starts with [$], [#], [%]
    or [[], is in none of the seven ranking lists and not in the player
    listing, whatever the grouped scores hold. *)
Theorem reserved_names_excluded (data : dict (list record)) (name : string) :
  reserved name ->
  ~ In name (get_player_list (Some data))
  /\ forall r, generate_rankings (Some data) = Ok (Some r, None) ->
               every_list (fun l => ~ In name l) r.
Proof.
  intros Hres. apply eligible_reserved in Hres. split.
  - intros H. apply get_player_list_eligible in H. congruence.
  - intros r Hr.
    destruct (rankings_players data r Hr) as (ps & Hps & P).
    assert (N : ~ In name (dict_keys ps)).
    { intros H. apply (roster_eligible data ps name Hps) in H. congruence. }
    unfold every_list in *. cbv beta in *.
    destruct P as (P1 & P2 & P3 & P4 & P5 & P6 & P7).
    split; [intros H; apply N; apply (Permutation_in _ P1 H)|].
    split; [intros H; apply N; apply (Permutation_in _ P2 H)|].
    split; [intros H; apply N; apply (Permutation_in _ P3 H)|].
    split; [intros H; apply N; apply (Permutation_in _ P4 H)|].
    split; [intros H; apply N; apply (Permutation_in _ P5 H)|].
    split; [intros H; apply N; apply (Permutation_in _ P6 H)|].
    intros H; apply N; apply (Permutation_in _ P7 H).
Qed.

Lemma reserved_names_excluded_witness :
  reserved "$CONST-x"
  /\ In "$CONST-x" (dict_keys with_sentinels)
  /\ generate_rankings (Some with_sentinels)
     = Ok (Some (ranked with_sentinels), None)
  /\ get_player_list (Some with_sentinels) = ["Steve"]
  /\ ~ In "$CONST-x" (get_player_list (Some with_sentinels))
  /\ every_list (fun l => ~ In "$CONST-x" l) (ranked with_sentinels).
Proof.
  assert (R : reserved "$CONST-x").
  { right. exists "$"%char, "CONST-x". split; [reflexivity | simpl; auto]. }
  split; [exact R|].
  split; [simpl; auto|].
  split; [vm_compute; reflexivity|].
  split; [vm_compute; reflexivity|].
  destruct (reserved_names_excluded with_sentinels "$CONST-x" R) as [H1 H2].
  split; [exact H1|]. apply H2. vm_compute. reflexivity.
Defined.

(** C7.  When every name of the grouped scores is reserved, and so when
    there is no name at all, [generate_rankings] returns normally with no
    rankings and the message that no valid player data was found. *)
Theorem generate_rankings_empty_roster (data : dict (list record)) :
  (forall name, In name (dict_keys data) -> reserved name) ->
  generate_rankings (Some data) = Ok (None, Some msg_no_players)
  /\ generate_rankings (Some []) = Ok (None, Some msg_no_players).
Proof.
  intros H. split; [|reflexivity].
  unfold generate_rankings, generate_rankings_body.
  rewrite build_roster_no_eligible; [reflexivity|].
  intros name Hn. apply eligible_reserved, H, Hn.
Qed.

Lemma generate_rankings_empty_roster_witness :
  (forall name, In name (dict_keys only_sentinels) -> reserved name)
  /\ generate_rankings (Some only_sentinels) = Ok (None, Some msg_no_players).
Proof.
  assert (R : forall name, In name (dict_keys only_sentinels) -> reserved name).
  { intros name [<-|[<-|[]]]; apply eligible_reserved; reflexivity. }
  split; [exact R|].
  apply (generate_rankings_empty_roster only_sentinels R).
Defined.

(** ** The derived metrics *)

Lemma guard_is_max (n : Z) : (if Z.ltb 0 n then n else 1) = Z.max n 1.
Proof. destruct (Z.ltb_spec 0 n); lia. Qed.

Lemma Forall2_In_left {A B : Type} (R : A -> B -> Prop) (l : list A) (l' : list B)
    (x : A) :
  Forall2 R l l' -> In x l -> exists y, In y l' /\ R x y.
Proof.
  induction 1 as [|a b l l' Hab _ IH]; intros Hx; [destruct Hx|].
  destruct Hx as [<-|Hx].
  - exists b. split; [left; reflexivity | exact Hab].
  - destruct (IH Hx) as (y & Hy & HR). exists y. split; [right|]; assumption.
Qed.

Lemma Forall2_In_right {A B : Type} (R : A -> B -> Prop) (l : list A) (l' : list B)
    (y : B) :
  Forall2 R l l' -> In y l' -> exists x, In x l /\ R x y.
Proof.
  induction 1 as [|a b l l' Hab _ IH]; intros Hy; [destruct Hy|].
  destruct Hy as [<-|Hy].
  - exists a. split; [left; reflexivity | exact Hab].
  - destruct (IH Hy) as (x & Hx & HR). exists x. split; [right|]; assumption.
Qed.

Lemma kd_ratio_of_spec (st : PlayerStats) : kd_ratio_of st = kd_spec st.
Proof. unfold kd_ratio_of, kd_spec. rewrite guard_is_max. reflexivity. Qed.

Lemma win_rate_of_spec (st : PlayerStats) : win_rate_of st = win_rate_spec st.
Proof. unfold win_rate_of, win_rate_spec. rewrite guard_is_max. reflexivity. Qed.

(** C5.  In the rankings [generate_rankings] returns, every player of the
    roster has a kill/death entry whose value is [kills / max(deaths, 1)],
    finite, and a win-rate entry whose value is
    [wins / max(games_played, 1) * 100], the quotient of the two integers
    rounded once and then multiplied by binary64 100.0; the lists hold no
    other entry.  The division never fails for a zero divisor.  4 kills
    and no death give 4.0; 1 win in 2 games gives 50.0, and 3 wins in no
    game 300.0. *)
Theorem derived_metrics_zero_guard (data : dict (list record)) (r : rankings.t) :
  generate_rankings (Some data) = Ok (Some r, None) ->
  (exists ps,
     build_roster data = Ok ps
     /\ (forall n st, In (n, st) ps ->
           (exists e, In e (rankings.kd_ratio r) /\ player e = n
                      /\ kd_spec st = Ok (value e)
                      /\ is_finite (value e) = true)
           /\ (exists e, In e (rankings.win_rate r) /\ player e = n
                         /\ win_rate_spec st = Ok (value e)))
     /\ (forall e, In e (rankings.kd_ratio r) ->
           exists st, In (player e, st) ps /\ kd_spec st = Ok (value e))
     /\ (forall e, In e (rankings.win_rate r) ->
           exists st, In (player e, st) ps /\ win_rate_spec st = Ok (value e)))
  /\ (forall st : PlayerStats,
        kd_ratio_of st = int_truediv (kills st) (Z.max (deaths st) 1)
        /\ win_rate_of st
           = (q <- int_truediv (wins st) (Z.max (games_played st) 1) ;;
              Ok (SFmul prec emax q hundred))
        /\ ((exists q, kd_ratio_of st = Ok q /\ is_finite q = true)
            \/ kd_ratio_of st
               = Raise (OverflowError
                          "integer division result too large for a float"))
        /\ kd_ratio_of
             (mkStats (play_time_seconds st) (games_played st) (wins st) 4 0)
           = Ok four)
  /\ four = float_of_int 4
  /\ hundred = float_of_int 100
  /\ win_rate_spec (mkStats 0 2 1 0 0) = Ok fifty
  /\ fifty = float_of_int 50
  /\ win_rate_spec (mkStats 0 0 3 0 0) = Ok three_hundred
  /\ three_hundred = float_of_int 300.
Proof.
  intros H. split; [|split; [|repeat split; vm_compute; reflexivity]].
  - apply generate_rankings_success in H as (ps & u & Hps & _ & Hu & ->).
    destruct (collect_in_mapping_order ps u Hu)
      as (_ & _ & _ & _ & _ & Hkd & Hwin).
    exists ps. split; [exact Hps|].
    cbn [sort_all rankings.kd_ratio rankings.win_rate].
    split; [|split].
    + intros n st Hin. split.
      * destruct (Forall2_In_left _ _ _ _ Hkd Hin) as (e & He & Hp & Hv & _).
        exists e. split.
        { apply (Permutation_in _
                   (Permutation_sym (list_sort_reverse_perm float_lt value _))).
          exact He. }
        split; [exact Hp|]. rewrite <- kd_ratio_of_spec.
        split; [exact Hv|]. unfold kd_ratio_of in Hv.
        eapply int_truediv_ok. exact Hv.
      * destruct (Forall2_In_left _ _ _ _ Hwin Hin) as (e & He & Hp & Hv & _).
        exists e. split.
        { apply (Permutation_in _
                   (Permutation_sym (list_sort_reverse_perm float_lt value _))).
          exact He. }
        split; [exact Hp|]. rewrite <- win_rate_of_spec. exact Hv.
    + intros e He.
      apply (Permutation_in _ (list_sort_reverse_perm float_lt value _)) in He.
      destruct (Forall2_In_right _ _ _ _ Hkd He) as ([n st] & Hin & Hp & Hv & _).
      exists st. cbn [fst snd] in Hp, Hv. rewrite Hp.
      split; [exact Hin|]. rewrite <- kd_ratio_of_spec. exact Hv.
    + intros e He.
      apply (Permutation_in _ (list_sort_reverse_perm float_lt value _)) in He.
      destruct (Forall2_In_right _ _ _ _ Hwin He) as ([n st] & Hin & Hp & Hv & _).
      exists st. cbn [fst snd] in Hp, Hv. rewrite Hp.
      split; [exact Hin|]. rewrite <- win_rate_of_spec. exact Hv.
  - intros st. split; [apply kd_ratio_of_spec|].
    split; [apply win_rate_of_spec|]. split; [|reflexivity].
    rewrite kd_ratio_of_spec. unfold kd_spec.
    destruct (int_truediv_guarded (kills st) (Z.max (deaths st) 1)) as [[q Hq]|Hq];
      [lia | left | right; exact Hq].
    exists q. split; [exact Hq | eapply int_truediv_ok; exact Hq].
Qed.

Lemma derived_metrics_zero_guard_witness :
  generate_rankings (Some guard_example) = Ok (Some (ranked guard_example), None)
  /\ (exists e, In e (rankings.kd_ratio (ranked guard_example))
                /\ player e = "Steve" /\ value e = four)
  /\ (exists e, In e (rankings.win_rate (ranked guard_example))
                /\ player e = "Steve" /\ value e = fifty).
Proof.
  assert (H : generate_rankings (Some guard_example)
              = Ok (Some (ranked guard_example), None))
    by (vm_compute; reflexivity).
  split; [exact H|].
  destruct (derived_metrics_zero_guard guard_example _ H)
    as [(ps & Hps & Hall & _) _].
  assert (E : build_roster guard_example = Ok [("Steve", mkStats 0 2 1 4 0)])
    by (vm_compute; reflexivity).
  rewrite E in Hps. inversion Hps; subst ps.
  destruct (Hall "Steve" (mkStats 0 2 1 4 0) (or_introl eq_refl))
    as [(e & He & Hp & Hv & _) (e' & He' & Hp' & Hv')].
  split.
  - exists e. split; [exact He|]. split; [exact Hp|].
    assert (K : kd_spec (mkStats 0 2 1 4 0) = Ok four) by (vm_compute; reflexivity).
    rewrite K in Hv. inversion Hv. reflexivity.
  - exists e'. split; [exact He'|]. split; [exact Hp'|].
    assert (K : win_rate_spec (mkStats 0 2 1 4 0) = Ok fifty)
      by (vm_compute; reflexivity).
    rewrite K in Hv'. inversion Hv'. reflexivity.
Defined.

(** ** Formatting *)

Lemma length_append (a b : string) :
  String.length (a ++ b)%string = (String.length a + String.length b)%nat.
Proof. induction a as [|c a IH]; simpl; [reflexivity | rewrite IH; reflexivity]. Qed.

Lemma length_zeros (k : nat) : String.length (zeros k) = k.
Proof. unfold zeros. induction k as [|k IH]; simpl; [reflexivity | rewrite IH; reflexivity]. Qed.

Lemma zfill_length (w : nat) (s : string) :
  String.length (zfill w s) = Nat.max w (String.length s).
Proof. unfold zfill. rewrite length_append, length_zeros. lia. Qed.

Lemma all_digits_append (a b : string) :
  all_digits (a ++ b)%string = all_digits a && all_digits b.
Proof.
  unfold all_digits. induction a as [|c a IH]; simpl; [reflexivity|].
  rewrite IH, andb_assoc. reflexivity.
Qed.

Lemma all_digits_zeros (k : nat) : all_digits (zeros k) = true.
Proof. unfold zeros, all_digits. induction k as [|k IH]; simpl; auto. Qed.

Lemma all_digits_uint (d : Decimal.uint) :
  all_digits (NilEmpty.string_of_uint d) = true.
Proof. unfold all_digits. induction d; simpl; auto. Qed.

Lemma all_digits_str_nat (n : N) : all_digits (str_nat n) = true.
Proof.
  unfold str_nat, NilZero.string_of_uint.
  destruct (N.to_uint n); try apply all_digits_uint. reflexivity.
Qed.

Lemma to_uint_nonnil (n : N) : N.to_uint n <> Decimal.Nil.
Proof.
  destruct n as [|p]; simpl; [discriminate|].
  apply DecimalPos.Unsigned.to_uint_nonnil.
Qed.

Lemma decimal_value_str_nat (n : N) : decimal_value (str_nat n) = Some n.
Proof.
  unfold decimal_value, str_nat.
  rewrite NilZero.usu by apply to_uint_nonnil. simpl.
  rewrite DecimalN.Unsigned.of_to. reflexivity.
Qed.

Lemma str_nat_nonempty (n : N) : str_nat n <> "".
Proof.
  intros E. pose proof (decimal_value_str_nat n) as H. rewrite E in H.
  discriminate.
Qed.

Lemma decimal_value_zero (s : string) :
  s <> "" -> decimal_value (String "0" s) = decimal_value s.
Proof.
  unfold decimal_value. destruct s as [|c s]; [congruence|]. intros _.
  unfold NilZero.uint_of_string.
  change (NilEmpty.uint_of_string (String "0" (String c s)))
    with (uint_of_char "0" (NilEmpty.uint_of_string (String c s))).
  destruct (NilEmpty.uint_of_string (String c s)); reflexivity.
Qed.

Lemma decimal_value_zeros (k : nat) (s : string) :
  s <> "" -> decimal_value (zeros k ++ s)%string = decimal_value s.
Proof.
  intros Hs. unfold zeros. induction k as [|k IH]; simpl; [reflexivity|].
  rewrite decimal_value_zero; [exact IH|].
  destruct (string_of_list_ascii (repeat "0"%char k)); simpl;
    [exact Hs | discriminate].
Qed.

Lemma pad_02d_nonneg (n : N) :
  zero_padded 2 (Z.of_N n) (pad_02d (Z.of_N n)).
Proof.
  unfold zero_padded, pad_02d.
  destruct (Z.ltb_spec (Z.of_N n) 0) as [|_]; [lia|].
  rewrite N2Z.id, Zabs2N.id. split; [lia|]. split; [|split].
  - unfold zfill. rewrite all_digits_append, all_digits_zeros.
    apply all_digits_str_nat.
  - unfold zfill. rewrite decimal_value_zeros by apply str_nat_nonempty.
    apply decimal_value_str_nat.
  - apply zfill_length.
Qed.

Lemma pad_02d_width (z : Z) : (2 <= String.length (pad_02d z))%nat.
Proof.
  unfold pad_02d. destruct (Z.ltb z 0).
  - rewrite length_append, zfill_length. cbn [String.length]. lia.
  - rewrite zfill_length. lia.
Qed.

Lemma str_nat_short (n : N) : (n < 100)%N -> (String.length (str_nat n) <= 2)%nat.
Proof.
  intros H.
  assert (A : forallb (fun k => Nat.leb (String.length (str_nat (N.of_nat k))) 2)
                      (seq 0 100) = true) by (vm_compute; reflexivity).
  rewrite forallb_forall in A.
  specialize (A (N.to_nat n)). rewrite N2Nat.id in A.
  apply Nat.leb_le, A, in_seq. lia.
Qed.

Lemma pad_02d_two (z : Z) :
  0 <= z < 100 -> String.length (pad_02d z) = 2%nat.
Proof.
  intros H. unfold pad_02d.
  destruct (Z.ltb_spec z 0) as [|_]; [lia|].
  rewrite zfill_length.
  pose proof (str_nat_short (Z.abs_N z)) as L. lia.
Qed.

Lemma zero_padded_of_nonneg (z : Z) : 0 <= z -> zero_padded 2 z (pad_02d z).
Proof.
  intros H. rewrite <- (Z2N.id z H). apply pad_02d_nonneg.
Qed.

Lemma limit_large : 100 <= str_digits_limit.
Proof.
  unfold str_digits_limit, int_max_str_digits. change 100 with (10 ^ 2).
  apply Z.pow_le_mono_r; lia.
Qed.

Lemma format_02d_within (z : Z) :
  Z.abs z < str_digits_limit -> format_02d z = Ok (pad_02d z).
Proof.
  intros H. unfold format_02d.
  destruct (Z.leb_spec str_digits_limit (Z.abs z)); [lia | reflexivity].
Qed.

Lemma format_02d_beyond (z : Z) :
  str_digits_limit <= Z.abs z ->
  format_02d z = Raise (ValueError msg_max_str_digits).
Proof.
  intros H. unfold format_02d.
  destruct (Z.leb_spec str_digits_limit (Z.abs z)); [reflexivity | lia].
Qed.

Lemma minutes_bound (t : Z) : 0 <= (t mod 3600) / 60 < 60.
Proof.
  pose proof (Z.mod_pos_bound t 3600 eq_refl).
  split; [apply Z.div_pos; lia | apply Z.div_lt_upper_bound; lia].
Qed.

Lemma seconds_bound (t : Z) : 0 <= t mod 60 < 60.
Proof. apply Z.mod_pos_bound. lia. Qed.

Lemma clock_of_within (st : PlayerStats) :
  Z.abs (play_time_seconds st / 3600) < str_digits_limit ->
  clock_of st = Ok (clock_fields st).
Proof.
  intros H. unfold clock_of, clock_fields. cbv zeta.
  pose proof limit_large as L.
  pose proof (minutes_bound (play_time_seconds st)) as Hm.
  pose proof (seconds_bound (play_time_seconds st)) as Hs.
  rewrite (format_02d_within _ H).
  rewrite (format_02d_within (play_time_seconds st mod 3600 / 60)) by lia.
  rewrite (format_02d_within (play_time_seconds st mod 60)) by lia.
  reflexivity.
Qed.

Lemma clock_of_beyond (st : PlayerStats) :
  str_digits_limit <= Z.abs (play_time_seconds st / 3600) ->
  clock_of st = Raise (ValueError msg_max_str_digits).
Proof.
  intros H. unfold clock_of. cbv zeta. rewrite (format_02d_beyond _ H).
  reflexivity.
Qed.

Lemma total_of_fields (t : Z) :
  t = 3600 * (t / 3600) + 60 * ((t mod 3600) / 60) + t mod 60.
Proof.
  pose proof (Z.div_mod t 3600 ltac:(lia)).
  pose proof (Z.div_mod (t mod 3600) 60 ltac:(lia)).
  assert (E : (t mod 3600) mod 60 = t mod 60).
  { symmetry. rewrite (Z.div_mod t 3600) at 1 by lia.
    replace (3600 * (t / 3600) + t mod 3600)
      with (t mod 3600 + (60 * (t / 3600)) * 60) by lia.
    apply Z.mod_add. lia. }
  lia.
Qed.

Lemma pad_02d_negative (p : positive) :
  pad_02d (Zneg p) = ("-" ++ str_nat (Npos p))%string.
Proof.
  unfold pad_02d. cbn [Z.ltb Z.compare Z.abs_N].
  unfold zfill. pose proof (str_nat_nonempty (Npos p)) as Hne.
  destruct (str_nat (Npos p)) as [|c s]; [congruence|]. reflexivity.
Qed.

(** C9, as stated, fails.  A total of -1 second, which a score of -1
    gives, is written [-1:59:59]: the hours carry a minus sign and one
    digit.  And hours are not of unbounded width: with more than 4300
    digits the conversion raises [ValueError] and [generate_rankings]
    returns the error message instead of rankings. *)
Lemma clock_of_counterexample :
  calculate_player_stats minus_one_second = Ok (mkStats (-1) 0 0 0 0)
  /\ clock_of (mkStats (-1) 0 0 0 0) = Ok (mkClock "-1:59:59" (-1) 59 59)
  /\ map (fun e => formatted (extra e))
         (rankings.play_time (ranked [("Steve", minus_one_second)]))
     = ["-1:59:59"]
  /\ ~ zero_padded 2 (-1) "-1"
  /\ all_digits "-1" = false
  /\ generate_rankings (Some long_hours)
     = Ok (None, Some (msg_failed ++ msg_max_str_digits)%string).
Proof.
  split; [reflexivity|]. split; [vm_compute; reflexivity|].
  split; [vm_compute; reflexivity|]. split; [|split].
  - unfold zero_padded. lia.
  - reflexivity.
  - vm_compute. reflexivity.
Qed.

(** C9, amended.  For a total that is not negative and whose hours have at
    most 4300 digits, the play-time text is hours, minutes and seconds
    joined by colons, with hours the total divided by 3600 rounded down,
    minutes the rest of that division divided by 60 and seconds the total
    modulo 60; minutes and seconds are two digits each, and hours are the
    decimal digits of the number, never cut, padded with zeros to two.
    Whenever the fields are produced they are those of the total.  For a
    negative total the hours are written with a minus sign and without
    padding.  Hours of more than 4300 digits are not written: the
    conversion raises [ValueError].  3661 seconds read "01:01:01" and
    360000 seconds "100:00:00". *)
Theorem clock_of_format :
  (forall st : PlayerStats,
     let t := play_time_seconds st in
     0 <= t -> t / 3600 < str_digits_limit ->
     exists c h m s,
       clock_of st = Ok c
       /\ hours c = t / 3600
       /\ minutes c = (t mod 3600) / 60
       /\ seconds c = t mod 60
       /\ t = 3600 * hours c + 60 * minutes c + seconds c
       /\ formatted c = (h ++ ":" ++ m ++ ":" ++ s)%string
       /\ zero_padded 2 (hours c) h
       /\ zero_padded 2 (minutes c) m /\ String.length m = 2%nat
       /\ zero_padded 2 (seconds c) s /\ String.length s = 2%nat)
  /\ (forall (st : PlayerStats) (c : clock),
        clock_of st = Ok c ->
        c = clock_fields st
        /\ Z.abs (play_time_seconds st / 3600) < str_digits_limit
        /\ (2 <= String.length (pad_02d (hours c)))%nat)
  /\ (forall st : PlayerStats,
        let t := play_time_seconds st in
        t < 0 -> - str_digits_limit < t / 3600 ->
        exists c,
          clock_of st = Ok c
          /\ formatted c
             = ("-" ++ str_nat (Z.abs_N (t / 3600)) ++ ":"
                  ++ pad_02d ((t mod 3600) / 60) ++ ":" ++ pad_02d (t mod 60))%string)
  /\ (forall st : PlayerStats,
        str_digits_limit <= Z.abs (play_time_seconds st / 3600) ->
        clock_of st = Raise (ValueError msg_max_str_digits))
  /\ clock_of (mkStats 3661 0 0 0 0) = Ok (mkClock "01:01:01" 1 1 1)
  /\ clock_of (mkStats 360000 0 0 0 0) = Ok (mkClock "100:00:00" 100 0 0).
Proof.
  split; [|split; [|split; [|split; [|split]]]].
  - intros st t Ht Hh.
    assert (H0 : 0 <= t / 3600) by (apply Z.div_pos; lia).
    pose proof (minutes_bound t) as Hm. pose proof (seconds_bound t) as Hs.
    exists (clock_fields st), (pad_02d (t / 3600)),
      (pad_02d ((t mod 3600) / 60)), (pad_02d (t mod 60)).
    split; [apply clock_of_within; fold t; lia|].
    unfold clock_fields. fold t. cbn [hours minutes seconds formatted].
    split; [reflexivity|]. split; [reflexivity|]. split; [reflexivity|].
    split; [apply total_of_fields|]. split; [reflexivity|].
    split; [apply zero_padded_of_nonneg; lia|].
    split; [apply zero_padded_of_nonneg; lia|].
    split; [apply pad_02d_two; lia|].
    split; [apply zero_padded_of_nonneg; lia|].
    apply pad_02d_two; lia.
  - intros st c H. split; [apply clock_of_fields, H|]. split.
    + destruct (Z.lt_ge_cases (Z.abs (play_time_seconds st / 3600))
                  str_digits_limit) as [L|L]; [exact L|].
      rewrite (clock_of_beyond st L) in H. discriminate H.
    + apply pad_02d_width.
  - intros st t Ht Hh.
    assert (Hneg : t / 3600 < 0) by (apply Z.div_lt_upper_bound; lia).
    exists (clock_fields st).
    split; [apply clock_of_within; fold t; lia|].
    unfold clock_fields. fold t. cbn [formatted].
    destruct (t / 3600) as [|p|p]; try lia.
    rewrite pad_02d_negative. cbn [Z.abs_N].
    reflexivity.
  - intros st H. apply clock_of_beyond, H.
  - vm_compute. reflexivity.
  - vm_compute. reflexivity.
Qed.

(** * Further properties *)

(** ** The ten entries that are saved *)

Lemma StronglySorted_split {T : Type} (R : T -> T -> Prop) (l : list T) :
  StronglySorted R l ->
  forall k a b, In a (firstn k l) -> In b (skipn k l) -> R a b.
Proof.
  induction 1 as [|x l Hs IH Hx]; intros k a b Ha Hb.
  - destruct k; contradiction.
  - destruct k as [|k]; [contradiction|]. cbn [firstn skipn] in Ha, Hb.
    destruct Ha as [<-|Ha].
    + rewrite Forall_forall in Hx. apply Hx.
      rewrite <- (firstn_skipn k l). apply in_or_app. right. exact Hb.
    + eapply IH; eassumption.
Qed.

Lemma players_top_ten {V X : Type} (l : list (entry V X)) :
  players (top_ten l) = firstn 10 (players l).
Proof. unfold players, top_ten. symmetry. apply firstn_map. Qed.

Lemma top_ten_length_of {V X : Type} (l : list (entry V X)) (roster : list string) :
  Permutation (players l) roster ->
  List.length (players (top_ten l)) = Nat.min 10 (List.length roster).
Proof.
  intros P. rewrite players_top_ten, List.length_firstn.
  rewrite (Permutation_length P). reflexivity.
Qed.

Lemma best_prefix_sorted {T : Type} (R : T -> T -> Prop) (l : list T) :
  StronglySorted R l -> best_prefix R l (firstn 10 l).
Proof.
  intros H. exists (skipn 10 l). split; [|split].
  - symmetry. apply firstn_skipn.
  - apply List.length_firstn.
  - intros a b Ha Hb. exact (StronglySorted_split R l H 10%nat a b Ha Hb).
Qed.



(** ** The ranking message *)

Lemma append_assoc (a b c : string) : ((a ++ b) ++ c = a ++ (b ++ c))%string.
Proof. induction a as [|x a IH]; simpl; [reflexivity | rewrite IH; reflexivity]. Qed.

Lemma append_empty (a : string) : (a ++ "")%string = a.
Proof. induction a as [|x a IH]; simpl; [reflexivity | rewrite IH; reflexivity]. Qed.

Lemma rank_lines_closed {V X : Type} (display : entry V X -> string) (i : nat)
    (l : list (entry V X)) (acc : string) :
  rank_lines display i l acc = (acc ++ join (numbered_lines display i l))%string.
Proof.
  revert i acc. induction l as [|item l IH]; intros i acc.
  - simpl. rewrite append_empty. reflexivity.
  - cbn [rank_lines]. rewrite IH. unfold numbered_lines.
    cbn [List.length seq combine map join fold_right fst snd].
    rewrite append_assoc. reflexivity.
Qed.

Lemma rank_block_nonempty {V X : Type} (title : string) (display : entry V X -> string)
    (l : list (entry V X)) :
  l <> [] -> rank_block title display l = Some (block_text title display l).
Proof.
  destruct l as [|e l]; [congruence|]. intros _.
  unfold rank_block, block_text. cbv zeta. rewrite rank_lines_closed.
  rewrite !append_assoc. reflexivity.
Qed.

Lemma nonempty_of_roster {V X : Type} (l : list (entry V X)) (ps : dict PlayerStats) :
  ps <> [] -> Permutation (players l) (dict_keys ps) -> l <> [].
Proof.
  intros Hps P ->. apply Permutation_length in P.
  destruct ps; [congruence | discriminate].
Qed.

(** X2.  The message built for the rankings that [generate_rankings]
    returned is one node carrying the bot's number and eight texts: the
    heading, then the seven categories in their fixed order, each made of
    its title line, one line per entry of its first ten in ranking order
    and an empty line. *)
Theorem rank_message_of_rankings (data : dict (list record)) (r : rankings.t)
    (bot_uin : Z) :
  generate_rankings (Some data) = Ok (Some r, None) ->
  create_rank_message_nodes r bot_uin
  = [ mkNode bot_uin "幸运之柱排行榜"
        [ heading;
          block_text title_play_time (fun item => formatted (extra item))
            (rankings.play_time r);
          block_text title_games_played display_int (rankings.games_played r);
          block_text title_wins display_int (rankings.wins r);
          block_text title_kills display_int (rankings.kills r);
          block_text title_deaths display_int (rankings.deaths r);
          block_text title_kd_ratio (fun item => extra item) (rankings.kd_ratio r);
          block_text title_win_rate (fun item => extra item) (rankings.win_rate r) ] ].
Proof.
  intros H. destruct (rankings_players data r H) as (ps & Hps & P).
  apply generate_rankings_success in H as (ps' & u & Hps' & Hne & _ & _).
  assert (ps' = ps) by congruence. subst ps'.
  destruct P as (P1 & P2 & P3 & P4 & P5 & P6 & P7).
  unfold create_rank_message_nodes, rank_blocks. cbv zeta.
  rewrite !rank_block_nonempty by (eapply nonempty_of_roster; eassumption).
  reflexivity.
Qed.

Lemma rank_message_of_rankings_witness :
  generate_rankings (Some three_killers) = Ok (Some (ranked three_killers), None)
  /\ exists texts,
       create_rank_message_nodes (ranked three_killers) 10000
       = [mkNode 10000 "幸运之柱排行榜" texts]
       /\ List.length texts = 8%nat
       /\ nth 4 texts ""
          = (title_kills ++ newline
             ++ medal_1 ++ " B: 10" ++ newline
             ++ medal_2 ++ " A: 5" ++ newline
             ++ medal_3 ++ " C: 5" ++ newline ++ newline)%string.
Proof.
  split; [vm_compute; reflexivity|].
  eexists. split.
  - apply (rank_message_of_rankings three_killers). vm_compute. reflexivity.
  - split; [reflexivity | vm_compute; reflexivity].
Defined.

Lemma fold_append_block_length (blocks : list (option string)) (acc : list string) :
  List.length (fold_left append_block blocks acc)
  = (List.length acc
     + List.length (filter (fun b => match b with Some _ => true | None => false end)
                           blocks))%nat.
Proof.
  revert acc. induction blocks as [|b blocks IH]; intros acc; simpl; [lia|].
  rewrite IH. destruct b; simpl; [rewrite List.length_app; simpl|]; lia.
Qed.

Lemma fold_append_block_head (blocks : list (option string)) (h : string)
    (acc : list string) :
  hd "" (fold_left append_block blocks (h :: acc)) = h.
Proof.
  revert acc. induction blocks as [|b blocks IH]; intros acc; simpl; [reflexivity|].
  destruct b; simpl; apply IH.
Qed.

Lemma rank_block_shown {V X : Type} (title : string) (display : entry V X -> string)
    (l : list (entry V X)) (rest : list (option string)) :
  List.length (filter (fun b => match b with Some _ => true | None => false end)
                      (rank_block title display l :: rest))
  = (has_entries l
     + List.length (filter (fun b => match b with Some _ => true | None => false end)
                           rest))%nat.
Proof. destruct l; reflexivity. Qed.

(** X3.  For any rankings the message is a single node with the bot's
    number; its texts start with the heading and there is one more text for
    each category that has an entry: a category without entries is
    skipped. *)
Theorem rank_message_skips_empty (r : rankings.t) (bot_uin : Z) :
  exists texts,
    create_rank_message_nodes r bot_uin = [mkNode bot_uin "幸运之柱排行榜" texts]
    /\ hd "" texts = heading
    /\ List.length texts = S (shown_categories r).
Proof.
  eexists. split; [reflexivity|]. split.
  - apply fold_append_block_head.
  - rewrite fold_append_block_length. unfold rank_blocks, shown_categories.
    rewrite !rank_block_shown. cbn [filter List.length]. lia.
Qed.

(** ** What [generate_rankings] returns *)

Lemma for_each_roster_ok (data : dict (list record)) (acc : dict PlayerStats) :
  scores_usable data = true ->
  exists ps, for_each roster_step data acc = Ok ps.
Proof.
  revert acc. induction data as [|[n rs] data IH]; intros acc H.
  - exists acc. reflexivity.
  - cbn [scores_usable forallb fst snd] in H.
    apply andb_true_iff in H as [Hn Hd].
    cbn [for_each roster_step]. destruct (eligible n); cbn [negb orb] in Hn.
    + rewrite (calculate_player_stats_spec rs Hn). cbn [bind]. apply IH, Hd.
    + cbn [bind]. apply IH, Hd.
Qed.

Lemma kd_ratio_of_outcome (st : PlayerStats) :
  (exists q, kd_ratio_of st = Ok q)
  \/ kd_ratio_of st = Raise (OverflowError overflow_text).
Proof.
  unfold kd_ratio_of. apply int_truediv_guarded.
  destruct (Z.ltb_spec 0 (deaths st)); lia.
Qed.

Lemma win_rate_of_outcome (st : PlayerStats) :
  (exists q, win_rate_of st = Ok q)
  \/ win_rate_of st = Raise (OverflowError overflow_text).
Proof.
  unfold win_rate_of.
  destruct (int_truediv_guarded (wins st)
              (if Z.ltb 0 (games_played st) then games_played st else 1))
    as [[q Hq]|Hq].
  - destruct (Z.ltb_spec 0 (games_played st)); lia.
  - left. rewrite Hq. cbn [bind]. eauto.
  - right. rewrite Hq. reflexivity.
Qed.

Lemma format_02d_outcome (z : Z) :
  (exists s, format_02d z = Ok s)
  \/ format_02d z = Raise (ValueError msg_max_str_digits).
Proof.
  unfold format_02d. destruct (Z.leb str_digits_limit (Z.abs z)); eauto.
Qed.

Lemma clock_of_outcome (st : PlayerStats) :
  (exists c, clock_of st = Ok c)
  \/ clock_of st = Raise (ValueError msg_max_str_digits).
Proof.
  unfold clock_of. cbv zeta.
  destruct (format_02d_outcome (play_time_seconds st / 3600)) as [[h ->]| ->];
    [|right; reflexivity].
  destruct (format_02d_outcome (play_time_seconds st mod 3600 / 60))
    as [[m ->]| ->]; [|right; reflexivity].
  destruct (format_02d_outcome (play_time_seconds st mod 60)) as [[s ->]| ->];
    [|right; reflexivity].
  left. eexists. reflexivity.
Qed.

Lemma for_each_rank_step_outcome (ps : dict PlayerStats) (r0 : rankings.t) :
  (exists u, for_each rank_step ps r0 = Ok u)
  \/ (exists e, for_each rank_step ps r0 = Raise e).
Proof.
  revert r0. induction ps as [|[n st] ps IH]; intros r0.
  - left. eexists. reflexivity.
  - cbn [for_each]. unfold rank_step at 1 3.
    destruct (clock_of_outcome st) as [[c ->]| ->];
      [|right; eexists; reflexivity].
    cbn [bind].
    destruct (kd_ratio_of_outcome st) as [[kd ->]| ->];
      [|right; eexists; reflexivity].
    destruct (win_rate_of_outcome st) as [[wr ->]| ->];
      [|right; eexists; reflexivity].
    cbn [bind]. apply IH.
Qed.

Lemma append_nonempty (a b : string) : a <> "" -> (a ++ b)%string <> "".
Proof. destruct a; [congruence | discriminate]. Qed.

(** X4.  [generate_rankings] never lets an exception out.  On grouped
    scores in which the kept players' recognised scores are integers it
    returns either rankings and no message, or no rankings and a message
    that is not empty; without a file it returns the message that the data
    file does not exist, and a division that overflows is reported with the
    text of the exception. *)
Theorem generate_rankings_outcome (data : dict (list record)) :
  scores_usable data = true ->
  (forall file e, generate_rankings file <> Raise e)
  /\ (exists o, generate_rankings (Some data) = Ok o /\ rankings_or_message o)
  /\ generate_rankings None = Ok (None, Some msg_no_file)
  /\ generate_rankings (Some huge_kills)
     = Ok (None, Some (msg_failed ++ overflow_text)%string).
Proof.
  intros H. split; [|split; [|split; [reflexivity | vm_compute; reflexivity]]].
  - intros [d|] e; [|discriminate]. unfold generate_rankings.
    destruct (generate_rankings_body d); discriminate.
  - unfold generate_rankings, generate_rankings_body, build_roster.
    destruct (for_each_roster_ok data [] H) as [ps ->]. cbn [bind].
    destruct ps as [|p ps].
    + eexists. split; [reflexivity|]. right. eexists. split; [reflexivity|].
      discriminate.
    + unfold collect.
      destruct (for_each_rank_step_outcome (p :: ps) rankings.empty)
        as [[u ->]|[e ->]]; cbn [bind].
      * eexists. split; [reflexivity|]. left. eexists. reflexivity.
      * eexists. split; [reflexivity|]. right. eexists. split; [reflexivity|].
        apply append_nonempty. discriminate.
Qed.

Lemma generate_rankings_outcome_witness :
  scores_usable with_sentinels = true
  /\ exists o, generate_rankings (Some with_sentinels) = Ok o
               /\ rankings_or_message o.
Proof.
  split; [reflexivity|].
  apply (generate_rankings_outcome with_sentinels eq_refl).
Defined.

(** ** The order of strings *)

Ltac heads a b :=
  destruct (N.compare_spec (N_of_ascii a) (N_of_ascii b)).

Lemma string_compare_refl (x : string) : String.compare x x = Eq.
Proof.
  induction x as [|a x IH]; simpl; [reflexivity|].
  unfold Ascii.compare. rewrite N.compare_refl. exact IH.
Qed.

Lemma string_compare_lt_trans (x y z : string) :
  String.compare x y = Lt -> String.compare y z = Lt -> String.compare x z = Lt.
Proof.
  revert y z. induction x as [|a x IH]; intros [|b y] [|c z]; simpl;
    try discriminate; try reflexivity.
  unfold Ascii.compare. heads a b; heads b c; heads a c;
    try discriminate; try reflexivity; try lia.
  apply IH.
Qed.

Lemma string_compare_ge_trans (x y z : string) :
  String.compare x y <> Lt -> String.compare y z <> Lt -> String.compare x z <> Lt.
Proof.
  revert y z. induction x as [|a x IH]; intros [|b y] [|c z]; simpl;
    try congruence.
  unfold Ascii.compare. heads a b; heads b c; heads a c;
    try congruence; try lia.
  apply IH.
Qed.

Lemma string_ltb_false (x y : string) :
  String.ltb x y = false <-> String.compare x y <> Lt.
Proof.
  unfold String.ltb. destruct (String.compare x y); split; congruence.
Qed.

Lemma string_ltb_irrefl (x : string) : True -> String.ltb x x = false.
Proof. intros _. unfold String.ltb. rewrite string_compare_refl. reflexivity. Qed.

Lemma string_ltb_trans (x y z : string) :
  True -> True -> True ->
  String.ltb x y = true -> String.ltb y z = true -> String.ltb x z = true.
Proof.
  intros _ _ _. unfold String.ltb.
  destruct (String.compare x y) eqn:E1; try discriminate.
  destruct (String.compare y z) eqn:E2; try discriminate.
  rewrite (string_compare_lt_trans x y z E1 E2). reflexivity.
Qed.

Lemma string_ltb_negtrans (x y z : string) :
  True -> True -> True ->
  String.ltb x y = false -> String.ltb y z = false -> String.ltb x z = false.
Proof.
  intros _ _ _. rewrite !string_ltb_false. apply string_compare_ge_trans.
Qed.

Lemma string_ltb_leb (a b : string) : String.ltb b a = false -> String.leb a b = true.
Proof.
  rewrite string_ltb_false. unfold String.leb.
  rewrite (String.compare_antisym a b).
  destruct (String.compare b a); simpl; congruence.
Qed.

Lemma get_player_list_is_sorted {V : Type} (read : option (dict V)) :
  StronglySorted (fun a b => String.leb a b = true) (get_player_list read).
Proof.
  destruct read as [data|]; [|constructor]. unfold get_player_list.
  eapply StronglySorted_weaken;
    [| apply (list_sort_sorted String.ltb (fun n : string => n) (fun _ => True)
                string_ltb_irrefl string_ltb_trans string_ltb_negtrans)].
  - intros a b. unfold ascending. apply string_ltb_leb.
  - apply Forall_forall. auto.
Qed.

Lemma get_player_list_keeps {V : Type} (read : option (dict V)) (n : string) :
  In n (get_player_list read) -> eligible n = true.
Proof.
  destruct read as [data|]; [apply get_player_list_eligible | intros []].
Qed.

(** X5.  [get_player_list] returns the eligible names of the grouped scores
    in ascending order: the list is sorted, holds exactly the names that
    pass the filter, each once when the file has no repeated key.  For the
    method as a whole: every list it returns is sorted and holds eligible
    names only; the list is empty when the file is there but cannot be
    read, and when the file is absent and [update_data_files] returns
    [False]; when the file is absent and [update_data_files] leaves through
    [sys.exit], the exit passes through the method and no list is
    returned. *)
Theorem get_player_list_sorted {V : Type} (data : dict V) :
  StronglySorted (fun a b => String.leb a b = true) (get_player_list (Some data))
  /\ Permutation (get_player_list (Some data)) (filter eligible (dict_keys data))
  /\ (forall n, In n (get_player_list (Some data))
                <-> In n (dict_keys data) /\ eligible n = true)
  /\ (dict_wf data -> NoDup (get_player_list (Some data)))
  /\ DataManager_get_player_list (Present (Some data))
     = Finished (get_player_list (Some data))
  /\ (forall (f : grouped_scores_path V) (l : list string),
        DataManager_get_player_list f = Finished l ->
        StronglySorted (fun a b => String.leb a b = true) l
        /\ forall n, In n l -> eligible n = true)
  /\ DataManager_get_player_list (Present (@None (dict V))) = Finished []
  /\ (forall read : option (dict V),
        DataManager_get_player_list (Absent (Finished false) read) = Finished [])
  /\ (forall (code : Z) (read : option (dict V)) (l : list string),
        DataManager_get_player_list (Absent (SystemExit code) read)
        = SystemExit code
        /\ DataManager_get_player_list (Absent (SystemExit code) read)
           <> Finished l).
Proof.
  pose proof (list_sort_perm String.ltb (fun n : string => n)
                (filter eligible (dict_keys data))) as P.
  split; [apply get_player_list_is_sorted|].
  split; [exact P|]. split; [|split; [|split; [reflexivity|]]].
  - intros n. unfold get_player_list. rewrite <- filter_In.
    split; apply Permutation_in; [exact P | symmetry; exact P].
  - intros Hwf. unfold get_player_list.
    eapply Permutation_NoDup; [symmetry; exact P|].
    apply NoDup_filter. exact Hwf.
  - split; [|split; [reflexivity|split; [reflexivity|]]].
    + intros f l H.
      assert (K : exists read : option (dict V), l = get_player_list read).
      { destruct f as [read|update read]; cbn in H.
        - inversion H. exists read. reflexivity.
        - destruct update as [[|]|code|e|]; inversion H; subst.
          + exists read. reflexivity.
          + exists None. reflexivity.
          + exists None. reflexivity. }
      destruct K as (read & ->).
      split; [apply get_player_list_is_sorted | apply get_player_list_keeps].
    + intros code read l. split; [reflexivity | discriminate].
Qed.

(** ** Grouping: empty inputs and malformed entries *)

(** X6.  Without a [data] member, without [PlayerScores] in it, or with a
    [PlayerScores] that is empty (or any other falsy value),
    [group_scores_by_player] returns the empty mapping and no error. *)
Theorem no_scores_no_groups (scoreboard_data d : dict json) :
  dict_get "data" scoreboard_data = None
  \/ (dict_get "data" scoreboard_data = Some (JObj d)
      /\ match dict_get "PlayerScores" d with
         | None => True
         | Some v => falsy v = true
         end) ->
  group_scores_by_player scoreboard_data = Ok [].
Proof.
  unfold group_scores_by_player. intros [H|[H1 H2]].
  - rewrite H. reflexivity.
  - rewrite H1. cbn [as_entry bind].
    destruct (dict_get "PlayerScores" d) as [v|]; [|reflexivity].
    rewrite H2. reflexivity.
Qed.

Lemma no_scores_no_groups_witness :
  group_scores_by_player (scoreboard_with (JList [])) = Ok []
  /\ group_scores_by_player [("DataVersion", JInt 3465)] = Ok [].
Proof.
  split.
  - apply (no_scores_no_groups (scoreboard_with (JList []))
             [("PlayerScores", JList [])]).
    right. split; reflexivity.
  - apply (no_scores_no_groups [("DataVersion", JInt 3465)] []).
    left. reflexivity.
Defined.

Lemma for_each_abort {A S : Type} (body : S -> A -> py S) (xs : list A) (x : A)
    (rest : list A) (acc mid : S) (e : exn) :
  for_each body xs acc = Ok mid -> body mid x = Raise e ->
  for_each body (xs ++ x :: rest) acc = Raise e.
Proof.
  intros H1 H2. rewrite for_each_app, H1. cbn [bind for_each]. rewrite H2.
  reflexivity.
Qed.

Lemma for_each_entries_acc (rs : list record) (g : dict (list record)) :
  forallb name_typed rs = true ->
  exists g',
    for_each (fun grouped v => e <- as_entry v ;; group_step grouped e)
             (map JObj rs) g = Ok g'.
Proof.
  revert g. induction rs as [|r rs IH]; intros g H.
  - eexists. reflexivity.
  - cbn [forallb] in H. apply andb_true_iff in H as [Hr Hrs].
    cbn [map for_each as_entry bind]. rewrite (group_step_typed g r Hr).
    cbn [bind]. apply IH, Hrs.
Qed.

(** X7.  One malformed entry aborts the whole grouping: when the entries
    before it are well formed, an entry that is no dict raises
    [AttributeError], and an entry whose [Name] is a list or a dict raises
    [TypeError]; no group is returned for the entries already read. *)
Theorem malformed_entry_aborts_grouping (rs : list record) (v : json)
    (rest : list json) :
  forallb name_typed rs = true ->
  (not_a_dict v = true ->
   group_scores_by_player (scoreboard_with (JList (map JObj rs ++ v :: rest)))
   = Raise (AttributeError
              ("'" ++ type_name v ++ "' object has no attribute 'get'")%string))
  /\ (forall entry, v = JObj entry -> unhashable (name_of entry) = true ->
      group_scores_by_player (scoreboard_with (JList (map JObj rs ++ v :: rest)))
      = Raise (TypeError
                 ("unhashable type: '" ++ type_name (name_of entry) ++ "'")%string)).
Proof.
  intros Hrs.
  assert (F : falsy (JList (map JObj rs ++ v :: rest)) = false)
    by (destruct rs; reflexivity).
  destruct (for_each_entries_acc rs [] Hrs) as [g Hg].
  split.
  - intros Hv. unfold group_scores_by_player, scoreboard_with.
    change (dict_get "data" _) with
      (Some (JObj [("PlayerScores", JList (map JObj rs ++ v :: rest))])).
    cbn [as_entry bind].
    change (dict_get "PlayerScores" _)
      with (Some (JList (map JObj rs ++ v :: rest))).
    cbv beta iota. rewrite F. cbn [iterate bind].
    eapply for_each_abort; [exact Hg|].
    destruct v; try discriminate Hv; reflexivity.
  - intros entry -> Hn. unfold group_scores_by_player, scoreboard_with.
    change (dict_get "data" _) with
      (Some (JObj [("PlayerScores", JList (map JObj rs ++ JObj entry :: rest))])).
    cbn [as_entry bind].
    change (dict_get "PlayerScores" _)
      with (Some (JList (map JObj rs ++ JObj entry :: rest))).
    cbv beta iota. rewrite F. cbn [iterate bind].
    eapply for_each_abort; [exact Hg|].
    cbn [as_entry bind]. unfold group_step.
    destruct (name_of entry); try discriminate Hn; reflexivity.
Qed.

Lemma malformed_entry_aborts_grouping_witness :
  forallb name_typed three_entries = true
  /\ group_scores_by_player
       (scoreboard_with (JList (map JObj three_entries ++ [JInt 7])))
     = Raise (AttributeError "'int' object has no attribute 'get'").
Proof.
  split; [reflexivity|].
  destruct (malformed_entry_aborts_grouping three_entries (JInt 7) [] eq_refl)
    as [H _].
  apply H. reflexivity.
Defined.

(** ** Grouping, then looking a player up *)

Lemma dict_get_listed {V : Type} (f : string -> V) (n : string) (keys : list string) :
  dict_get n (map (fun m => (m, f m)) keys)
  = if existsb (String.eqb n) keys then Some (f n) else None.
Proof.
  induction keys as [|k keys IH]; simpl; [reflexivity|].
  destruct (String.eqb_spec n k) as [->|_]; simpl; [reflexivity | exact IH].
Qed.

Lemma existsb_first_seen (n : string) (l : list string) :
  existsb (String.eqb n) (first_seen l) = existsb (String.eqb n) l.
Proof.
  apply eq_true_iff_eq. rewrite !existsb_eqb_In. apply first_seen_In.
Qed.

(** X8.  After grouping, looking a name up gives the cleaned records of
    that name in input order, and nothing for a name no record carries. *)
Theorem grouped_lookup (rs : list record) (n : string) :
  forallb name_typed rs = true ->
  exists g,
    group_records rs = Ok g
    /\ get_player_data (Some g) n
       = if existsb (fun r => String.eqb (owner r) n) rs
         then Some (map clean_score_entry (raw_records_of n rs))
         else None.
Proof.
  intros H. exists (reference_partition rs).
  split; [apply group_records_reference, H|].
  unfold get_player_data, reference_partition.
  rewrite dict_get_listed, existsb_first_seen.
  assert (E : existsb (String.eqb n) (map owner rs)
              = existsb (fun r => String.eqb (owner r) n) rs).
  { induction rs as [|r rs IH]; simpl; [reflexivity|].
    cbn [forallb] in H. apply andb_true_iff in H as [_ H].
    rewrite (IH H), (String.eqb_sym n (owner r)). reflexivity. }
  rewrite E. destruct (existsb _ rs); [|reflexivity].
  unfold records_of, raw_records_of. f_equal.
  apply map_ext. intros r. symmetry. apply clean_score_entry_stripped.
Qed.

Lemma grouped_lookup_witness :
  forallb name_typed mixed_names = true
  /\ exists g,
       group_records mixed_names = Ok g
       /\ get_player_data (Some g) "alice"
          = Some [ [("Objective", JStr "WinCount"); ("Score", JInt 2)];
                   [("Objective", JStr "PlayTime.Min"); ("Score", JInt 3)] ]
       /\ get_player_data (Some g) "carol" = None.
Proof.
  split; [reflexivity|].
  destruct (grouped_lookup mixed_names "alice" eq_refl) as (g & Hg & Ha).
  exists g. split; [exact Hg|]. split; [rewrite Ha; reflexivity|].
  destruct (grouped_lookup mixed_names "carol" eq_refl) as (g' & Hg' & Hc).
  assert (g' = g) by congruence. subst g'. rewrite Hc. reflexivity.
Defined.

(** ** Cleaning and the statistics *)

Lemma clean_keeps (k : string) (r : record) :
  k <> "Locked" -> k <> "Name" -> dict_get k (clean_score_entry r) = dict_get k r.
Proof.
  intros H1 H2. rewrite clean_score_entry_stripped, stripped_get.
  apply String.eqb_neq in H1, H2. rewrite H1, H2. reflexivity.
Qed.

Lemma stats_step_reads (st : PlayerStats) (r r' : record) :
  objective_of r = objective_of r' -> score_of r = score_of r' ->
  stats_step st r = stats_step st r'.
Proof. unfold stats_step. intros -> ->. reflexivity. Qed.

Lemma for_each_stats_reads (rs rs' : list record) (st : PlayerStats) :
  Forall2 same_reading rs rs' ->
  for_each stats_step rs st = for_each stats_step rs' st.
Proof.
  intros H. revert st. induction H as [|r r' rs rs' [Ho Hs] _ IH]; intros st.
  - reflexivity.
  - cbn [for_each]. rewrite (stats_step_reads st r r' Ho Hs).
    destruct (stats_step st r'); cbn [bind]; auto.
Qed.

Lemma same_reading_clean (rs : list record) :
  Forall2 same_reading (map clean_score_entry rs) rs.
Proof.
  induction rs as [|r rs IH]; constructor; [|exact IH].
  unfold same_reading, objective_of, score_of.
  rewrite !clean_keeps by discriminate. split; reflexivity.
Qed.

Lemma calculate_player_stats_clean (rs : list record) :
  calculate_player_stats (map clean_score_entry rs) = calculate_player_stats rs.
Proof. apply for_each_stats_reads, same_reading_clean. Qed.

(** X9.  [calculate_player_stats] reads nothing but [Objective] and [Score]:
    two record lists that agree on these two members, record by record, give
    the same result, an error included.  So removing [Locked] and [Name], as
    grouping does, leaves the statistics as they are. *)
Theorem stats_read_objective_and_score (rs rs' : list record) :
  Forall2 same_reading rs rs' ->
  calculate_player_stats rs = calculate_player_stats rs'
  /\ calculate_player_stats (map clean_score_entry rs) = calculate_player_stats rs'.
Proof.
  intros H. split.
  - apply for_each_stats_reads, H.
  - rewrite calculate_player_stats_clean. apply for_each_stats_reads, H.
Qed.

Lemma stats_read_objective_and_score_witness :
  calculate_player_stats three_entries
  = calculate_player_stats
      [ [("Score", JInt 2); ("Objective", JStr "WinCount")];
        [("Objective", JStr "KilledCount"); ("Score", JInt 1); ("Name", JNull)];
        [("Score", JInt 9)] ].
Proof.
  apply (stats_read_objective_and_score three_entries).
  repeat constructor.
Defined.

(** ** From the raw records to the roster *)

Lemma dict_set_fresh {V : Type} (k : string) (v : V) (d : dict V) :
  ~ In k (dict_keys d) -> dict_set k v d = d ++ [(k, v)].
Proof.
  induction d as [|[k' v'] d IH]; simpl; intros H; [reflexivity|].
  destruct (String.eqb_spec k k') as [->|_]; [tauto|].
  rewrite IH by tauto. reflexivity.
Qed.

Lemma roster_of_listed (f : string -> list record) (F : string -> PlayerStats)
    (names : list string) (acc : dict PlayerStats) :
  NoDup names ->
  (forall n, In n names -> ~ In n (dict_keys acc)) ->
  (forall n, In n names -> calculate_player_stats (f n) = Ok (F n)) ->
  for_each roster_step (map (fun n => (n, f n)) names) acc
  = Ok (acc ++ map (fun n => (n, F n)) (filter eligible names)).
Proof.
  intros Hnd. revert acc.
  induction Hnd as [|n names Hn Hnd IH]; intros acc Hacc Hcalc.
  - simpl. rewrite List.app_nil_r. reflexivity.
  - cbn [map for_each roster_step filter]. destruct (eligible n).
    + rewrite (Hcalc n (or_introl eq_refl)). cbn [bind].
      rewrite dict_set_fresh by (apply Hacc; left; reflexivity).
      rewrite IH.
      * cbn [map]. rewrite <- List.app_assoc. reflexivity.
      * intros m Hm. unfold dict_keys. rewrite map_app, in_app_iff. simpl.
        intros [H|[H|[]]]; [apply (Hacc m (or_intror Hm)), H | congruence].
      * intros m Hm. apply Hcalc. right. exact Hm.
    + cbn [bind]. apply IH.
      * intros m Hm. apply Hacc. right. exact Hm.
      * intros m Hm. apply Hcalc. right. exact Hm.
Qed.

Lemma forallb_filter {A : Type} (p q : A -> bool) (l : list A) :
  forallb p l = true -> forallb p (filter q l) = true.
Proof.
  rewrite !forallb_forall. intros H x Hx. apply filter_In in Hx. apply H, Hx.
Qed.

Lemma records_of_clean (n : string) (rs : list record) :
  records_of n rs = map clean_score_entry (raw_records_of n rs).
Proof.
  unfold records_of, raw_records_of. apply map_ext. intros r. symmetry.
  apply clean_score_entry_stripped.
Qed.

(** X10.  Grouping, then the first loop of [generate_rankings]: on records
    with string names and integer scores the stats mapping has one entry per
    eligible name, in order of first appearance, and the entry of a name is
    the aggregate of that name's raw records. *)
Theorem roster_of_raw_records (rs : list record) :
  forallb name_typed rs = true -> forallb score_ok rs = true ->
  exists g,
    group_scores_by_player (scoreboard_with (JList (map JObj rs))) = Ok g
    /\ build_roster g = Ok (roster_spec rs).
Proof.
  intros Hn Hs. exists (reference_partition rs). split.
  - unfold scoreboard_with. rewrite group_scores_by_player_records.
    apply group_records_reference, Hn.
  - unfold build_roster, reference_partition, roster_spec.
    rewrite (roster_of_listed (fun n => records_of n rs)
               (fun n => aggregate_spec (raw_records_of n rs))).
    + reflexivity.
    + apply first_seen_NoDup.
    + intros n _ [].
    + intros n _. rewrite records_of_clean, calculate_player_stats_clean.
      apply calculate_player_stats_spec. unfold raw_records_of.
      apply forallb_filter, Hs.
Qed.

Lemma roster_of_raw_records_witness :
  exists g,
    group_scores_by_player (scoreboard_with (JList (map JObj mixed_names))) = Ok g
    /\ build_roster g
       = Ok [ ("alice", mkStats 180 0 2 0 0); ("bob", mkStats 0 0 0 1 0) ].
Proof.
  destruct (roster_of_raw_records mixed_names eq_refl eq_refl) as (g & Hg & Hr).
  exists g. split; [exact Hg|]. rewrite Hr. reflexivity.
Defined.

(** ** The grouped scores file *)

Lemma defaultdict_append_keys {V : Type} (k : string) (v : V) (d : dict (list V)) :
  dict_keys (defaultdict_append k v d)
  = if existsb (String.eqb k) (dict_keys d) then dict_keys d
    else dict_keys d ++ [k].
Proof.
  unfold dict_keys. induction d as [|[k' vs] d IH]; simpl; [reflexivity|].
  destruct (String.eqb k k'); simpl; [reflexivity|].
  rewrite IH. destruct (existsb (String.eqb k) (map fst d)); reflexivity.
Qed.

Lemma defaultdict_append_In {V : Type} (k : string) (v : V) (d : dict (list V))
    (n : string) (l : list V) :
  In (n, l) (defaultdict_append k v d) ->
  In (n, l) d \/ exists l0, l = l0 ++ [v] /\ forall x, In x l0 -> exists m, In (m, l0) d.
Proof.
  induction d as [|[k' vs] d IH]; simpl.
  - intros [H|[]]. inversion H; subst. right. exists []. split; [reflexivity|].
    intros x [].
  - destruct (String.eqb k k'); simpl.
    + intros [H|H]; [|auto]. inversion H; subst. right. exists vs.
      split; [reflexivity|]. intros x _. exists n. auto.
    + intros [H|H]; [auto|]. destruct (IH H) as [H'|(l0 & E & H')]; [auto|].
      right. exists l0. split; [exact E|]. intros x Hx.
      destruct (H' x Hx) as [m Hm]. exists m. auto.
Qed.

Lemma snoc_nonempty {A : Type} (l : list A) (x : A) : l ++ [x] <> [].
Proof. destruct l; discriminate. Qed.

Lemma clean_score_entry_clean (r : record) :
  dict_get "Locked" (clean_score_entry r) = None
  /\ dict_get "Name" (clean_score_entry r) = None.
Proof.
  rewrite clean_score_entry_stripped, !stripped_get. split; reflexivity.
Qed.

Lemma group_step_ok (g g' : dict (list record)) (e : record) :
  grouped_ok g -> group_step g e = Ok g' -> grouped_ok g' /\ g' <> [].
Proof.
  unfold group_step. intros [Hwf Hg].
  destruct (as_key (name_of e)) as [k| |]; cbn [bind]; try discriminate.
  intros H. inversion H; subst; clear H. split; [split|].
  - unfold dict_wf in *. rewrite defaultdict_append_keys.
    destruct (existsb (String.eqb k) (dict_keys g)) eqn:E; [exact Hwf|].
    apply NoDup_app; [exact Hwf | constructor; [intros [] | constructor] |].
    intros a Ha [<-|[]]. apply existsb_eqb_In in Ha. congruence.
  - intros n l Hin. apply defaultdict_append_In in Hin as [Hin|(l0 & -> & Hl0)].
    + apply Hg with n, Hin.
    + split; [apply snoc_nonempty|]. intros r Hr. apply in_app_iff in Hr as [Hr|[<-|[]]].
      * destruct (Hl0 r Hr) as [m Hm]. apply (Hg m l0 Hm), Hr.
      * apply clean_score_entry_clean.
  - destruct g as [|[k' vs] g]; simpl; [discriminate|].
    destruct (String.eqb k k'); discriminate.
Qed.

Lemma for_each_group_ok (entries : list json) (g g' : dict (list record)) :
  grouped_ok g ->
  for_each (fun grouped v => e <- as_entry v ;; group_step grouped e) entries g
  = Ok g' ->
  grouped_ok g' /\ (entries <> [] -> g' <> []) /\ (g <> [] -> g' <> []).
Proof.
  revert g. induction entries as [|v entries IH]; intros g Hg.
  - simpl. intros H. inversion H; subst.
    split; [exact Hg|]. split; [intros C; contradiction | trivial].
  - cbn [for_each]. destruct (as_entry v) as [e| |]; cbn [bind]; try discriminate.
    destruct (group_step g e) as [g1| |] eqn:E; cbn [bind]; try discriminate.
    destruct (group_step_ok g g1 e Hg E) as [Hg1 Hne].
    intros H. destruct (IH g1 Hg1 H) as (Hg' & _ & Hne').
    split; [exact Hg'|]. split; intros _; apply Hne', Hne.
Qed.

Lemma grouped_ok_empty : grouped_ok [].
Proof. split; [constructor | intros n l []]. Qed.

Lemma group_scores_by_player_ok (d : dict json) (g : dict (list record)) :
  group_scores_by_player d = Ok g -> grouped_ok g.
Proof.
  unfold group_scores_by_player.
  destruct (match dict_get "data" d with Some v => as_entry v | None => Ok [] end)
    as [data| |]; cbn [bind]; try discriminate.
  destruct (falsy _).
  - intros H. inversion H. apply grouped_ok_empty.
  - destruct (iterate _) as [entries| |]; cbn [bind]; try discriminate.
    intros H. apply (for_each_group_ok entries [] g grouped_ok_empty H).
Qed.

Lemma group_step_modelled (g : dict (list record)) (e : record) :
  name_modelled (JObj e) = true -> group_step g e <> Unmodelled.
Proof.
  unfold name_modelled, group_step, name_of.
  destruct (dict_get "Name" e) as [[ | | | | | | ]|]; cbn [as_key bind];
    intros H; try discriminate H; discriminate.
Qed.

Lemma for_each_group_modelled (entries : list json) (g : dict (list record)) :
  forallb name_modelled entries = true ->
  for_each (fun grouped v => e <- as_entry v ;; group_step grouped e) entries g
  <> Unmodelled.
Proof.
  revert g. induction entries as [|v entries IH]; intros g H; [discriminate|].
  cbn [forallb] in H. apply andb_true_iff in H as [Hv Hrest].
  cbn [for_each]. destruct v; cbn [as_entry bind]; try discriminate.
  pose proof (group_step_modelled g members Hv) as Hm.
  destruct (group_step g members) as [g1| |]; cbn [bind];
    [apply IH, Hrest | discriminate | congruence].
Qed.

Lemma iterate_chars_raise (items : list json) (g : dict (list record)) :
  Forall (fun v => exists s, v = JStr s) items ->
  for_each (fun grouped v => e <- as_entry v ;; group_step grouped e) items g
  <> Unmodelled.
Proof.
  intros H. destruct H as [|v items [s ->] _]; cbn [for_each as_entry bind];
    discriminate.
Qed.

Lemma group_scores_by_player_modelled (d : dict json) :
  scores_in_model (Content (JObj d)) = true ->
  group_scores_by_player d <> Unmodelled.
Proof.
  unfold scores_in_model, group_scores_by_player.
  destruct (dict_get "data" d) as [v|]; [|discriminate].
  destruct v; cbn [as_entry bind]; try discriminate.
  destruct (dict_get "PlayerScores" members) as [ps|]; [|discriminate].
  destruct (falsy ps) eqn:F; [discriminate|].
  destruct ps; cbn [iterate bind]; try discriminate.
  - intros _. apply iterate_chars_raise. apply Forall_forall.
    intros v Hv. apply in_map_iff in Hv as (c & <- & _). eauto.
  - intros H. apply for_each_group_modelled, H.
  - intros _. apply iterate_chars_raise. apply Forall_forall.
    intros v Hv. apply in_map_iff in Hv as (kv & <- & _). eauto.
Qed.



(** X12.  [process_json_to_grouped] leaves through [sys.exit] exactly when
    the scoreboard file is missing, is no JSON, or groups to the empty
    mapping, and the exit code is then 1; an exception raised while grouping
    is not turned into an exit. *)
Theorem process_json_to_grouped_exit (f : json_file) :
  (forall code,
     process_json_to_grouped f = SystemExit code <->
     code = 1
     /\ (f = FileNotFoundError \/ f = JSONDecodeError
         \/ exists d, f = Content (JObj d) /\ group_scores_by_player d = Ok []))
  /\ (forall d e, f = Content (JObj d) -> group_scores_by_player d = Raise e ->
        process_json_to_grouped f = Uncaught e)
  /\ (forall data, f = Content data -> not_a_dict data = true ->
        process_json_to_grouped f
        = Uncaught (AttributeError
                      ("'" ++ type_name data ++ "' object has no attribute 'get'")%string)).
Proof.
  split; [|split].
  - intros code. unfold process_json_to_grouped, load_scoreboard_data.
    destruct f as [data| |].
    + destruct data as [ | | | | | |d]; cbn [as_entry bind of_py];
        try (split; [discriminate | intros (_ & [H|[H|(d & H & _)]]); discriminate]).
      destruct (group_scores_by_player d) as [g0| |] eqn:E; cbn [of_py].
      * destruct g0 as [|p g0].
        -- split.
           ++ intros H. inversion H. split; [reflexivity|]. right. right.
              exists d. split; [reflexivity | exact E].
           ++ intros [-> _]. reflexivity.
        -- split; [discriminate|].
           intros (_ & [H|[H|(d' & H & H')]]); try discriminate.
           inversion H; subst. congruence.
      * split; [discriminate|].
        intros (_ & [H|[H|(d' & H & H')]]); try discriminate.
        inversion H; subst. congruence.
      * split; [discriminate|].
        intros (_ & [H|[H|(d' & H & H')]]); try discriminate.
        inversion H; subst. congruence.
    + split.
      * intros H. inversion H. auto.
      * intros [-> _]. reflexivity.
    + split.
      * intros H. inversion H. auto.
      * intros [-> _]. reflexivity.
  - intros d e -> H. unfold process_json_to_grouped, load_scoreboard_data.
    cbn [as_entry bind]. rewrite H. reflexivity.
  - intros data -> H. unfold process_json_to_grouped, load_scoreboard_data.
    destruct data; try discriminate H; reflexivity.
Qed.

(** ** The two readers of the grouped scores *)

Lemma objective_equals_has (key : string) (r : record) :
  key <> "" -> objective_equals r key = has_objective key r.
Proof.
  intros H. unfold objective_equals, has_objective, objective_of.
  destruct (dict_get "Objective" r); [reflexivity|].
  simpl. symmetry. apply String.eqb_neq. congruence.
Qed.

Lemma first_score_filter (key : string) (rs : list record) :
  key <> "" ->
  first_score key rs = first_score key (filter (has_objective key) rs).
Proof.
  intros H. induction rs as [|r rs IH]; [reflexivity|].
  cbn [first_score filter]. rewrite (objective_equals_has key r H).
  destruct (has_objective key r) eqn:E.
  - cbn [first_score]. rewrite (objective_equals_has key r H), E, IH. reflexivity.
  - exact IH.
Qed.

Lemma recognised_of (key : string) (r : record) :
  In key objective_table -> has_objective key r = true -> recognised r = true.
Proof.
  intros Hk H. unfold recognised. apply existsb_exists. exists key. auto.
Qed.

Lemma first_score_latest (key : string) (rs : list record) :
  In key objective_table -> forallb score_ok rs = true ->
  (List.length (filter (has_objective key) rs) <= 1)%nat ->
  first_score key rs = JInt (latest key rs).
Proof.
  intros Hk Hs H1.
  assert (Hne : key <> "").
  { intros ->. simpl in Hk. repeat destruct Hk as [Hk|Hk]; try discriminate Hk.
    exact Hk. }
  rewrite (first_score_filter key rs Hne). unfold latest.
  assert (Hf : forall r, In r (filter (has_objective key) rs) ->
                 has_objective key r = true /\ score_ok r = true).
  { intros r Hr. apply filter_In in Hr as [Hr Ho]. split; [exact Ho|].
    rewrite forallb_forall in Hs. apply Hs, Hr. }
  destruct (filter (has_objective key) rs) as [|r [|r' l]].
  - reflexivity.
  - destruct (Hf r (or_introl eq_refl)) as [Ho Hok].
    cbn [first_score map last]. rewrite (objective_equals_has key r Hne), Ho.
    unfold score_ok in Hok. rewrite (recognised_of key r Hk Ho) in Hok.
    cbn [negb orb] in Hok. unfold score_typed in Hok. unfold contribution.
    unfold score_of in *. destruct (dict_get "Score" r) as [v|].
    + destruct v; try discriminate Hok. reflexivity.
    + reflexivity.
  - simpl in H1. lia.
Qed.

Lemma has_objective_eq (key : string) (r : record) :
  has_objective key r = true -> objective_of r = JStr key.
Proof.
  unfold has_objective, obj_is. destruct (objective_of r); try discriminate.
  intros H. apply String.eqb_eq in H. congruence.
Qed.

Lemma has_objective_excl (key key' : string) (r : record) :
  has_objective key r = true -> key' <> key -> has_objective key' r = false.
Proof.
  intros H Hne. unfold has_objective. rewrite (has_objective_eq key r H).
  simpl. apply String.eqb_neq. congruence.
Qed.

Lemma Zsum_single (l : list Z) : (List.length l <= 1)%nat -> Zsum l = last l 0.
Proof.
  destruct l as [|a [|b l]]; simpl; intros H; lia.
Qed.

Lemma time_split (rs : list record) :
  Zsum (map (fun r => contribution r * time_weight r) rs)
  = Zsum (map contribution (filter (has_objective "PlayTime.Hour") rs)) * 3600
    + Zsum (map contribution (filter (has_objective "PlayTime.Min") rs)) * 60
    + Zsum (map contribution (filter (has_objective "PlayTime.Sec") rs)).
Proof.
  unfold Zsum. induction rs as [|r rs IH]; [reflexivity|].
  cbn [map filter fold_right]. rewrite IH. unfold time_weight.
  destruct (has_objective "PlayTime.Hour" r) eqn:Eh.
  - rewrite (has_objective_excl _ "PlayTime.Min" r Eh) by discriminate.
    rewrite (has_objective_excl _ "PlayTime.Sec" r Eh) by discriminate.
    cbn [map fold_right]. lia.
  - destruct (has_objective "PlayTime.Min" r) eqn:Em.
    + rewrite (has_objective_excl _ "PlayTime.Sec" r Em) by discriminate.
      cbn [map fold_right]. lia.
    + destruct (has_objective "PlayTime.Sec" r) eqn:Es;
        cbn [map fold_right]; lia.
Qed.

(** X13.  The image reads a statistic with [get_player_stat] (the first
    record of the objective that has a [Score]), the rankings with
    [calculate_player_stats] (the last record, the sum for play time).  On a
    player whose records have integer scores and at most one record per
    objective the two agree: the four counters are equal and the ranking's
    seconds are the image's hours, minutes and seconds put together.  With
    two records of one objective they differ. *)
Theorem image_and_ranking_agree (player_data : dict (list record))
    (player_name : string) (rs : list record) :
  dict_get player_name player_data = Some rs ->
  forallb score_ok rs = true ->
  one_record_each rs ->
  (exists st h m s,
     calculate_player_stats rs = Ok st
     /\ get_player_stat player_data player_name "CompletedCount"
        = JInt (games_played st)
     /\ get_player_stat player_data player_name "WinCount" = JInt (wins st)
     /\ get_player_stat player_data player_name "KilledCount" = JInt (kills st)
     /\ get_player_stat player_data player_name "DeathCount" = JInt (deaths st)
     /\ get_player_stat player_data player_name "PlayTime.Hour" = JInt h
     /\ get_player_stat player_data player_name "PlayTime.Min" = JInt m
     /\ get_player_stat player_data player_name "PlayTime.Sec" = JInt s
     /\ play_time_seconds st = h * 3600 + m * 60 + s)
  /\ get_player_stat [("p", mixed_records)] "p" "KilledCount" = JInt 3
  /\ (st <- calculate_player_stats mixed_records ;; Ok (kills st)) = Ok 7.
Proof.
  intros Hd Hs H1. split; [|split; reflexivity].
  exists (aggregate_spec rs), (latest "PlayTime.Hour" rs),
    (latest "PlayTime.Min" rs), (latest "PlayTime.Sec" rs).
  split; [apply calculate_player_stats_spec, Hs|].
  unfold get_player_stat. rewrite Hd.
  assert (K : forall key, In key objective_table ->
                first_score key rs = JInt (latest key rs)).
  { intros key Hk. apply first_score_latest; [exact Hk | exact Hs | apply H1, Hk]. }
  repeat (split; [apply K; simpl; tauto|]).
  cbn [aggregate_spec play_time_seconds]. rewrite time_split.
  unfold latest. rewrite <- !Zsum_single; [reflexivity| | |];
    rewrite List.length_map; apply H1; simpl; tauto.
Qed.

Lemma image_and_ranking_agree_witness :
  exists st,
    calculate_player_stats two_and_a_half_hours = Ok st
    /\ get_player_stat [("Steve", two_and_a_half_hours)] "Steve" "WinCount"
       = JInt (wins st)
    /\ play_time_seconds st = 2 * 3600 + 30 * 60 + 0.
Proof.
  assert (H1 : one_record_each two_and_a_half_hours).
  { intros key Hk. simpl in Hk.
    repeat destruct Hk as [<-|Hk]; try (vm_compute; lia); try contradiction. }
  destruct (image_and_ranking_agree [("Steve", two_and_a_half_hours)] "Steve"
              two_and_a_half_hours eq_refl eq_refl H1)
    as [(st & h & m & s & Hst & _ & Hw & _ & _ & Hh & Hm & Hsec & Ht) _].
  exists st. split; [exact Hst|]. split; [exact Hw|].
  rewrite Ht. vm_compute in Hh, Hm, Hsec.
  inversion Hh; inversion Hm; inversion Hsec; subst. reflexivity.
Defined.

(** X14.  The listing that the image script prints for an unknown player
    and the player list of the plugin use different filters: the script
    lacks the test for [[].  A name is listed by the script iff it is
    eligible or starts with [[]; so every name of [get_player_list] is
    listed, and a name such as [[bot]] is listed without being in the
    player list. *)
Theorem script_listing_and_player_list {V : Type} (player_data : dict V) :
  (forall name, listed name = eligible name || String.prefix "[" name)
  /\ filter eligible (dict_keys player_data)
     = filter (fun name => negb (String.prefix "[" name))
              (available_players player_data)
  /\ (forall name, In name (get_player_list (Some player_data)) ->
        In name (available_players player_data))
  /\ In "[bot]" (available_players with_sentinels)
  /\ ~ In "[bot]" (get_player_list (Some with_sentinels)).
Proof.
  assert (L : forall name, listed name = eligible name || String.prefix "[" name).
  { intros name. unfold listed, eligible.
    destruct (String.prefix "[" name) eqn:E.
    - rewrite orb_true_r.
      destruct name as [|c name]; [discriminate E|].
      cbn [String.prefix] in E.
      destruct (ascii_dec "[" c) as [<-|]; [reflexivity | discriminate E].
    - rewrite andb_true_r, orb_false_r. reflexivity. }
  split; [exact L|]. split; [|split; [|split]].
  - unfold available_players. rewrite filter_filter. apply filter_ext.
    intros name. rewrite L. destruct (eligible name) eqn:E; simpl.
    + unfold eligible in E. rewrite !andb_true_iff in E.
      destruct E as [_ E]. rewrite E. reflexivity.
    + destruct (String.prefix "[" name); reflexivity.
  - intros name H. unfold get_player_list in H.
    apply (Permutation_in _ (list_sort_perm String.ltb (fun n => n) _)) in H.
    apply filter_In in H as [Hk He].
    unfold available_players. apply filter_In. split; [exact Hk|].
    rewrite L, He. reflexivity.
  - vm_compute. tauto.
  - vm_compute. intros [H|[]]. discriminate H.
Qed.

(** ** The stroke around a text *)

Lemma in_range (lo hi i : Z) : In i (range lo hi) <-> lo <= i < hi.
Proof.
  unfold range. rewrite in_map_iff. split.
  - intros (k & <- & Hk). apply in_seq in Hk. lia.
  - intros H. exists (Z.to_nat (i - lo)). split; [lia|].
    apply in_seq. lia.
Qed.

Lemma range_NoDup (lo hi : Z) : NoDup (range lo hi).
Proof.
  unfold range. apply NoDup_map_NoDup_ForallPairs; [|apply seq_NoDup].
  intros a b _ _ H. lia.
Qed.

Lemma range_length (lo hi : Z) : List.length (range lo hi) = Z.to_nat (hi - lo).
Proof. unfold range. rewrite List.length_map, List.length_seq. reflexivity. Qed.

Lemma flat_map_of_map {A B C : Type} (f : B -> list C) (h : A -> B) (l : list A) :
  flat_map f (map h l) = flat_map (fun a => f (h a)) l.
Proof. induction l as [|a l IH]; simpl; [reflexivity | rewrite IH; reflexivity]. Qed.

Lemma flat_map_prod {A B C : Type} (g : A -> B -> list C) (l : list A) (l' : list B) :
  flat_map (fun a => flat_map (fun b => g a b) l') l
  = flat_map (fun p => g (fst p) (snd p)) (list_prod l l').
Proof.
  induction l as [|a l IH]; simpl; [reflexivity|].
  rewrite flat_map_app, flat_map_of_map, IH. reflexivity.
Qed.

Lemma flat_map_unless {A B : Type} (c : A -> bool) (f : A -> B) (l : list A) :
  flat_map (fun p => if c p then [] else [f p]) l
  = map f (filter (fun p => negb (c p)) l).
Proof.
  induction l as [|a l IH]; simpl; [reflexivity|].
  destruct (c a); simpl; rewrite IH; reflexivity.
Qed.

Lemma list_prod_NoDup {A B : Type} (l : list A) (l' : list B) :
  NoDup l -> NoDup l' -> NoDup (list_prod l l').
Proof.
  intros Hl Hl'. induction Hl as [|a l Ha Hl IH]; simpl; [constructor|].
  apply NoDup_app.
  - apply NoDup_map_NoDup_ForallPairs; [|exact Hl'].
    intros x y _ _ E. congruence.
  - exact IH.
  - intros [x y] H1 H2. apply in_map_iff in H1 as (b & E & _).
    inversion E; subst. apply in_prod_iff in H2. tauto.
Qed.

Lemma filter_all_but_one {A : Type} (c : A -> bool) (a : A) (l : list A) :
  NoDup l -> In a l -> (forall x, c x = true <-> x = a) ->
  S (List.length (filter (fun x => negb (c x)) l)) = List.length l.
Proof.
  intros Hnd Hin Hc. induction Hnd as [|b l Hb Hnd IH]; [destruct Hin|].
  simpl. destruct (c b) eqn:E; simpl.
  - apply Hc in E. subst b. f_equal.
    assert (F : filter (fun x => negb (c x)) l = l).
    { apply forallb_filter_id. apply forallb_forall. intros x Hx.
      destruct (c x) eqn:Ex; [|reflexivity]. apply Hc in Ex. congruence. }
    rewrite F. reflexivity.
  - f_equal. apply IH. destruct Hin as [->|Hin]; [|exact Hin].
    assert (c a = true) by (apply Hc; reflexivity). congruence.
Qed.

(** X15.  [draw_text_with_stroke] with a stroke width [w >= 0] calls
    [draw.text] [(2w+1)^2] times: once in the stroke colour at each of the
    [(2w+1)^2 - 1] offsets around the position, no offset twice, and last
    of all once in the text colour at the position itself; with a negative
    width it draws the text only. *)
Theorem draw_text_with_stroke_calls {Font Color : Type} (x y w : Z) (text : string)
    (font : Font) (text_color stroke_color : Color) :
  0 <= w ->
  (exists strokes,
     draw_text_with_stroke (x, y) text font text_color stroke_color w
     = strokes ++ [mkCall x y text font text_color]
     /\ List.length strokes = Z.to_nat ((2 * w + 1) * (2 * w + 1) - 1)
     /\ NoDup strokes
     /\ forall c, In c strokes <->
          exists dx dy, stroke_offset w dx dy
                        /\ c = mkCall (x + dx) (y + dy) text font stroke_color)
  /\ draw_text_with_stroke (x, y) text font text_color stroke_color (- 1 - w)
     = [mkCall x y text font text_color].
Proof.
  intros Hw. unfold draw_text_with_stroke. split.
  - rewrite (flat_map_prod
               (fun offset offset_y =>
                  if Z.eqb offset 0 && Z.eqb offset_y 0 then []
                  else [mkCall (x + offset) (y + offset_y) text font stroke_color])).
    rewrite (flat_map_unless
               (fun p => Z.eqb (fst p) 0 && Z.eqb (snd p) 0)
               (fun p => mkCall (x + fst p) (y + snd p) text font stroke_color)).
    eexists. split; [reflexivity|].
    assert (ND : NoDup (list_prod (range (- w) (w + 1)) (range (- w) (w + 1))))
      by (apply list_prod_NoDup; apply range_NoDup).
    split; [|split].
    + rewrite List.length_map.
      pose proof (filter_all_but_one
                    (fun p => Z.eqb (fst p) 0 && Z.eqb (snd p) 0) (0, 0)
                    _ ND) as F.
      rewrite length_prod, !range_length in F.
      assert (E : S (List.length
                       (filter (fun p => negb (Z.eqb (fst p) 0 && Z.eqb (snd p) 0))
                               (list_prod (range (- w) (w + 1))
                                          (range (- w) (w + 1)))))
                  = (Z.to_nat (w + 1 - - w) * Z.to_nat (w + 1 - - w))%nat).
      { apply F.
        - apply in_prod_iff. split; apply in_range; lia.
        - intros [a b]. simpl. rewrite andb_true_iff, !Z.eqb_eq. split.
          + intros [-> ->]. reflexivity.
          + intros H. inversion H. auto. }
      nia.
    + apply NoDup_map_NoDup_ForallPairs; [|apply NoDup_filter, ND].
      intros [a b] [a' b'] _ _ E. simpl in E. inversion E. f_equal; lia.
    + intros c. rewrite in_map_iff. split.
      * intros ([dx dy] & <- & H). apply filter_In in H as [H Hnz].
        apply in_prod_iff in H as [Hx Hy]. apply in_range in Hx, Hy.
        exists dx, dy. split; [|reflexivity]. unfold stroke_offset.
        simpl in Hnz. apply negb_true_iff, andb_false_iff in Hnz.
        rewrite !Z.eqb_neq in Hnz. lia.
      * intros (dx & dy & (Hx & Hy & Hnz) & ->). exists (dx, dy).
        split; [reflexivity|]. apply filter_In. split.
        -- apply in_prod_iff. split; apply in_range; lia.
        -- simpl. apply negb_true_iff, andb_false_iff. rewrite !Z.eqb_neq.
           exact Hnz.
  - assert (E : range (- (- 1 - w)) (- 1 - w + 1) = []).
    { unfold range. replace (Z.to_nat _) with 0%nat by lia. reflexivity. }
    rewrite E. reflexivity.
Qed.

Lemma draw_text_with_stroke_calls_witness :
  exists strokes,
    draw_text_with_stroke (160, 460) "text" tt true false 2
    = strokes ++ [mkCall 160 460 "text" tt true]
    /\ List.length strokes = 24%nat.
Proof.
  destruct (draw_text_with_stroke_calls 160 460 2 "text" tt true false)
    as [(strokes & E & L & _) _]; [lia|].
  exists strokes. split; [exact E | exact L].
Defined.

(** ** The text of a ratio *)

Lemma str_nat_digit (n : N) : (n < 10)%N -> (String.length (str_nat n) <= 1)%nat.
Proof.
  intros H.
  assert (A : forallb (fun k => Nat.leb (String.length (str_nat (N.of_nat k))) 1)
                      (seq 0 10) = true) by (vm_compute; reflexivity).
  rewrite forallb_forall in A.
  specialize (A (N.to_nat n)). rewrite N2Nat.id in A.
  apply Nat.leb_le, A, in_seq. lia.
Qed.

Lemma fraction_digits (d : nat) (q : Z) :
  d = 1%nat \/ d = 2%nat ->
  all_digits (zfill d (str_nat (Z.to_N (q mod 10 ^ Z.of_nat d)))) = true
  /\ String.length (zfill d (str_nat (Z.to_N (q mod 10 ^ Z.of_nat d)))) = d.
Proof.
  intros Hd. split.
  - unfold zfill. rewrite all_digits_append, all_digits_zeros, all_digits_str_nat.
    reflexivity.
  - rewrite zfill_length. destruct Hd as [-> | ->].
    + pose proof (str_nat_digit (Z.to_N (q mod 10 ^ Z.of_nat 1))) as L.
      assert (0 <= q mod 10 ^ Z.of_nat 1 < 10)
        by (change (10 ^ Z.of_nat 1) with 10; apply Z.mod_pos_bound; lia).
      lia.
    + pose proof (str_nat_short (Z.to_N (q mod 10 ^ Z.of_nat 2))) as L.
      assert (0 <= q mod 10 ^ Z.of_nat 2 < 100)
        by (change (10 ^ Z.of_nat 2) with 100; apply Z.mod_pos_bound; lia).
      lia.
Qed.

Lemma decimal_body (d : nat) (sign : bool) (q : Z) :
  d = 1%nat \/ d = 2%nat ->
  decimal_text d
    ((if sign then "-" else "")
     ++ (str_nat (Z.to_N (q / 10 ^ Z.of_nat d)) ++ "."
         ++ zfill d (str_nat (Z.to_N (q mod 10 ^ Z.of_nat d)))))%string.
Proof.
  intros Hd. destruct (fraction_digits d q Hd) as [Hf Hl].
  exists (if sign then "-" else "")%string,
    (str_nat (Z.to_N (q / 10 ^ Z.of_nat d))),
    (zfill d (str_nat (Z.to_N (q mod 10 ^ Z.of_nat d)))).
  split; [reflexivity|]. split; [destruct sign; auto|].
  split; [apply str_nat_nonempty|]. split; [apply all_digits_str_nat|].
  split; [exact Hf | exact Hl].
Qed.

Lemma format_fixed_decimal (d : nat) (x : spec_float) :
  d = 1%nat \/ d = 2%nat -> is_finite x = true ->
  decimal_text d (format_fixed d x).
Proof.
  intros Hd Hx. destruct x as [s|s| |s m e]; try discriminate Hx.
  - destruct Hd as [-> | ->]; apply (decimal_body _ s 0); auto.
  - destruct Hd as [-> | ->]; unfold format_fixed; cbv zeta;
      apply (decimal_body _ s); auto.
Qed.

(** X16.  The texts of the two ratio categories.  Every kill/death entry of
    the rankings carries its value written with exactly two decimals.
    Every win-rate entry carries its value written with one decimal and a
    percent sign, unless the multiplication by 100 overflowed: the product
    is then an infinity, no exception is raised and the text is [inf%] (or
    [-inf%]), as for a player with 10^308 wins. *)
Theorem ratio_texts (data : dict (list record)) (r : rankings.t) :
  generate_rankings (Some data) = Ok (Some r, None) ->
  (forall e, In e (rankings.kd_ratio r) ->
     extra e = format_fixed 2 (value e) /\ decimal_text 2 (extra e))
  /\ (forall e, In e (rankings.win_rate r) ->
        extra e = (format_fixed 1 (value e) ++ "%")%string
        /\ (decimal_text 1 (format_fixed 1 (value e))
            \/ (is_finite (value e) = false
                /\ (extra e = "inf%" \/ extra e = "-inf%"))))
  /\ (o <- generate_rankings (Some huge_wins) ;;
      Ok (option_map (fun t => map extra (rankings.win_rate t)) (fst o)))
     = Ok (Some ["inf%"]).
Proof.
  intros H. apply generate_rankings_success in H as (ps & u & _ & _ & Hu & ->).
  destruct (collect_in_mapping_order ps u Hu) as (_ & _ & _ & _ & _ & Hkd & Hwin).
  split; [|split].
  - intros e He. cbn [sort_all rankings.kd_ratio] in He.
    apply (Permutation_in _ (list_sort_reverse_perm float_lt value _)) in He.
    destruct (Forall2_In_right _ _ _ e Hkd He) as (p & _ & (_ & Hv & Hx)).
    split; [exact Hx|]. rewrite Hx. apply format_fixed_decimal; [auto|].
    unfold kd_ratio_of in Hv. eapply int_truediv_ok. exact Hv.
  - intros e He. cbn [sort_all rankings.win_rate] in He.
    apply (Permutation_in _ (list_sort_reverse_perm float_lt value _)) in He.
    destruct (Forall2_In_right _ _ _ e Hwin He) as (p & _ & (_ & Hv & Hx)).
    split; [exact Hx|].
    pose proof (win_rate_of_not_nan _ _ Hv) as Hn.
    rewrite Hx. destruct (value e) as [s|s| |s m ex].
    + left. apply format_fixed_decimal; auto.
    + right. split; [reflexivity|]. destruct s; [right | left]; reflexivity.
    + contradiction Hn. reflexivity.
    + left. apply format_fixed_decimal; auto.
  - vm_compute. reflexivity.
Qed.

Lemma ratio_texts_witness :
  exists r,
    generate_rankings (Some three_killers) = Ok (Some r, None)
    /\ Forall (fun e => decimal_text 2 (extra e)) (rankings.kd_ratio r)
    /\ map extra (rankings.kd_ratio r) = ["10.00"; "5.00"; "5.00"].
Proof.
  eexists. split; [vm_compute; reflexivity|]. split; [|vm_compute; reflexivity].
  apply Forall_forall. intros e He.
  apply (ratio_texts three_killers _ ltac:(vm_compute; reflexivity)).
  exact He.
Defined.

(** ** The command line entry of the rankings *)

Lemma generate_rankings_cases (file : option (dict (list record))) (o : outcome) :
  generate_rankings file = Ok o ->
  (exists data r, file = Some data /\ o = (Some r, None))
  \/ (exists msg, o = (None, Some msg) /\ msg <> "").
Proof.
  unfold generate_rankings. destruct file as [data|].
  - unfold generate_rankings_body.
    destruct (build_roster data) as [ps| |]; cbn [bind].
    + destruct ps as [|p ps].
      * intros H. inversion H. right. eexists. split; [reflexivity | discriminate].
      * destruct (collect (p :: ps)) as [u| |]; cbn [bind]; intros H;
          inversion H.
        -- left. eauto.
        -- right. eexists. split; [reflexivity | discriminate].
    + intros H. inversion H. right. eexists. split; [reflexivity | discriminate].
    + discriminate.
  - intros H. inversion H. right. eexists. split; [reflexivity | discriminate].
Qed.

Lemma leads_sorted {T : Type} (R : T -> T -> Prop) (l : list T) :
  l <> [] -> StronglySorted R l -> leads R l.
Proof.
  destruct l as [|a l]; [congruence|]. intros _ H.
  apply StronglySorted_inv in H. apply H.
Qed.

Lemma summary_line_one {V X : Type} (key : string) (display : entry V X -> string)
    (l : list (entry V X)) :
  l <> [] -> List.length (summary_line key display l) = 1%nat.
Proof. destruct l; [congruence | reflexivity]. Qed.

Lemma rankings_leaders (data : dict (list record)) (r : rankings.t) :
  generate_rankings (Some data) = Ok (Some r, None) ->
  leaders r /\ List.length (summary r) = 7%nat.
Proof.
  intros H. destruct (rankings_players data r H) as (ps & Hps & P).
  apply generate_rankings_success in H as (ps' & u & Hps' & Hne & Hu & ->).
  assert (ps' = ps) by congruence. subst ps'.
  destruct P as (P1 & P2 & P3 & P4 & P5 & P6 & P7).
  pose proof (nonempty_of_roster _ ps Hne P1) as N1.
  pose proof (nonempty_of_roster _ ps Hne P2) as N2.
  pose proof (nonempty_of_roster _ ps Hne P3) as N3.
  pose proof (nonempty_of_roster _ ps Hne P4) as N4.
  pose proof (nonempty_of_roster _ ps Hne P5) as N5.
  pose proof (nonempty_of_roster _ ps Hne P6) as N6.
  pose proof (nonempty_of_roster _ ps Hne P7) as N7.
  split.
  - destruct (collect_in_mapping_order ps u Hu)
      as (_ & _ & _ & _ & _ & Hkd & Hwin).
    unfold leaders. cbn [sort_all rankings.play_time rankings.games_played
      rankings.wins rankings.kills rankings.deaths rankings.kd_ratio
      rankings.win_rate] in *.
    repeat split.
    + apply leads_sorted; [exact N1 | apply sort_desc_Z].
    + apply leads_sorted; [exact N2 | apply sort_desc_Z].
    + apply leads_sorted; [exact N3 | apply sort_desc_Z].
    + apply leads_sorted; [exact N4 | apply sort_desc_Z].
    + apply leads_sorted; [exact N5 | apply sort_asc_Z].
    + apply leads_sorted; [exact N6|].
      apply (sort_desc_float _ (kd_entries_not_nan ps _ Hkd)).
    + apply leads_sorted; [exact N7|].
      apply (sort_desc_float _ (win_entries_not_nan ps _ Hwin)).
  - unfold summary. rewrite !List.length_app.
    rewrite !summary_line_one by assumption. reflexivity.
Qed.

(** X17.  The command line entry of the rankings returns 1 with the error
    line when [generate_rankings] gives no rankings and 0 otherwise; in the
    second case it ends its output with the summary header and seven
    summary lines, one per category, each for the first entry of its list,
    before which no entry of the list ranks.  The line for rankings that
    are missing without an error is never printed. *)
Theorem rankings_main_outcome (verbose : bool) (input_path output_path : string)
    (file : option (dict (list record))) (save_result : bool * option string)
    (o : outcome) :
  generate_rankings file = Ok o ->
  match fst o with
  | Some r =>
      exists middle,
        rankings_main verbose input_path output_path file save_result
        = Ok (0, verbose_head verbose input_path output_path ++ middle
                 ++ [summary_header] ++ summary r)
        /\ (List.length middle <= 2)%nat
        /\ List.length (summary r) = 7%nat
        /\ leaders r
  | None =>
      exists msg,
        o = (None, Some msg)
        /\ rankings_main verbose input_path output_path file save_result
           = Ok (1, verbose_head verbose input_path output_path
                    ++ [("错误: " ++ msg)%string])
  end.
Proof.
  intros H. unfold rankings_main. cbv zeta. rewrite H. cbn [bind].
  destruct (generate_rankings_cases file o H)
    as [(data & r & -> & ->)|(msg & -> & Hmsg)].
  - cbn [fst truthy_text]. cbv iota beta.
    destruct (rankings_leaders data r H) as [L S].
    destruct save_result as [success save_error].
    destruct verbose, success; cbn [negb].
    + exists [("成功处理 " ++ str_nat (N.of_nat (entries_count r))
                 ++ " 条排行榜数据")%string;
              ("排行榜数据已保存到: " ++ output_path)%string].
      split; [|split; [simpl; lia | split; assumption]].
      rewrite <- !List.app_assoc. reflexivity.
    + exists [("成功处理 " ++ str_nat (N.of_nat (entries_count r))
                 ++ " 条排行榜数据")%string;
              ("警告: " ++ str_optional save_error)%string].
      split; [|split; [simpl; lia | split; assumption]].
      rewrite <- !List.app_assoc. reflexivity.
    + exists []. split; [|split; [simpl; lia | split; assumption]].
      reflexivity.
    + exists [("警告: " ++ str_optional save_error)%string].
      split; [|split; [simpl; lia | split; assumption]].
      rewrite <- !List.app_assoc. reflexivity.
  - cbn [fst truthy_text str_optional]. exists msg. split; [reflexivity|].
    apply String.eqb_neq in Hmsg. rewrite Hmsg. reflexivity.
Qed.

Lemma rankings_main_outcome_witness :
  rankings_main false "in.json" "out.json" (Some three_killers) (true, None)
  = Ok (0, [ summary_header;
             "  play_time: A (00:00:00)"; "  games_played: A (0)";
             "  wins: A (0)"; "  kills: B (10)"; "  deaths: A (0)";
             "  kd_ratio: B (10.00)"; "  win_rate: A (0.0%)" ])
  /\ leaders (ranked three_killers).
Proof.
  assert (H : generate_rankings (Some three_killers)
              = Ok (Some (ranked three_killers), None))
    by (vm_compute; reflexivity).
  destruct (rankings_main_outcome false "in.json" "out.json" (Some three_killers)
              (true, None) _ H) as (middle & _ & _ & _ & L).
  split; [vm_compute; reflexivity | exact L].
Defined.
